(** * The tcgcsv price pipeline: a shallow embedding and its properties

    The development follows [scripts/create_data/tcgcsv_pokemon_pipeline.py]:
    the helpers, the tracking files, the price harvester, the dimension
    builder, the merge stage, the rollup routines and the retention pruner,
    in the order of the script.  Tables are pandas frames; files live in a
    record that stands for the base directory; the remote site and the 7z
    extraction are functions of the date or of the group id. *)

From stdpp Require Import base option list gmap strings sorting.
From Stdlib Require Import ZArith Lia.
From Stdlib Require Import Strings.String Strings.Ascii.
From Stdlib Require Import Structures.OrdersEx Numbers.DecimalString.
From Stdlib Require Numbers.DecimalZ Numbers.DecimalPos.

Open Scope string_scope.
Open Scope Z_scope.
Open Scope list_scope.

(** ** Strings *)

Module Str.

Definition is_upper (a : ascii) : bool :=
  let n := nat_of_ascii a in (65 <=? n)%nat && (n <=? 90)%nat.

Definition is_lower (a : ascii) : bool :=
  let n := nat_of_ascii a in (97 <=? n)%nat && (n <=? 122)%nat.

Definition is_digit (a : ascii) : bool :=
  let n := nat_of_ascii a in (48 <=? n)%nat && (n <=? 57)%nat.

Definition is_alnum (a : ascii) : bool := is_digit a || is_lower a || is_upper a.

Definition lower_char (a : ascii) : ascii :=
  if is_upper a then ascii_of_nat (nat_of_ascii a + 32) else a.

(** [re.sub(r"([a-z0-9])([A-Z])", r"\1_\2", s)]: a match ends on an
    upper-case letter, which cannot start the next match, so every
    adjacent pair (lower or digit, upper) gets its underscore. *)
Fixpoint split_camel (s : string) : string :=
  match s with
  | EmptyString => EmptyString
  | String a rest =>
      match rest with
      | String b _ =>
          if (is_lower a || is_digit a) && is_upper b
          then String a (String "_" (split_camel rest))
          else String a (split_camel rest)
      | EmptyString => String a EmptyString
      end
  end.

(** [re.sub(r"[^0-9a-zA-Z]+", "_", s)]: [in_run] records that the previous
    character already belonged to the run being replaced. *)
Fixpoint squash_runs (in_run : bool) (s : string) : string :=
  match s with
  | EmptyString => EmptyString
  | String a rest =>
      if is_alnum a then String a (squash_runs false rest)
      else if in_run then squash_runs true rest
      else String "_" (squash_runs true rest)
  end.

Fixpoint lstrip_us (s : string) : string :=
  match s with
  | String "_" rest => lstrip_us rest
  | _ => s
  end.

Fixpoint rstrip_us (s : string) : string :=
  match s with
  | EmptyString => EmptyString
  | String a rest =>
      match rstrip_us rest with
      | EmptyString => if Ascii.eqb a "_" then EmptyString else String a EmptyString
      | r => String a r
      end
  end.

(** [s.strip("_")] *)
Definition strip_us (s : string) : string := rstrip_us (lstrip_us s).

Fixpoint lower (s : string) : string :=
  match s with
  | EmptyString => EmptyString
  | String a rest => String (lower_char a) (lower rest)
  end.

(** [s.startswith(p)] *)
Definition startswith (s p : string) : bool := String.prefix p s.

(** [s.split("=")[-1]]: what follows the last ["="], the whole string when
    there is none.  [acc] is the segment read since the last ["="]. *)
Fixpoint last_segment (acc : string) (s : string) : string :=
  match s with
  | EmptyString => acc
  | String a rest =>
      if Ascii.eqb a "="
      then last_segment EmptyString rest
      else last_segment (acc +:+ String a EmptyString) rest
  end.

Definition after_last_eq (s : string) : string := last_segment EmptyString s.

(** Python orders [str] by code point; on the byte strings used here that
    is [String.compare]. *)
Definition le (s t : string) : bool := String.leb s t.

End Str.

(** [to_snake] *)
Definition to_snake (s : string) : string :=
  let s := Str.split_camel s in
  let s := Str.squash_runs false s in
  Str.lower (Str.strip_us s).

(** [PRUNE_COLS] *)
Definition PRUNE_COLS : list string :=
  [ "url"; "image_url"; "image_count"; "modified_on_x";
    "presale_is_presale"; "presale_released_on"; "presale_note";
    "modified_on_y"; "extended_data"; "attack_3"; "attack_4"; "attack_5" ].

(** ** Exceptions and results *)

Inductive exn :=
| KeyError (column : string)
| ValueError (msg : string)
| MergeError
| OSError (path : string)
| OverflowError (msg : string)
| RequestError (what : string)
| TypeError.

(** What a call gives: a value, a raised exception, or no answer within the
    iterations granted to a [while] loop. *)
Inductive result (A : Type) :=
| Ok (a : A)
| Raise (e : exn)
| OutOfFuel.
Arguments Ok {A} a.
Arguments Raise {A} e.
Arguments OutOfFuel {A}.

#[global] Instance exn_eq_dec : EqDecision exn.
Proof. solve_decision. Defined.

#[global] Instance result_eq_dec {A} `{EqDecision A} : EqDecision (result A).
Proof. solve_decision. Defined.

Definition rbind {A B} (r : result A) (k : A → result B) : result B :=
  match r with
  | Ok a => k a
  | Raise e => Raise e
  | OutOfFuel => OutOfFuel
  end.

(** ** Keep-first duplicate removal *)

Section keep_first.
Context {A K : Type} `{EqDecision K} (key : A → K).

(** Rows are visited in order; a row is kept when its key has not been
    seen, which is pandas' [keep="first"]. *)
Fixpoint keep_first_from (seen : list K) (l : list A) : list A :=
  match l with
  | [] => []
  | x :: l' =>
      if decide (key x ∈ seen) then keep_first_from seen l'
      else x :: keep_first_from (key x :: seen) l'
  end.

Definition keep_first (l : list A) : list A := keep_first_from [] l.
End keep_first.

(** ** Tables (pandas) *)

Module pd.

Inductive cell :=
| CInt (n : Z)
| CFloat (repr : string)
| CStr (s : string)
| CBool (b : bool).

#[global] Instance cell_eq_dec : EqDecision cell.
Proof. solve_decision. Defined.

(** A frame: its column labels in order, and its rows.  A row maps a label
    to the value it holds; a label without a binding is a null (NaN). *)
Record DataFrame := mkDF {
  columns : list string;
  rows : list (gmap string cell)
}.

#[global] Instance DataFrame_eq_dec : EqDecision DataFrame.
Proof. solve_decision. Defined.

(** [pd.DataFrame()] *)
Definition empty_frame : DataFrame := mkDF [] [].

(** [df.empty]: some axis has length 0. *)
Definition empty (df : DataFrame) : bool :=
  bool_decide (columns df = []) || bool_decide (rows df = []).

(** [len(df)] *)
Definition len (df : DataFrame) : nat := List.length (rows df).

(** Labels are unique and rows hold values under the frame's labels only. *)
Definition wf (df : DataFrame) : Prop :=
  NoDup (columns df)
  ∧ Forall (λ r : gmap string cell, map_Forall (λ c _, c ∈ columns df) r) (rows df).

#[global] Instance wf_dec df : Decision (wf df).
Proof. unfold wf. apply _. Defined.

Definition union_columns (a b : list string) : list string :=
  (a ++ filter (λ c, c ∉ a) b)%list.

(** [pd.concat(dfs, ignore_index=True)]: the union of the labels in order
    of first appearance, the rows one frame after the other; an empty list
    of frames is a [ValueError].  A cell keeps its value: the conversion
    of a column to a common dtype (an integer next to a null becomes a
    float) and the refusal of frames with a repeated label are outside
    this model. *)
Definition concat (dfs : list DataFrame) : result DataFrame :=
  match dfs with
  | [] => Raise (ValueError "No objects to concatenate")
  | _ => Ok (mkDF (foldl union_columns [] (columns <$> dfs)) (dfs ≫= rows))
  end.

(** [df.drop(columns=[c for c in df.columns if c in cs], errors="ignore")] *)
Definition drop (cs : list string) (df : DataFrame) : DataFrame :=
  mkDF (filter (λ c, c ∉ cs) (columns df))
       ((λ r : gmap string cell, filter (λ kv, kv.1 ∉ cs) r) <$> rows df).

(** [df[c] = v] for a scalar [v] *)
Definition set_column (c : string) (v : cell) (df : DataFrame) : DataFrame :=
  mkDF (if decide (c ∈ columns df) then columns df else (columns df ++ [c])%list)
       ((λ r : gmap string cell, <[c := v]> r) <$> rows df).

(** [df.rename(columns={old: new})]; an absent [old] is not an error. *)
Definition rename (old new : string) (df : DataFrame) : DataFrame :=
  mkDF ((λ c, if decide (c = old) then new else c) <$> columns df)
       ((λ r : gmap string cell,
           match r !! old with
           | Some v => <[new := v]> (delete old r)
           | None => if decide (old ∈ columns df) then delete new r else r
           end) <$> rows df).

(** The values of the key columns of a row, nulls included. *)
Definition key_of (subset : list string) (r : gmap string cell) : list (option cell) :=
  (λ c, r !! c) <$> subset.

Definition missing (subset cols : list string) : option string :=
  head (filter (λ c, c ∉ cols) subset).

(** [df.drop_duplicates(keep="first")]: all columns; nulls compare equal. *)
Definition drop_duplicates (df : DataFrame) : DataFrame :=
  mkDF (columns df) (keep_first id (rows df)).

(** [df.drop_duplicates(subset=subset, keep="first")] *)
Definition drop_duplicates_subset (subset : list string) (df : DataFrame) : result DataFrame :=
  match missing subset (columns df) with
  | Some c => Raise (KeyError c)
  | None => Ok (mkDF (columns df) (keep_first (key_of subset) (rows df)))
  end.

(** [str(v)] inside [astype(str)].  A column of integers that also holds a
    null is a float column, whose integers print with [".0"]. *)
Definition str_of_cell (with_null : bool) (v : cell) : string :=
  match v with
  | CInt n =>
      let s := DecimalString.NilZero.string_of_int (Z.to_int n) in
      if with_null then s +:+ ".0" else s
  | CFloat s => s
  | CStr s => s
  | CBool true => "True"
  | CBool false => "False"
  end.

Definition has_null (c : string) (df : DataFrame) : bool :=
  bool_decide (Exists (λ r : gmap string cell, r !! c = None) (rows df)).

(** [df[c].astype(str)], row by row *)
Definition astype_str_values (c : string) (df : DataFrame) : list string :=
  (λ r : gmap string cell,
     match r !! c with
     | Some v => str_of_cell (has_null c df) v
     | None => "nan"
     end) <$> rows df.

(** [df[c] = df[c].astype(str)] *)
Definition astype_str (c : string) (df : DataFrame) : result DataFrame :=
  if decide (c ∈ columns df) then
    Ok (mkDF (columns df)
          ((λ r : gmap string cell,
              <[c := CStr (match r !! c with
                           | Some v => str_of_cell (has_null c df) v
                           | None => "nan"
                           end)]> r) <$> rows df))
  else Raise (KeyError c).

(** [df[c].astype(str).unique()]: distinct values, first appearance first *)
Definition unique_str (c : string) (df : DataFrame) : result (list string) :=
  if decide (c ∈ columns df) then Ok (keep_first id (astype_str_values c df))
  else Raise (KeyError c).

(** [df[c].unique()]: the distinct values of a column, a null included *)
Definition column_values (c : string) (df : DataFrame) : list (option cell) :=
  keep_first id ((λ r : gmap string cell, r !! c) <$> rows df).

(** Re-label the bindings of a row. *)
Definition relabel (f : string → string) (r : gmap string cell) : gmap string cell :=
  list_to_map ((λ kv : string * cell, (f kv.1, kv.2)) <$> map_to_list r).

(** The labels of a left join: a label of both frames that is not a key
    gets the suffix ["_x"] on the left and ["_y"] on the right. *)
Definition shared (left right : DataFrame) (on : list string) (c : string) : bool :=
  bool_decide (c ∈ columns left ∧ c ∈ columns right ∧ c ∉ on).

Definition left_label (left right : DataFrame) (on : list string) (c : string) : string :=
  if shared left right on c then c +:+ "_x" else c.

Definition right_label (left right : DataFrame) (on : list string) (c : string) : string :=
  if shared left right on c then c +:+ "_y" else c.

Definition right_labels (left right : DataFrame) (on : list string) : list string :=
  right_label left right on <$> filter (λ c, c ∉ on) (columns right).

Definition merged_columns (left right : DataFrame) (on : list string) : list string :=
  (left_label left right on <$> columns left) ++ right_labels left right on.

(** The rows of the right frame with the key values of a left row *)
Definition matches (right : DataFrame) (on : list string) (l : gmap string cell)
    : list (gmap string cell) :=
  filter (λ r, key_of on r = key_of on l) (rows right).

(** The rows a left row gives: one per match, in the right frame's order,
    or the row alone, with nulls on the right, when nothing matches *)
Definition join_row (left right : DataFrame) (on : list string) (l : gmap string cell)
    : list (gmap string cell) :=
  match matches right on l with
  | [] => [relabel (left_label left right on) l]
  | ms =>
      (λ r : gmap string cell,
         relabel (left_label left right on) l
           ∪ relabel (right_label left right on) (filter (λ kv, kv.1 ∉ on) r)) <$> ms
  end.

(** [left.merge(right, on=on, how="left")]; the left order is kept.  A key
    that is not a label of both frames, a label that is not unique, and
    suffixes that produce a duplicate label raise.  The dtypes of the key
    columns are not compared: a merge that pandas refuses for an integer
    key against a string key returns here. *)
Definition merge_left (left right : DataFrame) (on : list string) : result DataFrame :=
  match missing on (columns left), missing on (columns right) with
  | Some c, _ | None, Some c => Raise (KeyError c)
  | None, None =>
      if negb (bool_decide (NoDup (columns left)) && bool_decide (NoDup (columns right)))
      then Raise (ValueError "The column label is not unique")
      else if negb (bool_decide (NoDup (merged_columns left right on))) then Raise MergeError
      else Ok (mkDF (merged_columns left right on) (rows left ≫= join_row left right on))
  end.

End pd.

(** ** The base directory *)

(** What the pipeline did, in order: the raw partitions it wrote, the days
    it marked, the rollup routines it entered.  The journal is not a file;
    it records the order of the effects. *)
Inductive event :=
| WroteRaw (day : string)
| MarkedDay (day : string)
| Called (routine : string).

#[global] Instance event_eq_dec : EqDecision event.
Proof. solve_decision. Defined.

(** An entry of [daily_prices/]: a plain file, or a directory with its
    [part.parquet] when there is one. *)
Inductive RawEntry :=
| PlainFile
| Directory (part : option pd.DataFrame).

#[global] Instance RawEntry_eq_dec : EqDecision RawEntry.
Proof. solve_decision. Defined.

(** The files of the base directory that outlive a run.  The scratch
    directories [archives/] and [extracted/], which every run creates and a
    run that returns early leaves behind, are not among them; what a run
    finds in them is part of the [World].  A [daily_prices/] without entry
    stands for a missing one as well: the pipeline does not tell them
    apart. *)
Record BaseDir := mkBase {
  (** [processed_days.txt] and [processed_products.txt], one key per line *)
  processed_days : list string;
  processed_products : list string;
  (** [groups.parquet], [products.parquet] *)
  groups_file : option pd.DataFrame;
  products_file : option pd.DataFrame;
  (** [daily_prices/]: its entries by name *)
  daily_prices : gmap string RawEntry;
  (** [daily/]: the [part.parquet] of each partition directory, by the name
      of the directory *)
  daily : gmap string pd.DataFrame;
  (** [pokemon_prices_with_full_features.parquet] *)
  rollup : option pd.DataFrame;
  journal : list event
}.

#[global] Instance BaseDir_eq_dec : EqDecision BaseDir.
Proof. solve_decision. Defined.

(** Statements run on the base directory and may raise; the directory keeps
    what was written before the exception. *)
Definition M (A : Type) : Type := BaseDir → BaseDir * result A.

Definition ret {A} (a : A) : M A := λ st, (st, Ok a).

Definition bind {A B} (m : M A) (k : A → M B) : M B :=
  λ st,
    match m st with
    | (st', Ok a) => k a st'
    | (st', Raise e) => (st', Raise e)
    | (st', OutOfFuel) => (st', OutOfFuel)
    end.

Definition raise {A} (e : exn) : M A := λ st, (st, Raise e).

Definition lift {A} (r : result A) : M A := λ st, (st, r).

Definition gets {A} (f : BaseDir → A) : M A := λ st, (st, Ok (f st)).

Definition modify (f : BaseDir → BaseDir) : M unit := λ st, (f st, Ok tt).

Definition emit (e : event) : M unit :=
  modify (λ st,
    mkBase (processed_days st) (processed_products st) (groups_file st)
      (products_file st) (daily_prices st) (daily st) (rollup st)
      (journal st ++ [e])%list).

Notation "'let*' x := m 'in' k" := (bind m (λ x, k))
  (at level 10, x name, m at level 100, k at level 200, only parsing).
Notation "'let*' ' p := m 'in' k" := (bind m (λ x, match x with p => k end))
  (at level 10, p pattern, m at level 100, k at level 200, only parsing).

(** ** The remote site and the archives *)

(** A [prices] file of a group directory, by what [json.load],
    [data.get("results", [])] and [pd.DataFrame(results)] make of it:
    - an exception inside the [try] (no JSON, no object, a value that the
      frame constructor refuses);
    - a frame whose labels are strings, given with its labels in snake case
      (no row for an empty [results]);
    - a frame with a label that is not a string, as a list of numbers or of
      lists gives: [to_snake] raises [TypeError] on it, outside the [try]. *)
Inductive PricesFile :=
| Unparsable
| Results (df : pd.DataFrame)
| Unlabelled.

Record GroupDir := {
  is_dir : bool;
  prices : option PricesFile
}.

(** The extracted day: its name and its category directory ["3"], when it
    is there, as a list of named entries. *)
Record DayRoot := {
  day_name : string;
  category : option (list (string * GroupDir))
}.

Inductive jval :=
| JNull
| JVal (v : pd.cell).

(** One element of [extendedData]: [ext.get("name", "")], [ext.get("value")] *)
Record ExtAttr := {
  ext_name : string;
  ext_value : jval
}.

(** A product of the products endpoint: its items other than [presaleInfo]
    and [extendedData], then those two. *)
Record Product := {
  items : list (string * jval);
  presaleInfo : list (string * jval);
  extendedData : list ExtAttr
}.

(** What a run finds outside the files of [BaseDir]: the answers of the
    site, the scratch directories [archives/] and [extracted/], and the
    order in which the file system lists a directory. *)
Record World := {
  (** [download_archive] gives a path for the day: its archive is in
      [archives/] already and not empty, or the site answers with status
      200 *)
  archive_found : Z → bool;
  (** [extract_archive]: the category directory of the day's tree in
      [extracted/], left by an earlier extraction or taken from the
      archive; [None] when the archive holds none *)
  extracted : Z → option (list (string * GroupDir));
  (** does [to_parquet] fail on the raw partition of the day? *)
  raw_write_fails : Z → bool;
  (** [fetch_groups] *)
  groups_response : result pd.DataFrame;
  (** the [results] of the products endpoint for a group id *)
  products_response : string → result (list Product);
  (** [(base_dir / "daily").rglob("*.parquet")]: the partitions of [daily/]
      in the order the file system lists them, each one once *)
  rglob : gmap string pd.DataFrame → list (string * pd.DataFrame);
  rglob_listing : ∀ m, rglob m ≡ₚ map_to_list m
}.

(** [date.max.toordinal()]; dates are proleptic Gregorian ordinals. *)
Definition MAXORD : Z := 3652059.

(** [d + timedelta(days=step)] *)
Definition date_add (d step : Z) : result Z :=
  if (1 <=? d + step) && (d + step <=? MAXORD) then Ok (d + step)
  else Raise (OverflowError "date value out of range").

(** A Python [dict] with string keys: insertion order, one binding a key. *)
Fixpoint dict_set {A} (k : string) (v : A) (d : list (string * A)) : list (string * A) :=
  match d with
  | [] => [(k, v)]
  | (k', v') :: d' =>
      if decide (k' = k) then (k, v) :: d' else (k', v') :: dict_set k v d'
  end.

Fixpoint dict_get {A} (k : string) (d : list (string * A)) : option A :=
  match d with
  | [] => None
  | (k', v') :: d' => if decide (k' = k) then Some v' else dict_get k d'
  end.

(** [pd.DataFrame(dicts)]: the keys in order of first appearance; a [None]
    value is a null. *)
Definition row_of_dict (d : list (string * jval)) : gmap string pd.cell :=
  list_to_map (omap (λ kv : string * jval,
                       match kv.2 with JVal v => Some (kv.1, v) | JNull => None end) d).

Definition from_dicts (ds : list (list (string * jval))) : pd.DataFrame :=
  pd.mkDF (keep_first id (ds ≫= λ d, fst <$> d)) (row_of_dict <$> ds).

(** [l[:k]] *)
Definition slice_to {A} (k : Z) (l : list A) : list A :=
  if 0 <=? k then take (Z.to_nat k) l
  else take (Z.to_nat (Z.of_nat (List.length l) + k)) l.

(** [sorted(l, key=key, reverse=True)]: descending and stable. *)
Fixpoint insert_desc {A} (key : A → string) (x : A) (l : list A) : list A :=
  match l with
  | [] => [x]
  | y :: l' =>
      if Str.le (key y) (key x) then x :: y :: l'
      else y :: insert_desc key x l'
  end.

Fixpoint sorted_desc {A} (key : A → string) (l : list A) : list A :=
  match l with
  | [] => []
  | x :: l' => insert_desc key x (sorted_desc key l')
  end.

Definition same_set {A} `{EqDecision A} (a b : list A) : bool :=
  bool_decide (a ⊆ b ∧ b ⊆ a).

(** Field updates of the base directory. *)
Definition with_processed_days (f : list string → list string) (st : BaseDir) : BaseDir :=
  mkBase (f (processed_days st)) (processed_products st) (groups_file st)
    (products_file st) (daily_prices st) (daily st) (rollup st) (journal st).

Definition with_processed_products (f : list string → list string) (st : BaseDir) : BaseDir :=
  mkBase (processed_days st) (f (processed_products st)) (groups_file st)
    (products_file st) (daily_prices st) (daily st) (rollup st) (journal st).

Definition with_groups_file (x : option pd.DataFrame) (st : BaseDir) : BaseDir :=
  mkBase (processed_days st) (processed_products st) x
    (products_file st) (daily_prices st) (daily st) (rollup st) (journal st).

Definition with_products_file (x : option pd.DataFrame) (st : BaseDir) : BaseDir :=
  mkBase (processed_days st) (processed_products st) (groups_file st)
    x (daily_prices st) (daily st) (rollup st) (journal st).

Definition with_daily_prices
    (f : gmap string RawEntry → gmap string RawEntry) (st : BaseDir) : BaseDir :=
  mkBase (processed_days st) (processed_products st) (groups_file st)
    (products_file st) (f (daily_prices st)) (daily st) (rollup st) (journal st).

Definition with_daily
    (f : gmap string pd.DataFrame → gmap string pd.DataFrame) (st : BaseDir) : BaseDir :=
  mkBase (processed_days st) (processed_products st) (groups_file st)
    (products_file st) (daily_prices st) (f (daily st)) (rollup st) (journal st).

Definition with_rollup (x : option pd.DataFrame) (st : BaseDir) : BaseDir :=
  mkBase (processed_days st) (processed_products st) (groups_file st)
    (products_file st) (daily_prices st) (daily st) x (journal st).

(** [df.to_parquet(...)] refuses a frame with a repeated label.  The frames
    made of what the remote site sends are tested; the other frames written
    are read from parquet files or built from dicts and merges, whose labels
    are unique.  The refusal of a column that mixes types is outside this
    model. *)
Definition to_parquet_check (df : pd.DataFrame) : M unit :=
  if bool_decide (NoDup (pd.columns df)) then ret tt
  else raise (ValueError "Duplicate column names found").

(** [str(n)] for an [int] *)
Definition str_of_int (n : Z) : string :=
  DecimalString.NilZero.string_of_int (Z.to_int n).

(** [df.isna().all().all()] *)
Definition all_null (df : pd.DataFrame) : bool :=
  bool_decide (Forall (λ r : gmap string pd.cell,
                         Forall (λ c, r !! c = None) (pd.columns df)) (pd.rows df)).

(** The three key columns of the enriched partitions and of the rollup. *)
Definition KEY : list string := ["product_id"; "date"; "sub_type_name"].

(** ** The pipeline *)

Section Pipeline.

(** [f"{d:%Y-%m-%d}"] *)
Variable strftime : Z → string.
Variable W : World.

(** *** Tracking *)

Definition load_processed_days : M (list string) := gets processed_days.

Definition mark_day_processed (d : Z) : M unit :=
  let* _ := modify (with_processed_days (λ l, l ++ [strftime d])%list) in
  emit (MarkedDay (strftime d)).

Definition load_processed_products : M (list string) := gets processed_products.

Definition mark_product_processed (gid : string) : M unit :=
  modify (with_processed_products (λ l, l ++ [gid])%list).

(** *** Archive download and extraction *)

(** The path of the day's archive, cached or downloaded, if there is one;
    the archive of a day is named by the day. *)
Definition download_archive (d : Z) : option Z :=
  if archive_found W d then Some d else None.

(** The day's tree under [extracted/], cached or extracted *)
Definition extract_archive (a : Z) : option DayRoot :=
  match extracted W a with
  | None => None
  | Some cat => Some {| day_name := strftime a; category := Some cat |}
  end.

(** *** Price harvesting *)

(** The body of [for group_dir in cat_path.iterdir()]: the frame appended
    to [rows], if any *)
Definition harvest_group (date_str : string) (e : string * GroupDir)
    : result (option pd.DataFrame) :=
  let '(group_id, g) := e in
  if negb (is_dir g) then Ok None
  else
    match prices g with
    | None => Ok None
    | Some Unparsable => Ok None
    | Some Unlabelled => Raise TypeError
    | Some (Results df) =>
        if bool_decide (pd.rows df = []) then Ok None
        else Ok (Some (pd.set_column "groupid" (pd.CStr group_id)
                         (pd.set_column "date" (pd.CStr date_str) df)))
    end.

Fixpoint harvest_loop (date_str : string) (cat_path : list (string * GroupDir))
    (rows : list pd.DataFrame) : result (list pd.DataFrame) :=
  match cat_path with
  | [] => Ok rows
  | e :: rest =>
      rbind (harvest_group date_str e) (λ o,
        harvest_loop date_str rest
          (match o with Some df => rows ++ [df] | None => rows end)%list)
  end.

Definition harvest_prices_for_day (day_root : DayRoot) : result pd.DataFrame :=
  let date_str := day_name day_root in
  match category day_root with
  | None => Ok pd.empty_frame
  | Some cat_path =>
      rbind (harvest_loop date_str cat_path []) (λ rows,
        let valid :=
          filter (λ df, negb (pd.empty df) && negb (all_null df) = true) rows in
        match valid with
        | [] => Ok pd.empty_frame
        | _ => pd.concat valid
        end)
  end.

(** [ensure_dir(out_path.parent); df.to_parquet(out_path, ...)] for the raw
    partition of a day *)
Definition write_raw_partition (d : Z) (df : pd.DataFrame) : M unit :=
  let name := "date=" +:+ strftime d in
  let* entry := gets (λ st, daily_prices st !! name) in
  match entry with
  | Some PlainFile => raise (OSError name)
  | _ =>
      let* _ := match entry with
                | None => modify (with_daily_prices (insert name (Directory None)))
                | _ => ret tt
                end in
      if raw_write_fails W d then raise (OSError name)
      else
        let* _ := to_parquet_check df in
        let* _ := modify (with_daily_prices (insert name (Directory (Some df)))) in
        emit (WroteRaw (strftime d))
  end.

(** The [while d <= end_date] loop of [build_prices]; [fuel] bounds the
    number of times its condition is tested. *)
Fixpoint build_prices_loop (fuel : nat) (processed : list string) (end_date step : Z)
    (d : Z) (all_frames : list pd.DataFrame) (new_days : list string)
    : M (list pd.DataFrame * list string) :=
  match fuel with
  | O => λ st, (st, OutOfFuel)
  | S fuel =>
      let continue frames days :=
        let* d' := lift (date_add d step) in
        build_prices_loop fuel processed end_date step d' frames days in
      if d <=? end_date then
        if decide (strftime d ∈ processed) then continue all_frames new_days
        else
          match download_archive d with
          | None => continue all_frames new_days
          | Some a =>
              match extract_archive a with
              | None => continue all_frames new_days
              | Some day_root =>
                  let* df := lift (harvest_prices_for_day day_root) in
                  if pd.empty df then continue all_frames new_days
                  else
                    let df := pd.drop PRUNE_COLS df in
                    let* _ := write_raw_partition d df in
                    let* _ := mark_day_processed d in
                    continue (all_frames ++ [df])%list (new_days ++ [strftime d])%list
              end
          end
      else ret (all_frames, new_days)
  end.

Definition build_prices (fuel : nat) (start_date end_date step : Z)
    : M (pd.DataFrame * list string) :=
  let* processed := load_processed_days in
  let* '(all_frames, new_days) :=
    build_prices_loop fuel processed end_date step start_date [] [] in
  match all_frames with
  | [] => ret (pd.empty_frame, new_days)
  | _ => let* df := lift (pd.concat all_frames) in ret (df, new_days)
  end.

(** *** Groups and products *)

(** The dict comprehension of [fetch_products_for_group] *)
Definition flatten_items (its : list (string * jval)) : list (string * jval) :=
  foldl (λ flat kv, dict_set (to_snake kv.1) kv.2 flat) [] its.

(** [for k, v in presale.items(): flat[to_snake(f"presale_{k}")] = v] *)
Definition flatten_presale (flat : list (string * jval)) (presale : list (string * jval))
    : list (string * jval) :=
  foldl (λ flat kv, dict_set (to_snake ("presale_" +:+ kv.1)) kv.2 flat) flat presale.

(** One turn of the loop over [extendedData], on [flat] and [attacks_seen] *)
Definition ext_step (acc : list (string * jval) * Z) (ext : ExtAttr)
    : list (string * jval) * Z :=
  let '(flat, attacks_seen) := acc in
  let key := to_snake (ext_name ext) in
  let val := ext_value ext in
  if decide (key = "") then (flat, attacks_seen)
  else if Str.startswith key "attack" then
    let attacks_seen := attacks_seen + 1 in
    if 2 <? attacks_seen then (flat, attacks_seen)
    else (dict_set ("attack_" +:+ str_of_int attacks_seen) val flat, attacks_seen)
  else (dict_set key val flat, attacks_seen).

(** The body of [for prod in data], giving [flat] *)
Definition flatten_product (prod : Product) : list (string * jval) :=
  let flat := flatten_items (items prod) in
  let flat := flatten_presale flat (presaleInfo prod) in
  (foldl ext_step (flat, 0) (extendedData prod)).1.

Definition fetch_products_for_group (group_id : string) : result pd.DataFrame :=
  rbind (products_response W group_id) (λ data,
    let rows := flatten_product <$> data in
    let df := from_dicts rows in
    Ok (pd.drop PRUNE_COLS df)).

(** The [for gid in ...] loop of [build_products_and_groups] *)
Fixpoint products_loop (processed_products : list string) (gids : list string)
    (all_products : list pd.DataFrame) : M (list pd.DataFrame) :=
  match gids with
  | [] => ret all_products
  | gid :: rest =>
      let* cached := gets (λ st, bool_decide (is_Some (products_file st))) in
      if bool_decide (gid ∈ processed_products) && cached
      then products_loop processed_products rest all_products
      else
        match fetch_products_for_group gid with
        | Ok df =>
            if negb (pd.empty df) then
              let df := pd.set_column "group_id" (pd.CStr gid) df in
              let* _ := mark_product_processed gid in
              products_loop processed_products rest (all_products ++ [df])%list
            else products_loop processed_products rest all_products
        | _ => products_loop processed_products rest all_products
        end
  end.

Definition build_products_and_groups : M (pd.DataFrame * pd.DataFrame) :=
  let* cached_groups := gets groups_file in
  let* groups_df :=
    match cached_groups with
    | Some df => ret df
    | None =>
        let* df := lift (groups_response W) in
        let* _ := to_parquet_check df in
        let* _ := modify (with_groups_file (Some df)) in
        ret df
    end in
  let* processed_products := load_processed_products in
  let* gids := lift (pd.unique_str "group_id" groups_df) in
  let* all_products := products_loop processed_products gids [] in
  let* old := gets products_file in
  let* products_df :=
    match all_products with
    | _ :: _ =>
        let* new_products_df := lift (pd.concat all_products) in
        let* products_df :=
          match old with
          | Some old_products_df => lift (pd.concat [old_products_df; new_products_df])
          | None => ret new_products_df
          end in
        let* _ := modify (with_products_file (Some products_df)) in
        ret products_df
    | [] =>
        ret (match old with Some df => df | None => pd.empty_frame end)
    end in
  let groups_df := pd.rename "group_id" "groupid" groups_df in
  let products_df := pd.rename "group_id" "groupid" products_df in
  let products_df := pd.drop_duplicates products_df in
  ret (groups_df, products_df).

(** *** The rollup file *)

(** [daily/] holds what the merge stage writes: one [part.parquet] in each
    partition directory. *)
Definition build_full_file : M unit :=
  let* _ := emit (Called "build_full_file") in
  let* daily_files := gets (λ st, rglob W (daily st)) in
  let all_dates : list string :=
    (λ f : string * pd.DataFrame, Str.after_last_eq f.1) <$> daily_files in
  let* out_file := gets rollup in
  let up_to_date :=
    match out_file with
    | Some old_df =>
        let existing_dates : list (option pd.cell) :=
          if decide ("date" ∈ pd.columns old_df) then pd.column_values "date" old_df
          else [] in
        same_set existing_dates ((λ s, Some (pd.CStr s)) <$> all_dates)
    | None => false
    end in
  if up_to_date then ret tt
  else
    let dfs : list pd.DataFrame := snd <$> daily_files in
    let* full_df := lift (pd.concat dfs) in
    modify (with_rollup (Some full_df)).

Definition is_partition (e : string * RawEntry) : bool :=
  match e.2 with
  | Directory _ => Str.startswith e.1 "date="
  | PlainFile => false
  end.

Definition prune_old_daily_prices (keep_days : Z) : M unit :=
  let* entries := gets (λ st, map_to_list (daily_prices st)) in
  let partitions := filter (λ p, is_partition p = true) entries in
  match partitions with
  | [] => ret tt
  | _ =>
      let partitions_sorted :=
        sorted_desc (λ p : string * RawEntry, Str.after_last_eq p.1) partitions in
      let keep := slice_to keep_days partitions_sorted in
      let delete := filter (λ p, p.1 ∉ keep.*1) partitions_sorted in
      modify (with_daily_prices (filter (λ p : string * RawEntry, p.1 ∉ delete.*1)))
  end.

Definition append_to_full_file (new_days : list string) : M unit :=
  let* _ := emit (Called "append_to_full_file") in
  let* out_file := gets rollup in
  match out_file with
  | None => build_full_file
  | Some old_df =>
      let* partitions := gets daily in
      let new_dfs := omap (λ day, partitions !! ("date=" +:+ day)) new_days in
      match new_dfs with
      | [] => ret tt
      | _ =>
          let* new_df := lift (pd.concat new_dfs) in
          let* full_df := lift (pd.concat [old_df; new_df]) in
          let* full_df := lift (pd.drop_duplicates_subset KEY full_df) in
          modify (with_rollup (Some full_df))
      end
  end.

(** *** Main *)

(** The merge of one day: the two left joins and the duplicate removal *)
Definition merge_day (day_prices products_df groups_df : pd.DataFrame) : result pd.DataFrame :=
  rbind (pd.merge_left day_prices products_df ["groupid"; "product_id"]) (λ merged_df,
  rbind (pd.merge_left merged_df groups_df ["groupid"]) (λ merged_df,
  pd.drop_duplicates_subset KEY merged_df)).

(** The [for day in new_days] loop of [main] *)
Fixpoint merge_loop (products_df groups_df : pd.DataFrame) (new_days : list string) : M unit :=
  match new_days with
  | [] => ret tt
  | day :: rest =>
      let name := "date=" +:+ day in
      let* entry := gets (λ st, daily_prices st !! name) in
      match entry with
      | Some (Directory (Some day_prices)) =>
          let* merged_df := lift (merge_day day_prices products_df groups_df) in
          let* _ := modify (with_daily (insert name merged_df)) in
          merge_loop products_df groups_df rest
      | _ => raise (OSError name)
      end
  end.

Definition main (fuel : nat) (start_date end_date interval : Z) (full_file : bool) : M Z :=
  let* '(prices_df, new_days) := build_prices fuel start_date end_date interval in
  match new_days with
  | [] => ret 0
  | _ =>
      let* '(groups_df, products_df) := build_products_and_groups in
      let* products_df := lift (pd.astype_str "groupid" products_df) in
      let* groups_df := lift (pd.astype_str "groupid" groups_df) in
      let groups_df := pd.drop PRUNE_COLS groups_df in
      let products_df := pd.drop PRUNE_COLS products_df in
      let* _ := merge_loop products_df groups_df new_days in
      let* _ := if full_file then build_full_file else ret tt in
      let* _ := prune_old_daily_prices 7 in
      ret 0
  end.

End Pipeline.

(** ** Calendar dates *)

(** [datetime._ord2ymd] *)
Definition DAYS_BEFORE_MONTH : list Z :=
  [0; 0; 31; 59; 90; 120; 151; 181; 212; 243; 273; 304; 334].

Definition DAYS_IN_MONTH : list Z :=
  [0; 31; 28; 31; 30; 31; 30; 31; 31; 30; 31; 30; 31].

Definition ord2ymd (n : Z) : Z * Z * Z :=
  let n := n - 1 in
  let n400 := n / 146097 in
  let n := n mod 146097 in
  let year := n400 * 400 + 1 in
  let n100 := n / 36524 in
  let n := n mod 36524 in
  let n4 := n / 1461 in
  let n := n mod 1461 in
  let n1 := n / 365 in
  let n := n mod 365 in
  let year := year + n100 * 100 + n4 * 4 + n1 in
  if (n1 =? 4) || (n100 =? 4) then (year - 1, 12, 31)
  else
    let leapyear := (n1 =? 3) && (negb (n4 =? 24) || (n100 =? 3)) in
    let month := Z.shiftr (n + 50) 5 in
    let preceding :=
      nth (Z.to_nat month) DAYS_BEFORE_MONTH 0
      + (if (2 <? month) && leapyear then 1 else 0) in
    if n <? preceding then
      let month := month - 1 in
      let preceding :=
        preceding - (nth (Z.to_nat month) DAYS_IN_MONTH 0
                     + (if (month =? 2) && leapyear then 1 else 0)) in
      (year, month, n - preceding + 1)
    else (year, month, n - preceding + 1).

Definition pad2 (n : Z) : string :=
  if n <? 10 then "0" +:+ str_of_int n else str_of_int n.

(** ["%Y-%m-%d"] of the date with ordinal [n], for the years from 1000 on *)
Definition strftime_ymd (n : Z) : string :=
  let '(y, m, d) := ord2ymd n in
  str_of_int y +:+ "-" +:+ pad2 m +:+ "-" +:+ pad2 d.

(** ** Reference definitions for the properties *)

Definition ext_key (e : ExtAttr) : string := to_snake (ext_name e).

Definition is_attack (e : ExtAttr) : bool := Str.startswith (ext_key e) "attack".

(** Following the specification: the first two attack attributes are kept,
    every later one is dropped; [seen] counts the attacks met so far. *)
Fixpoint cap_attacks (seen : nat) (exts : list ExtAttr) : list ExtAttr :=
  match exts with
  | [] => []
  | e :: rest =>
      if is_attack e then
        if (seen <? 2)%nat then e :: cap_attacks (S seen) rest
        else cap_attacks (S seen) rest
      else e :: cap_attacks seen rest
  end.


(** The value a cell of a frame takes from a JSON value *)
Definition cell_of (v : jval) : option pd.cell :=
  match v with JVal c => Some c | JNull => None end.


(** The raw partitions of [daily_prices/] and the key they are sorted by *)
Definition raw_partitions (st : BaseDir) : list (string * RawEntry) :=
  filter (λ p, is_partition p = true) (map_to_list (daily_prices st)).

Definition partition_key (p : string * RawEntry) : string := Str.after_last_eq p.1.

(** No two rows of the frame have the same (product_id, date, sub_type_name). *)
Definition unique_keys (df : pd.DataFrame) : Prop :=
  NoDup (pd.key_of KEY <$> pd.rows df).

#[global] Instance unique_keys_dec df : Decision (unique_keys df).
Proof. unfold unique_keys. apply _. Defined.

(** The dates of the partition directories of [daily/] *)
Definition partition_dates (st : BaseDir) : list string :=
  (λ f : string * pd.DataFrame, Str.after_last_eq f.1) <$> map_to_list (daily st).

(** The distinct values of the [date] column of a rollup, as
    [build_full_file] reads them: none when the column cannot be read *)
Definition date_values (df : pd.DataFrame) : list (option pd.cell) :=
  if decide ("date" ∈ pd.columns df) then pd.column_values "date" df else [].

(** The test of [build_full_file]: a rollup exists and its dates are the
    dates of the partitions. *)
Definition rollup_matches (st : BaseDir) : bool :=
  match rollup st with
  | Some old_df =>
      same_set (date_values old_df) ((λ s, Some (pd.CStr s)) <$> partition_dates st)
  | None => false
  end.

(** The frames of the enriched partitions, in the order the file system
    lists them *)
Definition all_partitions (W : World) (st : BaseDir) : list pd.DataFrame :=
  snd <$> rglob W (daily st).

(** The partition directory [name] has a [date] column, at least one row,
    and only rows of the date its name gives. *)
Definition dated (name : string) (df : pd.DataFrame) : Prop :=
  "date" ∈ pd.columns df
  ∧ pd.rows df ≠ []
  ∧ Forall (λ r : gmap string pd.cell,
              r !! "date" = Some (pd.CStr (Str.after_last_eq name))) (pd.rows df).

#[global] Instance dated_dec name df : Decision (dated name df).
Proof. unfold dated. apply _. Defined.

(** No row of one frame has the key of a row of the other. *)
Definition disjoint_keys (df1 df2 : pd.DataFrame) : Prop :=
  Forall (λ r1, Forall (λ r2, pd.key_of KEY r1 ≠ pd.key_of KEY r2) (pd.rows df2))
    (pd.rows df1).

#[global] Instance disjoint_keys_dec df1 df2 : Decision (disjoint_keys df1 df2).
Proof. unfold disjoint_keys. apply _. Defined.

(** The enriched partitions found for the new days, in the order of the days *)
Definition new_partitions (new_days : list string) (st : BaseDir) : list pd.DataFrame :=
  omap (λ day, daily st !! ("date=" +:+ day)) new_days.

(** The base directory after an entry of the journal *)
Definition journaled (e : event) (st : BaseDir) : BaseDir := (emit e st).1.

(** Following the specification: the product rows newly fetched in a run.
    A group is fetched unless it is tracked as processed while a products
    cache exists; a fetch that fails or gives an empty frame adds nothing;
    the rows of a group are tagged with its id. *)
Definition fetched_frame (W : World) (gid : string) : option pd.DataFrame :=
  match fetch_products_for_group W gid with
  | Ok df => if pd.empty df then None else Some (pd.set_column "group_id" (pd.CStr gid) df)
  | _ => None
  end.

Definition newly_fetched (W : World) (processed : list string) (cached : bool)
    (gids : list string) : list pd.DataFrame :=
  omap (fetched_frame W) (filter (λ gid, ¬ (gid ∈ processed ∧ cached = true)) gids).

(** Everything in the base directory but the tracking file of the groups *)
Definition same_files (st st' : BaseDir) : Prop :=
  processed_days st' = processed_days st
  ∧ groups_file st' = groups_file st
  ∧ products_file st' = products_file st
  ∧ daily_prices st' = daily_prices st
  ∧ daily st' = daily st
  ∧ rollup st' = rollup st
  ∧ journal st' = journal st.

(** The products table that [build_products_and_groups] returns *)
Definition returned_products (r : result (pd.DataFrame * pd.DataFrame)) : option pd.DataFrame :=
  match r with
  | Ok (_, products_df) => Some products_df
  | _ => None
  end.

(** [x] comes before [y] in a descending order of the keys. *)
Definition desc {A} (key : A → string) (x y : A) : Prop := Str.le (key y) (key x) = true.

(** A relation between the base directory before and after a statement,
    whatever the statement returns. *)
Definition preserves {A} (R : relation BaseDir) (m : M A) : Prop :=
  ∀ st, R st (m st).1.

(** The journal grows by entries that satisfy [ok], and the rollup changes
    only if [build_full_file] was entered. *)
Definition journal_grows (ok : event → Prop) (st st' : BaseDir) : Prop :=
  ∃ evs, journal st' = journal st ++ evs
         ∧ Forall ok evs
         ∧ (rollup st' = rollup st ∨ Called "build_full_file" ∈ evs).

(** The journal, the rollup and the tracking file of the days stay as they
    are. *)
Definition quiet (st st' : BaseDir) : Prop :=
  journal st' = journal st ∧ rollup st' = rollup st
  ∧ processed_days st' = processed_days st.

(** The journal entries [main] may make: never the incremental append, and
    the full rebuild only with the full-file flag. *)
Definition main_event (full_file : bool) (e : event) : Prop :=
  e ≠ Called "append_to_full_file"
  ∧ (full_file = false → e ≠ Called "build_full_file").

(** What the harvest of a day gives to write: nothing when the archive is
    missing, when it holds no category, or when the harvested frame is
    empty; otherwise the frame without the pruned columns. *)
Definition harvested (strftime : Z → string) (W : World) (d : Z) : result (option pd.DataFrame) :=
  match download_archive W d with
  | None => Ok None
  | Some a =>
      match extract_archive strftime W a with
      | None => Ok None
      | Some day_root =>
          rbind (harvest_prices_for_day day_root) (λ df,
            Ok (if pd.empty df then None else Some (pd.drop PRUNE_COLS df)))
      end
  end.

(** The reasons of the specification for which a day gets no partition *)
Definition no_write (strftime : Z → string) (W : World) (d : Z) : Prop :=
  archive_found W d = false
  ∨ extracted W d = None
  ∨ (∃ cat df, extracted W d = Some cat
       ∧ harvest_prices_for_day {| day_name := strftime d; category := Some cat |} = Ok df
       ∧ pd.empty df = true)
  ∨ raw_write_fails W d = true.

(** The raw partition of the day [k] is on disk. *)
Definition written (k : string) (st : BaseDir) : Prop :=
  ∃ df, daily_prices st !! ("date=" +:+ k) = Some (Directory (Some df)).

(** The journal entries of the days processed: the write, then the mark *)
Definition day_events (keys : list string) : list event :=
  keys ≫= λ k, [WroteRaw k; MarkedDay k].

(** The dates the loop of [build_prices] can reach from [start_date] *)
Definition visited (start_date end_date step d : Z) : Prop :=
  ∃ n : nat, d = start_date + Z.of_nat n * step ∧ d ≤ end_date.

(** The files that [build_prices] does not write *)
Definition same_dimensions (st st' : BaseDir) : Prop :=
  processed_products st' = processed_products st
  ∧ groups_file st' = groups_file st
  ∧ products_file st' = products_file st
  ∧ daily st' = daily st
  ∧ rollup st' = rollup st.

(** A day whose partition the loop wrote: a date it reached, for which the
    harvest gave a frame and the write did not fail. *)
Definition day_written (strftime : Z → string) (W : World) (start_date end_date step : Z)
    (k : string) : Prop :=
  ∃ d df, visited start_date end_date step d
          ∧ k = strftime d
          ∧ harvested strftime W d = Ok (Some df)
          ∧ raw_write_fails W d = false.

(** The tracking file of the days stays as it is. *)
Definition keeps_processed_days (st st' : BaseDir) : Prop :=
  processed_days st' = processed_days st.

(** The row [m] holds every value of the row [l], under its new label. *)
Definition carries (label : string → string) (l m : gmap string pd.cell) : Prop :=
  ∀ c v, l !! c = Some v → m !! label c = Some v.



(** ** Reference definitions for the helpers *)

(** The characters of a snake-case name other than the underscore *)
Definition is_word (a : ascii) : bool := Str.is_lower a || Str.is_digit a.

(** Only characters of the class [word] and underscores, no underscore right
    after another; [after_us] tells that an underscore cannot come first. *)
Fixpoint squashed (word : ascii → bool) (after_us : bool) (s : string) : bool :=
  match s with
  | EmptyString => true
  | String a rest =>
      if word a then squashed word false rest
      else Ascii.eqb a "_" && negb after_us && squashed word true rest
  end.

Fixpoint no_trailing_us (s : string) : bool :=
  match s with
  | EmptyString => true
  | String a rest =>
      match rest with
      | EmptyString => negb (Ascii.eqb a "_")
      | _ => no_trailing_us rest
      end
  end.

(** Case analysis on a character *)
Ltac ascii_cases a := destruct a as [[] [] [] [] [] [] [] []].

(** The rows a group directory gives to the harvest of a day: the rows of
    its [prices] file, each with the date and the id of the group. *)
Definition group_rows (date_str : string) (e : string * GroupDir) : list (gmap string pd.cell) :=
  if is_dir e.2 then
    match prices e.2 with
    | Some (Results src) =>
        (λ r : gmap string pd.cell,
           <["groupid" := pd.CStr e.1]> (<["date" := pd.CStr date_str]> r)) <$> pd.rows src
    | _ => []
    end
  else [].

(** The number of records of the [prices] file of a group directory *)
Definition records (e : string * GroupDir) : nat :=
  if is_dir e.2 then
    match prices e.2 with
    | Some (Results src) => List.length (pd.rows src)
    | _ => 0%nat
    end
  else 0%nat.

(** The raw partition of the day [k] on disk is the frame that the harvest
    of a date with that name gave, without the pruned columns. *)
Definition raw_of (strftime : Z → string) (W : World) (k : string) (st : BaseDir) : Prop :=
  ∃ d df,
    strftime d = k
    ∧ harvested strftime W d = Ok (Some df)
    ∧ daily_prices st !! ("date=" +:+ k) = Some (Directory (Some df)).

(** Partitions that are harvested frames stay so, and every day added to
    the tracking file has such a partition. *)
Definition raw_kept (strftime : Z → string) (W : World) (st st' : BaseDir) : Prop :=
  (∀ k, raw_of strftime W k st → raw_of strftime W k st')
  ∧ (∀ k, k ∈ processed_days st' → k ∈ processed_days st ∨ raw_of strftime W k st').

(** Whatever [m] gives within its iterations, [m'] gives too. *)
Definition refines {A} (m m' : M A) : Prop :=
  ∀ st st' r, m st = (st', r) → r ≠ OutOfFuel → m' st = (st', r).

(** The frame written for the day [k]: what the harvest of a date with that
    name gave *)
Definition frame_of (strftime : Z → string) (W : World) (k : string) (f : pd.DataFrame) : Prop :=
  ∃ d, strftime d = k ∧ harvested strftime W d = Ok (Some f).

(** The groups that a run of the dimension builder marks as processed: the
    ones it fetches, when the fetch gives at least one product. *)
Definition marked_groups (W : World) (processed : list string) (cached : bool)
    (gids : list string) : list string :=
  filter (λ gid, is_Some (fetched_frame W gid))
    (filter (λ gid, ¬ (gid ∈ processed ∧ cached = true)) gids).

(** Two statements that do the same on every base directory *)
Definition same_run {A} (m m' : M A) : Prop := ∀ st, m st = m' st.

(** Everything in the base directory but the two caches and the tracking
    file of the groups *)
Definition same_prices (st st' : BaseDir) : Prop :=
  processed_days st' = processed_days st
  ∧ daily_prices st' = daily_prices st
  ∧ daily st' = daily st
  ∧ rollup st' = rollup st
  ∧ journal st' = journal st.

(** The joined row [m] comes from the left row [l]: it holds the values of
    [l], and either no right row has the key values of [l], or [m] holds the
    values of one that has, other than its key values. *)
Definition joined_from (left right : pd.DataFrame) (on : list string)
    (l m : gmap string pd.cell) : Prop :=
  carries (pd.left_label left right on) l m
  ∧ (pd.matches right on l = []
     ∨ ∃ r, r ∈ pd.matches right on l
            ∧ ∀ c v, r !! c = Some v → c ∉ on →
                m !! pd.right_label left right on c = Some v).

(** The enriched partitions stay as they are. *)
Definition keeps_daily (st st' : BaseDir) : Prop := daily st' = daily st.

(** The enriched partition [name], or its absence, is what it was. *)
Definition keeps_partition (name : string) (st st' : BaseDir) : Prop :=
  daily st' !! name = daily st !! name.


(** [datetime._is_leap], [_days_before_year], [_days_before_month] and
    [_ymd2ord]: the ordinal of a calendar date *)
Definition is_leap (year : Z) : bool :=
  (year mod 4 =? 0) && (negb (year mod 100 =? 0) || (year mod 400 =? 0)).

Definition days_before_year (year : Z) : Z :=
  let y := year - 1 in y * 365 + y / 4 - y / 100 + y / 400.

Definition days_before_month (year month : Z) : Z :=
  nth (Z.to_nat month) DAYS_BEFORE_MONTH 0 + (if (2 <? month) && is_leap year then 1 else 0).

Definition ymd2ord (ymd : Z * Z * Z) : Z :=
  let '(year, month, day) := ymd in
  days_before_year year + days_before_month year month + day.

(** The end of [_ord2ymd]: the month and the day of the day number [n]
    (from 0) of a year *)
Definition month_day (leapyear : bool) (n : Z) : Z * Z :=
  let month := Z.shiftr (n + 50) 5 in
  let preceding :=
    nth (Z.to_nat month) DAYS_BEFORE_MONTH 0
    + (if (2 <? month) && leapyear then 1 else 0) in
  if n <? preceding then
    let month := month - 1 in
    let preceding :=
      preceding - (nth (Z.to_nat month) DAYS_IN_MONTH 0
                   + (if (month =? 2) && leapyear then 1 else 0)) in
    (month, n - preceding + 1)
  else (month, n - preceding + 1).

(** The integers from [lo], [n] of them *)
Definition zrange (lo : Z) (n : nat) : list Z := (λ i : nat, lo + Z.of_nat i) <$> seq 0 n.

(** Linear arithmetic with quotients and remainders *)
Ltac zdiv_lia := Z.to_euclidean_division_equations; lia.

(** ** Reading the raw prices back *)

Section LoadAll.

(** The order in which Python iterates over the set of the lines of
  [processed_days.txt]: some enumeration of the distinct lines. *)
Variable set_order : list string → list string.

(** [f.exists()] and [pd.read_parquet(f)] for the [part.parquet] of a day *)
Definition raw_part (entries : gmap string RawEntry) (d : string) : option pd.DataFrame :=
match entries !! ("date=" +:+ d) with
| Some (Directory (Some df)) => Some df
| _ => None
end.

Definition load_all_prices : M pd.DataFrame :=
let* processed_days := load_processed_days in
let* entries := gets daily_prices in
let existing_files := omap (raw_part entries) (set_order processed_days) in
match existing_files with
| [] => ret pd.empty_frame
| _ => lift (pd.concat existing_files)
end.

End LoadAll.

(** ** A small world for the examples *)

Module Sample.
Import pd.

Definition row (l : list (string * cell)) : gmap string cell := list_to_map l.

(** 2025-09-19 and 2025-09-20 as ordinals *)
Definition d19 : Z := 739513.
Definition d20 : Z := 739514.

Definition prices_604 : DataFrame :=
  mkDF ["product_id"; "low_price"; "sub_type_name"]
    [ row [("product_id", CInt 1); ("low_price", CFloat "1.5"); ("sub_type_name", CStr "Normal")];
      row [("product_id", CInt 1); ("low_price", CFloat "3.0"); ("sub_type_name", CStr "Holofoil")];
      row [("product_id", CInt 2); ("low_price", CFloat "0.2"); ("sub_type_name", CStr "Normal")] ].

Definition category_dir : list (string * GroupDir) :=
  [ ("604", {| is_dir := true; prices := Some (Results prices_604) |});
    ("605", {| is_dir := true; prices := Some Unparsable |}) ].

Definition groups : DataFrame :=
  mkDF ["group_id"; "set_name"; "modified_on"]
    [ row [("group_id", CInt 604); ("set_name", CStr "Base Set"); ("modified_on", CStr "t0")];
      row [("group_id", CInt 605); ("set_name", CStr "Jungle"); ("modified_on", CStr "t1")] ].

(** A product with three attack attributes *)
Definition pikachu : Product :=
  {| items := [ ("productId", JVal (CInt 1)); ("name", JVal (CStr "Pikachu"));
                ("groupId", JVal (CInt 604)); ("modifiedOn", JVal (CStr "t2"));
                ("url", JVal (CStr "u")) ];
     presaleInfo := [ ("isPresale", JVal (CBool false)); ("releasedOn", JNull) ];
     extendedData :=
       [ {| ext_name := "Number"; ext_value := JVal (CStr "025") |};
         {| ext_name := "Attack 1"; ext_value := JVal (CStr "Gnaw") |};
         {| ext_name := "Attack 2"; ext_value := JVal (CStr "Thunder Jolt") |};
         {| ext_name := "Attack 3"; ext_value := JVal (CStr "Agility") |} ] |}.

(** The site has an archive for the two days, the second one without the
    category; it knows the products of group 604 only. *)
Definition world : World :=
  {| archive_found := λ d, bool_decide (d = d19 ∨ d = d20);
     extracted := λ d, if bool_decide (d = d19) then Some category_dir else None;
     raw_write_fails := λ _, false;
     groups_response := Ok groups;
     products_response := λ g,
       if bool_decide (g = "604") then Ok [pikachu] else Raise (RequestError g);
     rglob := map_to_list;
     rglob_listing := λ m, Permutation_refl (map_to_list m) |}.

(** A fresh base directory *)
Definition fresh : BaseDir := mkBase [] [] None None ∅ ∅ None [].

(** Nine raw partitions, 2025-09-12 to 2025-09-20, and a stray file *)
Definition nine_raw : BaseDir :=
  mkBase [] [] None None
    (<["notes.txt" := PlainFile]>
       (list_to_map ((λ day, ("date=2025-09-" +:+ day, Directory (Some prices_604)))
                       <$> ["12"; "13"; "14"; "15"; "16"; "17"; "18"; "19"; "20"])))
    ∅ None [].

Definition enriched_row (pid : Z) (day sub : string) : gmap string cell :=
  row [("product_id", CInt pid); ("date", CStr day); ("sub_type_name", CStr sub);
       ("groupid", CStr "604")].

Definition enriched (rs : list (gmap string cell)) : DataFrame :=
  mkDF ["product_id"; "date"; "sub_type_name"; "groupid"] rs.

(** Two partition directories that both hold the row of 2025-09-19 *)
Definition overlapping : BaseDir :=
  mkBase [] [] None None ∅
    (<["date=2025-09-19" := enriched [enriched_row 1 "2025-09-19" "Normal"]]>
       (<["date=2025-09-20" := enriched [enriched_row 1 "2025-09-19" "Normal"]]> ∅))
    None [].

(** A rollup of 2025-09-19 left behind after the partitions were removed *)
Definition stale : BaseDir :=
  mkBase [] [] None None ∅ ∅
    (Some (enriched [enriched_row 1 "2025-09-19" "Normal"])) [].

(** The directory of 2025-09-20 holds rows of 2025-09-19 *)
Definition misdated : BaseDir :=
  mkBase [] [] None None ∅
    (<["date=2025-09-20" := enriched [enriched_row 1 "2025-09-19" "Normal"]]> ∅)
    None [].

(** A rollup of 2025-09-19 and the partitions of 2025-09-19 and 2025-09-20 *)
Definition two_days : BaseDir :=
  mkBase [] [] None None ∅
    (<["date=2025-09-19" := enriched [enriched_row 1 "2025-09-19" "Normal";
                                      enriched_row 2 "2025-09-19" "Normal"]]>
       (<["date=2025-09-20" := enriched [enriched_row 1 "2025-09-20" "Normal"]]> ∅))
    (Some (enriched [enriched_row 1 "2025-09-19" "Normal";
                     enriched_row 2 "2025-09-19" "Normal"])) [].

(** A rollup that holds the row of 2025-09-19 twice, as [build_full_file]
    leaves it on [overlapping], and the partition of 2025-09-20 *)
Definition doubled : BaseDir :=
  mkBase [] [] None None ∅
    (<["date=2025-09-20" := enriched [enriched_row 1 "2025-09-20" "Normal"]]> ∅)
    (Some (enriched [enriched_row 1 "2025-09-19" "Normal";
                     enriched_row 1 "2025-09-19" "Normal"])) [].

(** The row of the products cache for the sample product *)
Definition pikachu_row : gmap string cell :=
  row [("product_id", CInt 1); ("name", CStr "Pikachu"); ("group_id", CStr "604");
       ("modified_on", CStr "t2"); ("number", CStr "025"); ("attack_1", CStr "Gnaw");
       ("attack_2", CStr "Thunder Jolt")].

(** The base directory after a first run of the dimension builder whose
    [processed_products.txt] was removed afterwards *)
Definition untracked : BaseDir :=
  with_processed_products (λ _, []) (build_products_and_groups world fresh).1.

(** A raw partition of 2025-09-19: a product of group 604 with its
    products row, one without, and a product of a group that is not in the
    groups table *)
Definition raw_day : DataFrame :=
  mkDF ["product_id"; "low_price"; "sub_type_name"; "date"; "groupid"]
    [ row [("product_id", CInt 1); ("low_price", CFloat "1.5");
           ("sub_type_name", CStr "Normal"); ("date", CStr "2025-09-19");
           ("groupid", CStr "604")];
      row [("product_id", CInt 2); ("low_price", CFloat "0.2");
           ("sub_type_name", CStr "Normal"); ("date", CStr "2025-09-19");
           ("groupid", CStr "604")];
      row [("product_id", CInt 3); ("low_price", CFloat "9.0");
           ("sub_type_name", CStr "Normal"); ("date", CStr "2025-09-19");
           ("groupid", CStr "999")] ].

Definition products_dim : DataFrame :=
  mkDF ["product_id"; "name"; "groupid"; "modified_on"]
    [ row [("product_id", CInt 1); ("name", CStr "Pikachu"); ("groupid", CStr "604");
           ("modified_on", CStr "t2")] ].

Definition groups_dim : DataFrame :=
  mkDF ["groupid"; "set_name"; "modified_on"]
    [ row [("groupid", CStr "604"); ("set_name", CStr "Base Set");
           ("modified_on", CStr "t0")] ].

(** The site of the examples with its groups endpoint down *)
Definition offline : World :=
  {| archive_found := archive_found world;
     extracted := extracted world;
     raw_write_fails := raw_write_fails world;
     groups_response := Raise (RequestError "groups");
     products_response := products_response world;
     rglob := rglob world;
     rglob_listing := rglob_listing world |}.

(** The site of the examples with its products endpoint down *)
Definition no_products : World :=
  {| archive_found := archive_found world;
     extracted := extracted world;
     raw_write_fails := raw_write_fails world;
     groups_response := groups_response world;
     products_response := λ g, Raise (RequestError g);
     rglob := rglob world;
     rglob_listing := rglob_listing world |}.

(** The site of the examples with a products endpoint that answers with no
    product where the one of [world] fails *)
Definition patient : World :=
  {| archive_found := archive_found world;
     extracted := extracted world;
     raw_write_fails := raw_write_fails world;
     groups_response := groups_response world;
     products_response := λ g, if bool_decide (g = "604") then Ok [pikachu] else Ok [];
     rglob := rglob world;
     rglob_listing := rglob_listing world |}.

(** The raw partition of 2025-09-19 *)
Definition raw_19 : pd.DataFrame :=
  pd.drop PRUNE_COLS
    (pd.set_column "groupid" (pd.CStr "604")
       (pd.set_column "date" (pd.CStr "2025-09-19") prices_604)).

End Sample.

(** ** Properties *)

(** *** Strings *)

Example to_snake_product_id : to_snake "productId" = "product_id".
Proof. reflexivity. Qed.

Example to_snake_sub_type : to_snake "subTypeName" = "sub_type_name".
Proof. reflexivity. Qed.

Example to_snake_attack : to_snake "Attack 1" = "attack_1".
Proof. reflexivity. Qed.

Example to_snake_symbols : to_snake "__Card--Type (HP)" = "card_type_hp".
Proof. reflexivity. Qed.

Example after_last_eq_partition : Str.after_last_eq "date=2025-09-20" = "2025-09-20".
Proof. reflexivity. Qed.

(** *** Python dicts *)

Lemma dict_get_set_eq {A} (k : string) (v : A) d : dict_get k (dict_set k v d) = Some v.
Proof.
  induction d as [|[k' v'] d IH]; simpl.
  - by rewrite decide_True.
  - destruct (decide (k' = k)) as [->|Hne]; simpl.
    + by rewrite decide_True.
    + by rewrite decide_False.
Qed.

Lemma dict_get_set_ne {A} (k k0 : string) (v : A) d :
  k0 ≠ k → dict_get k (dict_set k0 v d) = dict_get k d.
Proof.
  intros Hne. induction d as [|[k' v'] d IH]; simpl.
  - by rewrite decide_False.
  - destruct (decide (k' = k0)) as [->|Hne']; simpl.
    + by rewrite !decide_False.
    + destruct (decide (k' = k)); [done | apply IH].
Qed.

(** *** The attack attributes *)

Lemma is_attack_nonempty e : is_attack e = true → ext_key e ≠ "".
Proof. unfold is_attack. intros H Heq. rewrite Heq in H. discriminate. Qed.

Lemma startswith_attack_1 : Str.startswith "attack_1" "attack" = true.
Proof. reflexivity. Qed.

Lemma ext_step_attack flat n e :
  is_attack e = true →
  ext_step (flat, n) e =
    if 2 <? n + 1 then (flat, n + 1)
    else (dict_set ("attack_" +:+ str_of_int (n + 1)) (ext_value e) flat, n + 1).
Proof.
  intros Ha. unfold ext_step. fold (ext_key e).
  rewrite decide_False by by apply is_attack_nonempty.
  unfold is_attack in Ha. by rewrite Ha.
Qed.

Lemma ext_step_other flat n e :
  is_attack e = false →
  ext_step (flat, n) e =
    if decide (ext_key e = "") then (flat, n)
    else (dict_set (ext_key e) (ext_value e) flat, n).
Proof.
  intros Ha. unfold ext_step. fold (ext_key e).
  case_decide; [done|]. unfold is_attack in Ha. by rewrite Ha.
Qed.

Lemma ext_loop_cons acc e exts :
  foldl ext_step acc (e :: exts) = foldl ext_step (ext_step acc e) exts.
Proof. reflexivity. Qed.

(** Once two attacks have been seen the counter no longer matters. *)
Lemma ext_loop_saturated exts : ∀ flat n m,
  2 ≤ n → 2 ≤ m →
  (foldl ext_step (flat, n) exts).1 = (foldl ext_step (flat, m) exts).1.
Proof.
  induction exts as [|e exts IH]; intros flat n m Hn Hm; [done|].
  rewrite ?ext_loop_cons. destruct (is_attack e) eqn:Ha.
  - rewrite !ext_step_attack by done.
    destruct (Z.ltb_spec 2 (n + 1)); [|lia].
    destruct (Z.ltb_spec 2 (m + 1)); [|lia].
    apply IH; lia.
  - rewrite !ext_step_other by done. case_decide; apply IH; lia.
Qed.

Lemma ext_loop_cap exts : ∀ flat (seen : nat),
  (foldl ext_step (flat, Z.of_nat seen) exts).1
  = (foldl ext_step (flat, Z.of_nat seen) (cap_attacks seen exts)).1.
Proof.
  induction exts as [|e exts IH]; intros flat seen; [done|].
  rewrite ?ext_loop_cons. destruct (is_attack e) eqn:Ha.
  - cbn [cap_attacks]. rewrite Ha. destruct (Nat.ltb_spec seen 2) as [Hlt|Hge].
    + rewrite !ext_loop_cons, !ext_step_attack by done.
      destruct (Z.ltb_spec 2 (Z.of_nat seen + 1)); [lia|].
      replace (Z.of_nat seen + 1) with (Z.of_nat (S seen)) by lia. apply IH.
    + rewrite ext_step_attack by done.
      destruct (Z.ltb_spec 2 (Z.of_nat seen + 1)); [|lia].
      replace (Z.of_nat seen + 1) with (Z.of_nat (S seen)) by lia.
      rewrite IH. apply ext_loop_saturated; lia.
  - cbn [cap_attacks]. rewrite Ha, !ext_loop_cons, !ext_step_other by done.
    case_decide; apply IH.
Qed.

(** A key starting with ["attack"] is written by the attack branch only. *)
Lemma ext_loop_keeps k exts : ∀ flat n,
  Str.startswith k "attack" = true →
  (∀ i, n < i ≤ 2 → k ≠ "attack_" +:+ str_of_int i) →
  dict_get k (foldl ext_step (flat, n) exts).1 = dict_get k flat.
Proof.
  intros flat n Hk. revert flat n.
  induction exts as [|e exts IH]; intros flat n Hfree; [done|].
  rewrite ?ext_loop_cons. destruct (is_attack e) eqn:Ha.
  - rewrite ext_step_attack by done.
    destruct (Z.ltb_spec 2 (n + 1)).
    + apply IH. intros i Hi. lia.
    + rewrite IH by (intros i Hi; apply Hfree; lia).
      apply dict_get_set_ne. intros Heq. by apply (Hfree (n + 1)); [lia|].
  - rewrite ext_step_other by done. case_decide; [by apply IH|].
    rewrite IH by done. apply dict_get_set_ne.
    intros Heq. unfold is_attack in Ha. rewrite Heq in Ha. congruence.
Qed.

Lemma ext_loop_first_attack exts : ∀ flat (n : Z) a rest,
  0 ≤ n < 2 →
  filter (λ e, is_attack e = true) exts = a :: rest →
  dict_get ("attack_" +:+ str_of_int (n + 1)) (foldl ext_step (flat, n) exts).1
  = Some (ext_value a).
Proof.
  induction exts as [|e exts IH]; intros flat n a rest Hn Hf; [done|].
  rewrite ext_loop_cons. rewrite filter_cons in Hf. destruct (is_attack e) eqn:Ha.
  - rewrite decide_True in Hf by done. injection Hf as -> Hrest.
    rewrite ext_step_attack by done.
    destruct (Z.ltb_spec 2 (n + 1)); [lia|].
    rewrite ext_loop_keeps.
    + apply dict_get_set_eq.
    + assert (n = 0 ∨ n = 1) as [->| ->] by lia; reflexivity.
    + intros i Hi. assert (n = 0 ∨ n = 1) as [->| ->] by lia.
      * assert (i = 2) as -> by lia. vm_compute. discriminate.
      * lia.
  - rewrite decide_False in Hf by discriminate.
    rewrite ext_step_other by done. case_decide; eauto.
Qed.

Lemma filter_attack_cap exts : ∀ seen,
  filter (λ e, is_attack e = true) (cap_attacks seen exts)
  = take (2 - seen) (filter (λ e, is_attack e = true) exts).
Proof.
  induction exts as [|e exts IH]; intros seen; [by destruct (2 - seen)%nat|].
  cbn [cap_attacks]. rewrite (filter_cons _ e exts). destruct (is_attack e) eqn:Ha.
  - rewrite decide_True by done. destruct (Nat.ltb_spec seen 2).
    + rewrite filter_cons, Ha. rewrite decide_True by done. rewrite IH.
      replace (2 - seen)%nat with (S (2 - S seen)) by lia. done.
    + rewrite IH.
      replace (2 - seen)%nat with 0%nat by lia.
      by replace (2 - S seen)%nat with 0%nat by lia.
  - rewrite decide_False by discriminate.
    rewrite filter_cons, Ha. rewrite decide_False by discriminate. apply IH.
Qed.

(** Keys of a dict are unique. *)
Lemma dict_set_keys {A} (k : string) (v : A) d :
  ∀ k', k' ∈ (dict_set k v d).*1 ↔ k' = k ∨ k' ∈ d.*1.
Proof.
  induction d as [|[k0 v0] d IH]; intros k'; simpl.
  - rewrite list_elem_of_singleton, elem_of_nil. tauto.
  - destruct (decide (k0 = k)) as [->|]; simpl; rewrite !elem_of_cons; [tauto|].
    rewrite IH. tauto.
Qed.

Lemma dict_set_NoDup {A} (k : string) (v : A) d :
  NoDup d.*1 → NoDup (dict_set k v d).*1.
Proof.
  induction d as [|[k0 v0] d IH]; simpl; intros Hnd.
  - apply NoDup_singleton.
  - apply NoDup_cons in Hnd as [Hnotin Hnd].
    destruct (decide (k0 = k)) as [->|Hne]; simpl.
    + by apply NoDup_cons.
    + apply NoDup_cons. split; [|by apply IH].
      rewrite dict_set_keys. intros [?|?]; done.
Qed.

Lemma ext_step_NoDup acc e : NoDup acc.1.*1 → NoDup (ext_step acc e).1.*1.
Proof.
  destruct acc as [flat n]. unfold ext_step. simpl. intros Hnd.
  repeat case_match; simpl; auto using dict_set_NoDup.
Qed.

Lemma flatten_product_NoDup prod : NoDup (flatten_product prod).*1.
Proof.
  unfold flatten_product.
  assert (NoDup (flatten_presale (flatten_items (items prod)) (presaleInfo prod)).*1) as H0.
  { unfold flatten_presale, flatten_items.
    assert (∀ (f : string → string) l (d : list (string * jval)), NoDup d.*1 →
      NoDup (foldl (λ flat (kv : string * jval), dict_set (f kv.1) kv.2 flat) d l).*1) as Hfold.
    { intros f l. induction l as [|x l IH]; intros d Hd; [done|].
      simpl. apply IH. by apply dict_set_NoDup. }
    apply (Hfold (λ k, to_snake ("presale_" +:+ k))).
    apply (Hfold to_snake). apply NoDup_nil_2. }
  revert H0.
  generalize (flatten_presale (flatten_items (items prod)) (presaleInfo prod)).
  generalize 0. intros n flat. revert n flat.
  induction (extendedData prod) as [|e exts IH]; intros n flat Hnd; [done|].
  rewrite ext_loop_cons.
  pose proof (ext_step_NoDup (flat, n) e Hnd) as Hstep.
  destruct (ext_step (flat, n) e) as [flat' n']. by apply IH.
Qed.

Lemma row_of_dict_notin d k : k ∉ d.*1 → row_of_dict d !! k = None.
Proof.
  unfold row_of_dict. induction d as [|[k0 v0] d IH]; simpl; intros Hk; [done|].
  apply not_elem_of_cons in Hk as [Hne Hk].
  destruct v0; simpl; [by apply IH|].
  rewrite lookup_insert_ne by done. by apply IH.
Qed.

Lemma row_of_dict_lookup d k :
  NoDup d.*1 → row_of_dict d !! k = dict_get k d ≫= cell_of.
Proof.
  induction d as [|[k0 v0] d IH]; simpl; intros Hnd; [done|].
  apply NoDup_cons in Hnd as [Hnotin Hnd].
  unfold row_of_dict in *. simpl.
  destruct (decide (k0 = k)) as [->|Hne].
  - destruct v0; simpl.
    + by apply row_of_dict_notin.
    + by rewrite lookup_insert_eq.
  - destruct v0; simpl; [by apply IH|].
    rewrite lookup_insert_ne by done. by apply IH.
Qed.

Lemma drop_row_lookup cs (df : pd.DataFrame) i row k :
  pd.rows df !! i = Some row → k ∉ cs →
  ∃ row', pd.rows (pd.drop cs df) !! i = Some row' ∧ row' !! k = row !! k.
Proof.
  intros Hi Hk. unfold pd.drop. simpl. rewrite list_lookup_fmap, Hi. simpl.
  eexists. split; [done|].
  destruct (row !! k) as [v|] eqn:Hv.
  - by apply map_lookup_filter_Some_2.
  - apply map_lookup_filter_None. by left.
Qed.

(** C8. A product whose [extendedData] holds three attack attributes or more
    gives a row of the products frame whose [attack_1] and [attack_2] are
    the values of the first two, in order; the loop behaves as if every
    later attack attribute were absent, and it writes no other label that
    starts with ["attack"]. *)
Theorem fetch_products_keeps_two_attacks
    (W : World) (group_id : string) (data : list Product) (i : nat) (prod : Product)
    (a1 a2 a3 : ExtAttr) (more : list ExtAttr) :
  products_response W group_id = Ok data →
  data !! i = Some prod →
  filter (λ e, is_attack e = true) (extendedData prod) = a1 :: a2 :: a3 :: more →
  ∃ df row,
    fetch_products_for_group W group_id = Ok df
    ∧ pd.rows df !! i = Some row
    ∧ row !! "attack_1" = cell_of (ext_value a1)
    ∧ row !! "attack_2" = cell_of (ext_value a2)
    ∧ filter (λ e, is_attack e = true) (cap_attacks 0 (extendedData prod)) = [a1; a2]
    ∧ flatten_product prod
      = flatten_product {| items := items prod; presaleInfo := presaleInfo prod;
                           extendedData := cap_attacks 0 (extendedData prod) |}
    ∧ ∀ k, Str.startswith k "attack" = true → k ≠ "attack_1" → k ≠ "attack_2" →
        dict_get k (flatten_product prod)
        = dict_get k (flatten_presale (flatten_items (items prod)) (presaleInfo prod)).
Proof.
  intros Hresp Hi Hatt.
  set (flat0 := flatten_presale (flatten_items (items prod)) (presaleInfo prod)).
  assert (dict_get "attack_1" (flatten_product prod) = Some (ext_value a1)) as H1.
  { unfold flatten_product. fold flat0.
    apply (ext_loop_first_attack _ flat0 0 a1 (a2 :: a3 :: more)); [lia|done]. }
  assert (dict_get "attack_2" (flatten_product prod) = Some (ext_value a2)) as H2.
  { unfold flatten_product. fold flat0. revert Hatt. generalize flat0.
    induction (extendedData prod) as [|e exts IH]; intros flat Hf; [done|].
    rewrite ext_loop_cons. rewrite filter_cons in Hf. destruct (is_attack e) eqn:Ha.
    - rewrite decide_True in Hf by done. injection Hf as -> Hrest.
      rewrite ext_step_attack by done. simpl.
      apply (ext_loop_first_attack _ _ 1 a2 (a3 :: more)); [lia|done].
    - rewrite decide_False in Hf by discriminate.
      rewrite ext_step_other by done. case_decide; eauto. }
  pose proof (flatten_product_NoDup prod) as Hnd.
  destruct (drop_row_lookup PRUNE_COLS (from_dicts (flatten_product <$> data)) i
              (row_of_dict (flatten_product prod)) "attack_1") as (row & Hrow & Hr1).
  { unfold from_dicts. simpl. by rewrite !list_lookup_fmap, Hi. }
  { compute_done. }
  destruct (drop_row_lookup PRUNE_COLS (from_dicts (flatten_product <$> data)) i
              (row_of_dict (flatten_product prod)) "attack_2") as (row' & Hrow' & Hr2).
  { unfold from_dicts. simpl. by rewrite !list_lookup_fmap, Hi. }
  { compute_done. }
  assert (row' = row) as -> by congruence.
  exists (pd.drop PRUNE_COLS (from_dicts (flatten_product <$> data))), row.
  split_and!.
  - unfold fetch_products_for_group. by rewrite Hresp.
  - done.
  - by rewrite Hr1, row_of_dict_lookup, H1.
  - by rewrite Hr2, row_of_dict_lookup, H2.
  - by rewrite filter_attack_cap, Hatt.
  - unfold flatten_product. simpl. fold flat0. apply (ext_loop_cap _ flat0 0).
  - intros k Hk Hk1 Hk2. unfold flatten_product. fold flat0.
    apply ext_loop_keeps; [done|].
    intros j Hj. assert (j = 1 ∨ j = 2) as [->| ->] by lia; done.
Qed.

Lemma fetch_products_keeps_two_attacks_witness :
  ∃ df row,
    fetch_products_for_group Sample.world "604" = Ok df
    ∧ pd.rows df !! 0%nat = Some row
    ∧ row !! "attack_1" = Some (pd.CStr "Gnaw")
    ∧ row !! "attack_2" = Some (pd.CStr "Thunder Jolt").
Proof.
  destruct (fetch_products_keeps_two_attacks Sample.world "604" [Sample.pikachu] 0
              Sample.pikachu
              {| ext_name := "Attack 1"; ext_value := JVal (pd.CStr "Gnaw") |}
              {| ext_name := "Attack 2"; ext_value := JVal (pd.CStr "Thunder Jolt") |}
              {| ext_name := "Attack 3"; ext_value := JVal (pd.CStr "Agility") |} [])
    as (df & row & H1 & H2 & H3 & H4 & _).
  - reflexivity.
  - reflexivity.
  - reflexivity.
  - exists df, row. auto.
Defined.

(** The scenario of the specification: group 604 sends a product with three
    attacks; its row has [attack_1] and [attack_2] and no third attack. *)
Example fetch_products_604 :
  (λ df, (pd.columns df, map_to_list <$> pd.rows df))
    <$> (match fetch_products_for_group Sample.world "604" with Ok df => Some df | _ => None end)
  = Some (["product_id"; "name"; "group_id"; "modified_on"; "number"; "attack_1"; "attack_2"],
          [map_to_list (Sample.row
             [("product_id", pd.CInt 1); ("name", pd.CStr "Pikachu");
              ("group_id", pd.CInt 604); ("modified_on", pd.CStr "t2");
              ("number", pd.CStr "025"); ("attack_1", pd.CStr "Gnaw");
              ("attack_2", pd.CStr "Thunder Jolt")])]).
Proof. vm_compute. reflexivity. Qed.

(** *** Sorting and pruning *)

Lemma str_le_refl s : Str.le s s = true.
Proof.
  unfold Str.le, String.leb.
  destruct (String.leb_total s s) as [H|H]; exact H.
Qed.

Lemma ascii_compare_lt_trans a b c :
  Ascii.compare a b = Lt → Ascii.compare b c = Lt → Ascii.compare a c = Lt.
Proof.
  unfold Ascii.compare. rewrite !N.compare_lt_iff. apply N.lt_trans.
Qed.

Lemma str_le_trans s : ∀ t u, Str.le s t = true → Str.le t u = true → Str.le s u = true.
Proof.
  unfold Str.le, String.leb.
  induction s as [|a s IH]; intros [|b t] [|c u]; simpl; try done.
  destruct (Ascii.compare a b) eqn:Hab; try done.
  - apply Ascii.compare_eq_iff in Hab as ->.
    destruct (Ascii.compare b c) eqn:Hbc; try done. apply IH.
  - destruct (Ascii.compare b c) eqn:Hbc; try done.
    + apply Ascii.compare_eq_iff in Hbc as <-. by rewrite Hab.
    + by rewrite (ascii_compare_lt_trans a b c).
Qed.

Lemma str_le_total s t : Str.le s t = true ∨ Str.le t s = true.
Proof. apply String.leb_total. Qed.

Section sorted_desc.
Context {A : Type} (key : A → string).

Lemma desc_trans : Transitive (desc key).
Proof. intros x y z Hxy Hyz. unfold desc in *. by eapply str_le_trans. Qed.

Lemma insert_desc_perm x l : insert_desc key x l ≡ₚ x :: l.
Proof.
  induction l as [|y l IH]; simpl; [done|].
  destruct (Str.le (key y) (key x)); [done|].
  rewrite IH. apply Permutation_swap.
Qed.

Lemma sorted_desc_perm l : sorted_desc key l ≡ₚ l.
Proof.
  induction l as [|x l IH]; simpl; [done|].
  by rewrite insert_desc_perm, IH.
Qed.

Lemma insert_desc_sorted x l :
  StronglySorted (desc key) l → StronglySorted (desc key) (insert_desc key x l).
Proof.
  induction l as [|y l IH]; simpl; intros Hs.
  - repeat constructor.
  - destruct (Str.le (key y) (key x)) eqn:Hle.
    + constructor; [done|]. apply StronglySorted_cons in Hs as [Hall _].
      constructor; [done|].
      eapply Forall_impl; [exact Hall|]. intros z Hz. unfold desc in *.
      by eapply str_le_trans.
    + apply StronglySorted_cons in Hs as [Hall Hs].
      constructor; [by apply IH|].
      rewrite insert_desc_perm. constructor; [|done].
      unfold desc. destruct (str_le_total (key x) (key y)); congruence.
Qed.

Lemma sorted_desc_sorted l : StronglySorted (desc key) (sorted_desc key l).
Proof.
  induction l as [|x l IH]; simpl; [constructor|]. by apply insert_desc_sorted.
Qed.
End sorted_desc.

Lemma filter_iff_in {A} (P1 P2 : A → Prop)
    `{!∀ x, Decision (P1 x), !∀ x, Decision (P2 x)} (l : list A) :
  (∀ x, x ∈ l → (P1 x ↔ P2 x)) → filter P1 l = filter P2 l.
Proof.
  induction l as [|a l IH]; intros Hiff; [done|].
  rewrite !filter_cons.
  rewrite IH by (intros x Hx; apply Hiff; by right).
  apply decide_ext, Hiff. by left.
Qed.

(** Keeping the names of a prefix of a list whose names are unique keeps
    that prefix. *)
Lemma filter_names_take {A} (l : list (string * A)) : ∀ n,
  NoDup l.*1 →
  filter (λ p, p.1 ∈ (take n l).*1) l = take n l.
Proof.
  induction l as [|x l IH]; intros n Hnd; [by destruct n|].
  apply NoDup_cons in Hnd as [Hx Hnd].
  destruct n as [|n]; simpl.
  - rewrite filter_cons, decide_False by apply not_elem_of_nil.
    clear. induction l as [|y l IHl]; [done|].
    rewrite filter_cons, decide_False by apply not_elem_of_nil. done.
  - rewrite filter_cons, decide_True by (simpl; apply elem_of_cons; by left).
    f_equal. etrans; [|exact (IH n Hnd)].
    apply filter_iff_in. intros p Hp. simpl.
    rewrite elem_of_cons. split; [|by right].
    intros [Heq|?]; [|done]. exfalso. apply Hx. rewrite <- Heq.
    by apply list_elem_of_fmap_2.
Qed.

Lemma prune_names {A} (l : list (string * A)) n :
  NoDup l.*1 →
  let keep := take n l in
  let delete := filter (λ p, p.1 ∉ keep.*1) l in
  ∀ p, p ∈ l → (p.1 ∉ delete.*1 ↔ p.1 ∈ keep.*1).
Proof.
  intros Hnd keep delete p Hp. split.
  - intros Hnot. destruct (decide (p.1 ∈ keep.*1)) as [|Hno]; [done|].
    exfalso. apply Hnot. apply list_elem_of_fmap_2.
    apply list_elem_of_filter. done.
  - intros Hin Hdel. apply list_elem_of_fmap in Hdel as (q & Hq1 & Hq).
    apply list_elem_of_filter in Hq as [Hq _]. apply Hq. by rewrite <- Hq1.
Qed.

Lemma map_to_list_filter_perm {A} (P : string * A → Prop) `{∀ x, Decision (P x)}
    (m : gmap string A) :
  map_to_list (filter P m) ≡ₚ filter P (map_to_list m).
Proof.
  apply NoDup_Permutation.
  - apply NoDup_map_to_list.
  - apply NoDup_filter, NoDup_map_to_list.
  - intros [k v]. rewrite list_elem_of_filter, !elem_of_map_to_list.
    rewrite map_lookup_filter_Some. tauto.
Qed.

Lemma filter_comm {A} (P1 P2 : A → Prop)
    `{!∀ x, Decision (P1 x), !∀ x, Decision (P2 x)} (l : list A) :
  filter P1 (filter P2 l) = filter P2 (filter P1 l).
Proof.
  rewrite !list_filter_filter. apply list_filter_iff. tauto.
Qed.

Lemma raw_partitions_NoDup st : NoDup (raw_partitions st).*1.
Proof.
  unfold raw_partitions.
  pose proof (NoDup_fst_map_to_list (daily_prices st)) as Hnd.
  induction (map_to_list (daily_prices st)) as [|x l IH]; [constructor|].
  apply NoDup_cons in Hnd as [Hx Hnd]. rewrite filter_cons.
  destruct (decide (is_partition x = true)); [|by apply IH].
  simpl. apply NoDup_cons. split; [|by apply IH].
  intros Hin. apply Hx. apply list_elem_of_fmap in Hin as (y & -> & Hy).
  apply list_elem_of_filter in Hy as [_ Hy]. by apply list_elem_of_fmap_2.
Qed.

Lemma pruned_partitions (keep_days : Z) (st : BaseDir) :
  0 ≤ keep_days →
  raw_partitions (prune_old_daily_prices keep_days st).1
  ≡ₚ take (Z.to_nat keep_days) (sorted_desc partition_key (raw_partitions st)).
Proof.
  intros HK. unfold prune_old_daily_prices, bind, gets. simpl.
  fold (raw_partitions st).
  destruct (raw_partitions st) as [|p0 ps] eqn:Hparts.
  { simpl. fold (raw_partitions st). rewrite Hparts. by rewrite take_nil. }
  rewrite <- Hparts. clear p0 ps Hparts. simpl.
  unfold slice_to. destruct (Z.leb_spec 0 keep_days); [|lia].
  set (sorted := sorted_desc (λ p : string * RawEntry, Str.after_last_eq p.1) (raw_partitions st)).
  set (keep := take (Z.to_nat keep_days) sorted).
  set (delete := filter (λ p : string * RawEntry, p.1 ∉ keep.*1) sorted).
  unfold raw_partitions at 1. simpl.
  rewrite map_to_list_filter_perm.
  rewrite filter_comm.
  fold (raw_partitions st).
  assert (sorted ≡ₚ raw_partitions st) as Hperm by apply sorted_desc_perm.
  transitivity (filter (λ p : string * RawEntry, p.1 ∉ delete.*1) sorted);
    [by apply filter_Permutation|].
  assert (NoDup sorted.*1) as Hnd.
  { rewrite Hperm. apply raw_partitions_NoDup. }
  rewrite (filter_iff_in _ (λ p : string * RawEntry, p.1 ∈ keep.*1)).
  - subst keep. by rewrite (filter_names_take sorted (Z.to_nat keep_days) Hnd).
  - intros p Hp. by apply (prune_names sorted (Z.to_nat keep_days)).
Qed.

(** C9. With [keep_days] at least 0, pruning leaves at most [keep_days] date
    partitions in [daily_prices/]: the first [keep_days] of the partitions in
    descending order of their date keys, so that no partition removed has a
    later key than one that is kept.  The other entries of [daily_prices/],
    the enriched partitions, the rollup and the caches stay as they are. *)
Theorem prune_keeps_most_recent (keep_days : Z) (st : BaseDir) :
  0 ≤ keep_days →
  let st' := (prune_old_daily_prices keep_days st).1 in
  (prune_old_daily_prices keep_days st).2 = Ok tt
  ∧ Z.of_nat (List.length (raw_partitions st')) ≤ keep_days
  ∧ List.length (raw_partitions st')
    = Nat.min (Z.to_nat keep_days) (List.length (raw_partitions st))
  ∧ raw_partitions st'
    ≡ₚ take (Z.to_nat keep_days) (sorted_desc partition_key (raw_partitions st))
  ∧ (∀ p q, p ∈ raw_partitions st' → q ∈ raw_partitions st → q ∉ raw_partitions st' →
       Str.le (partition_key q) (partition_key p) = true)
  ∧ (∀ name e, daily_prices st !! name = Some e → is_partition (name, e) = false →
       daily_prices st' !! name = Some e)
  ∧ daily st' = daily st
  ∧ rollup st' = rollup st
  ∧ groups_file st' = groups_file st
  ∧ products_file st' = products_file st
  ∧ processed_days st' = processed_days st.
Proof.
  intros HK st'.
  pose proof (pruned_partitions keep_days st HK) as Hperm. fold st' in Hperm.
  assert (List.length (raw_partitions st')
          = Nat.min (Z.to_nat keep_days) (List.length (raw_partitions st))) as Hlen.
  { rewrite Hperm, length_take. by rewrite (Permutation_length (sorted_desc_perm _ _)). }
  split_and!.
  - unfold prune_old_daily_prices, bind, gets. simpl. by case_match.
  - lia.
  - done.
  - done.
  - intros p q Hp Hq Hnq.
    pose proof (sorted_desc_sorted partition_key (raw_partitions st)) as Hsorted.
    rewrite <- (take_drop (Z.to_nat keep_days)) in Hsorted.
    apply (StronglySorted_app_1_elem_of _ _ _ p q) in Hsorted; [done|by rewrite <- Hperm|].
    assert (q ∈ sorted_desc partition_key (raw_partitions st)) as Hq'.
    { by rewrite sorted_desc_perm. }
    rewrite <- (take_drop (Z.to_nat keep_days)) in Hq'.
    apply elem_of_app in Hq' as [Hq'|Hq']; [|done].
    exfalso. apply Hnq. by rewrite Hperm.
  - intros name e Hname Hnot. subst st'.
    unfold prune_old_daily_prices, bind, gets. cbn beta iota.
    fold (raw_partitions st).
    remember (raw_partitions st) as parts eqn:Hparts.
    destruct parts as [|p0 ps]; [done|]. rewrite Hparts. cbn [fst].
    unfold modify, with_daily_prices. cbn [fst daily_prices].
    apply map_lookup_filter_Some_2; [done|]. cbn [fst].
    intros Hin. apply list_elem_of_fmap in Hin as ([n' e'] & Hn & Hin). simpl in Hn. subst n'.
    apply list_elem_of_filter in Hin as [_ Hin].
    rewrite (sorted_desc_perm _ (raw_partitions st)) in Hin.
    apply list_elem_of_filter in Hin as [Hpart Hin].
    apply elem_of_map_to_list in Hin. congruence.
  - subst st'. unfold prune_old_daily_prices, bind, gets. simpl. by case_match.
  - subst st'. unfold prune_old_daily_prices, bind, gets. simpl. by case_match.
  - subst st'. unfold prune_old_daily_prices, bind, gets. simpl. by case_match.
  - subst st'. unfold prune_old_daily_prices, bind, gets. simpl. by case_match.
  - subst st'. unfold prune_old_daily_prices, bind, gets. simpl. by case_match.
Qed.

Lemma prune_keeps_most_recent_witness :
  0 ≤ 7
  ∧ Z.of_nat (List.length (raw_partitions (prune_old_daily_prices 7 Sample.nine_raw).1)) ≤ 7.
Proof.
  split; [lia|].
  apply (prune_keeps_most_recent 7 Sample.nine_raw). lia.
Defined.

(** Of nine partitions the seven latest remain, and the stray file. *)
Example prune_nine_days :
  dom (daily_prices (prune_old_daily_prices 7 Sample.nine_raw).1)
  = list_to_set [ "notes.txt"; "date=2025-09-14"; "date=2025-09-15"; "date=2025-09-16";
                  "date=2025-09-17"; "date=2025-09-18"; "date=2025-09-19";
                  "date=2025-09-20" ].
Proof. apply (bool_decide_unpack _). vm_compute. exact I. Qed.

(** *** Keep-first duplicate removal *)

Section keep_first_facts.
Context {A K : Type} `{EqDecision K} (key : A → K).

Lemma keep_first_from_elem seen l x :
  x ∈ keep_first_from key seen l → x ∈ l ∧ key x ∉ seen.
Proof.
  revert seen. induction l as [|y l IH]; intros seen; simpl; [by rewrite elem_of_nil|].
  destruct (decide (key y ∈ seen)) as [Hin|Hnotin].
  - intros Hx. apply IH in Hx as [? ?]. split; [by right|done].
  - rewrite elem_of_cons. intros [->|Hx]; [split; [by left|done]|].
    apply IH in Hx as [? Hk]. split; [by right|].
    intros ?. apply Hk. by right.
Qed.

Lemma keep_first_from_NoDup seen l : NoDup (key <$> keep_first_from key seen l).
Proof.
  revert seen. induction l as [|y l IH]; intros seen; simpl; [constructor|].
  destruct (decide (key y ∈ seen)); [apply IH|].
  simpl. apply NoDup_cons. split; [|apply IH].
  intros Hin. apply list_elem_of_fmap in Hin as (z & Hz & Hin).
  apply keep_first_from_elem in Hin as [_ Hk]. apply Hk. rewrite <- Hz. by left.
Qed.

(** Every key of the list survives: it was seen before or a kept row has it. *)
Lemma keep_first_from_key seen l x :
  x ∈ l → key x ∈ seen ∨ key x ∈ key <$> keep_first_from key seen l.
Proof.
  revert seen. induction l as [|y l IH]; intros seen; [by rewrite elem_of_nil|].
  rewrite elem_of_cons. simpl. intros [->|Hx].
  - destruct (decide (key y ∈ seen)); [by left|]. right. simpl. by left.
  - destruct (decide (key y ∈ seen)); [by apply IH|].
    destruct (IH (key y :: seen) Hx) as [Hs|Hk].
    + apply elem_of_cons in Hs as [Heq|Hs]; [|by left].
      right. simpl. rewrite Heq. by left.
    + right. simpl. by right.
Qed.

Lemma keep_first_from_sublist seen l : keep_first_from key seen l `sublist_of` l.
Proof.
  revert seen. induction l as [|y l IH]; intros seen; simpl; [done|].
  destruct (decide (key y ∈ seen)).
  - by apply sublist_cons.
  - by apply sublist_skip.
Qed.

Lemma keep_first_from_length seen l :
  (List.length (keep_first_from key seen l) ≤ List.length l)%nat.
Proof. apply sublist_length, keep_first_from_sublist. Qed.

Lemma keep_first_from_equiv seen1 seen2 l :
  (∀ k, k ∈ seen1 ↔ k ∈ seen2) →
  keep_first_from key seen1 l = keep_first_from key seen2 l.
Proof.
  revert seen1 seen2. induction l as [|y l IH]; intros seen1 seen2 Heq; simpl; [done|].
  destruct (decide (key y ∈ seen1)) as [H1|H1], (decide (key y ∈ seen2)) as [H2|H2].
  - by apply IH.
  - by apply Heq in H1.
  - by apply Heq in H2.
  - f_equal. apply IH. intros k. rewrite !elem_of_cons, Heq. done.
Qed.

Lemma keep_first_from_app seen l1 l2 :
  keep_first_from key seen (l1 ++ l2)
  = keep_first_from key seen l1 ++ keep_first_from key ((key <$> l1) ++ seen) l2.
Proof.
  revert seen. induction l1 as [|y l1 IH]; intros seen; simpl; [done|].
  destruct (decide (key y ∈ seen)) as [Hin|Hnotin].
  - rewrite IH. f_equal. apply keep_first_from_equiv.
    intros k. rewrite elem_of_cons, !elem_of_app.
    split; [tauto|]. intros [->|?]; [by right|done].
  - simpl. f_equal. rewrite IH. f_equal. apply keep_first_from_equiv.
    intros k. rewrite !elem_of_cons, !elem_of_app, !elem_of_cons. tauto.
Qed.

(** A list whose keys are distinct and not yet seen is kept whole. *)
Lemma keep_first_from_id seen l :
  NoDup (key <$> l) → (∀ x, x ∈ l → key x ∉ seen) →
  keep_first_from key seen l = l.
Proof.
  revert seen. induction l as [|y l IH]; intros seen Hnd Hseen; simpl; [done|].
  apply NoDup_cons in Hnd as [Hy Hnd].
  rewrite decide_False by (apply Hseen; by left).
  f_equal. apply IH; [done|].
  intros x Hx. rewrite not_elem_of_cons. split; [|apply Hseen; by right].
  intros Heq. apply Hy. rewrite <- Heq. by apply list_elem_of_fmap_2.
Qed.

Lemma keep_first_id l : NoDup (key <$> l) → keep_first key l = l.
Proof.
  intros Hnd. apply keep_first_from_id; [done|]. intros x _. apply not_elem_of_nil.
Qed.

Lemma keep_first_NoDup l : NoDup (key <$> keep_first key l).
Proof. apply keep_first_from_NoDup. Qed.

Lemma keep_first_app l1 l2 :
  keep_first key (l1 ++ l2)
  = keep_first key l1 ++ keep_first_from key (key <$> l1) l2.
Proof.
  unfold keep_first. rewrite keep_first_from_app. by rewrite app_nil_r.
Qed.
End keep_first_facts.

(** *** The rollup routines *)

(** The dates of the partitions are the same set in any order of listing. *)
Lemma same_set_listing W (existing : list (option pd.cell)) (m : gmap string pd.DataFrame) :
  same_set existing
    ((λ s, Some (pd.CStr s)) <$> ((λ f : string * pd.DataFrame, Str.after_last_eq f.1)
                                    <$> rglob W m))
  = same_set existing
      ((λ s, Some (pd.CStr s)) <$> ((λ f : string * pd.DataFrame, Str.after_last_eq f.1)
                                      <$> map_to_list m)).
Proof.
  unfold same_set. apply bool_decide_ext.
  assert (∀ x, x ∈ (λ s, Some (pd.CStr s)) <$> ((λ f : string * pd.DataFrame,
                      Str.after_last_eq f.1) <$> rglob W m)
               ↔ x ∈ (λ s, Some (pd.CStr s)) <$> ((λ f : string * pd.DataFrame,
                      Str.after_last_eq f.1) <$> map_to_list m)) as Hsame.
  { intros x. by rewrite (rglob_listing W m). }
  split; intros [H1 H2]; split; intros x Hx.
  - apply Hsame. by apply H1.
  - apply H2. by apply Hsame.
  - apply Hsame. by apply H1.
  - apply H2. by apply Hsame.
Qed.

Lemma build_full_file_unfold W st :
  build_full_file W st =
    let st1 := journaled (Called "build_full_file") st in
    if rollup_matches st then (st1, Ok tt)
    else
      match pd.concat (all_partitions W st) with
      | Ok full_df => (with_rollup (Some full_df) st1, Ok tt)
      | Raise e => (st1, Raise e)
      | OutOfFuel => (st1, OutOfFuel)
      end.
Proof.
  unfold build_full_file, bind, gets, emit, modify, lift, journaled, rollup_matches,
    all_partitions, partition_dates, date_values. simpl.
  destruct (rollup st) as [old|]; simpl.
  - rewrite (same_set_listing W). case_match; [done|]. by destruct (pd.concat _).
  - by destruct (pd.concat _).
Qed.

Lemma concat_rows dfs full :
  pd.concat dfs = Ok full → pd.rows full = dfs ≫= pd.rows.
Proof. destruct dfs; [done|]. intros [= <-]. done. Qed.

Lemma concat_cons_ok df dfs : ∃ full, pd.concat (df :: dfs) = Ok full.
Proof. eexists. reflexivity. Qed.

Lemma union_columns_elem a b c : c ∈ pd.union_columns a b ↔ c ∈ a ∨ c ∈ b.
Proof.
  unfold pd.union_columns. rewrite elem_of_app, list_elem_of_filter.
  destruct (decide (c ∈ a)); tauto.
Qed.

Lemma concat_columns dfs full c :
  pd.concat dfs = Ok full → (c ∈ pd.columns full ↔ ∃ df, df ∈ dfs ∧ c ∈ pd.columns df).
Proof.
  destruct dfs as [|df0 dfs0] eqn:Hd; [done|]. rewrite <- Hd. clear Hd.
  intros Hc. assert (pd.columns full = foldl pd.union_columns [] (pd.columns <$> dfs)) as ->.
  { destruct dfs; [done|]. by injection Hc as <-. }
  clear Hc.
  assert (∀ acc, c ∈ foldl pd.union_columns acc (pd.columns <$> dfs)
                 ↔ c ∈ acc ∨ ∃ df, df ∈ dfs ∧ c ∈ pd.columns df) as Hgen.
  { induction dfs as [|df dfs IH]; intros acc; simpl.
    - split; [by left|]. intros [?|(df & Hdf & _)]; [done|]. by apply elem_of_nil in Hdf.
    - rewrite IH, union_columns_elem. split.
      + intros [[?|?]|(df' & ? & ?)]; [by left| |].
        * right. exists df. split; [by left|done].
        * right. exists df'. split; [by right|done].
      + intros [?|(df' & Hin & ?)]; [by left; left|].
        apply elem_of_cons in Hin as [->|?]; [by left; right|].
        right. by exists df'. }
  rewrite Hgen. split; [|by right]. intros [Hnil|?]; [|done]. by apply elem_of_nil in Hnil.
Qed.

(** Rows gathered from a list of frames have distinct keys when each frame
    has and frames at different places share none. *)
Lemma bind_rows_NoDup (dfs : list pd.DataFrame) :
  (∀ df, df ∈ dfs → unique_keys df) →
  (∀ i j df1 df2, i ≠ j → dfs !! i = Some df1 → dfs !! j = Some df2 → disjoint_keys df1 df2) →
  NoDup (pd.key_of KEY <$> (dfs ≫= pd.rows)).
Proof.
  induction dfs as [|df dfs IH]; intros Huniq Hdisj; [constructor|].
  simpl. rewrite fmap_app. apply NoDup_app. split_and!.
  - apply Huniq. by left.
  - intros k Hk1 Hk2.
    apply list_elem_of_fmap in Hk1 as (r1 & -> & Hr1).
    apply list_elem_of_fmap in Hk2 as (r2 & Heq & Hr2).
    apply list_elem_of_bind in Hr2 as (df2 & Hr2 & Hdf2).
    apply list_elem_of_lookup in Hdf2 as (j & Hj).
    pose proof (Hdisj 0%nat (S j) df df2 ltac:(lia) eq_refl Hj) as Hd.
    unfold disjoint_keys in Hd. rewrite Forall_forall in Hd.
    specialize (Hd r1 Hr1). rewrite Forall_forall in Hd. by apply (Hd r2).
  - apply IH.
    + intros df' ?. apply Huniq. by right.
    + intros i j df1 df2 Hij Hi Hj. apply (Hdisj (S i) (S j)); [lia|done|done].
Qed.

Lemma rglob_elem W (m : gmap string pd.DataFrame) name df :
  (name, df) ∈ rglob W m ↔ m !! name = Some df.
Proof. by rewrite (rglob_listing W m), elem_of_map_to_list. Qed.

Lemma rglob_NoDup_fst W (m : gmap string pd.DataFrame) : NoDup (rglob W m).*1.
Proof. rewrite (rglob_listing W m). apply NoDup_fst_map_to_list. Qed.

Lemma all_partitions_lookup W st i df :
  all_partitions W st !! i = Some df →
  ∃ name, rglob W (daily st) !! i = Some (name, df) ∧ daily st !! name = Some df.
Proof.
  unfold all_partitions. rewrite list_lookup_fmap.
  destruct (rglob W (daily st) !! i) as [[name df']|] eqn:Hi; [|done].
  simpl. intros [= ->]. exists name. split; [done|].
  apply (rglob_elem W). by eapply list_elem_of_lookup_2.
Qed.

Lemma all_partitions_elem W st df :
  df ∈ all_partitions W st ↔ ∃ name, daily st !! name = Some df.
Proof.
  unfold all_partitions. rewrite list_elem_of_fmap. split.
  - intros ([name df'] & -> & Hin). exists name. by apply (rglob_elem W).
  - intros (name & Hn). exists (name, df). split; [done|]. by apply (rglob_elem W).
Qed.

Lemma all_partitions_distinct W st i j df1 df2 :
  i ≠ j → all_partitions W st !! i = Some df1 → all_partitions W st !! j = Some df2 →
  ∃ n1 n2, n1 ≠ n2 ∧ daily st !! n1 = Some df1 ∧ daily st !! n2 = Some df2.
Proof.
  intros Hij Hi Hj.
  apply all_partitions_lookup in Hi as (n1 & Hi & H1).
  apply all_partitions_lookup in Hj as (n2 & Hj & H2).
  exists n1, n2. split_and!; [|done|done].
  intros ->. apply Hij.
  pose proof (rglob_NoDup_fst W (daily st)) as Hnd.
  eapply (NoDup_lookup _ i j n2 Hnd); rewrite list_lookup_fmap.
  - by rewrite Hi.
  - by rewrite Hj.
Qed.

Lemma all_partitions_nil W st : all_partitions W st = [] ↔ daily st = ∅.
Proof.
  unfold all_partitions. rewrite <- map_to_list_empty_iff. split.
  - intros Hnil. apply fmap_nil_inv in Hnil.
    pose proof (rglob_listing W (daily st)) as Hp. rewrite Hnil in Hp.
    symmetry. by apply Permutation_nil_l.
  - intros Hnil. pose proof (rglob_listing W (daily st)) as Hp. rewrite Hnil in Hp.
    apply Permutation_nil_r in Hp. by rewrite Hp.
Qed.

Lemma keep_first_id_elem {A} `{EqDecision A} (l : list A) x :
  x ∈ keep_first id l ↔ x ∈ l.
Proof.
  split.
  - intros H. by apply keep_first_from_elem in H as [? _].
  - intros H. destruct (keep_first_from_key id [] l x H) as [Hnil|Hin].
    + by apply elem_of_nil in Hnil.
    + by rewrite list_fmap_id in Hin.
Qed.

Lemma rebuilt_rollup_matches W st full :
  daily st ≠ ∅ →
  map_Forall dated (daily st) →
  pd.concat (all_partitions W st) = Ok full →
  rollup_matches (with_rollup (Some full) (journaled (Called "build_full_file") st)) = true.
Proof.
  intros Hne Hdated Hfull. unfold rollup_matches, partition_dates. simpl.
  unfold date_values.
  assert ("date" ∈ pd.columns full) as Hcol.
  { apply (concat_columns _ _ _ Hfull).
    destruct (map_to_list (daily st)) as [|[name df] rest] eqn:Hl.
    { by apply map_to_list_empty_iff in Hl. }
    assert (daily st !! name = Some df) as Hlook.
    { apply elem_of_map_to_list. rewrite Hl. by left. }
    exists df. split.
    - apply all_partitions_elem. by exists name.
    - by apply (Hdated name df). }
  rewrite decide_True by done.
  unfold same_set. apply bool_decide_eq_true_2. split.
  - intros x Hx. unfold pd.column_values in Hx. rewrite keep_first_id_elem in Hx.
    apply list_elem_of_fmap in Hx as (r & -> & Hr).
    rewrite (concat_rows _ _ Hfull) in Hr.
    apply list_elem_of_bind in Hr as (df & Hr & Hdf).
    apply all_partitions_elem in Hdf as (name & Hlook).
    destruct (Hdated name df Hlook) as (_ & _ & Hall).
    rewrite Forall_forall in Hall. rewrite (Hall r Hr).
    apply list_elem_of_fmap. exists (Str.after_last_eq name). split; [done|].
    apply list_elem_of_fmap. exists (name, df). split; [done|].
    by apply elem_of_map_to_list.
  - intros y Hy. apply list_elem_of_fmap in Hy as (s & -> & Hs).
    apply list_elem_of_fmap in Hs as ([name df] & -> & Hin). simpl.
    pose proof Hin as Hlook. apply elem_of_map_to_list in Hlook.
    destruct (Hdated name df Hlook) as (_ & Hrows & Hall).
    destruct (pd.rows df) as [|r rs] eqn:Hr; [done|].
    unfold pd.column_values. rewrite keep_first_id_elem.
    apply list_elem_of_fmap. exists r. split.
    + apply Forall_cons in Hall as [Hd _]. by rewrite Hd.
    + rewrite (concat_rows _ _ Hfull). apply list_elem_of_bind. exists df. split.
      * rewrite Hr. by left.
      * apply all_partitions_elem. by exists name.
Qed.

(** A rebuild that finds partitions writes their concatenation. *)
Lemma build_full_file_writes W st :
  rollup_matches st = false → daily st ≠ ∅ →
  ∃ full,
    (build_full_file W st).2 = Ok tt
    ∧ pd.concat (all_partitions W st) = Ok full
    ∧ rollup (build_full_file W st).1 = Some full
    ∧ pd.rows full = all_partitions W st ≫= pd.rows.
Proof.
  intros Hno Hne. rewrite build_full_file_unfold. cbn zeta. rewrite Hno.
  assert (∃ full, pd.concat (all_partitions W st) = Ok full) as (full & Hfull).
  { destruct (all_partitions W st) as [|df dfs] eqn:Hparts.
    - by apply all_partitions_nil in Hparts.
    - apply concat_cons_ok. }
  rewrite Hfull. exists full. split_and!; try done. by apply concat_rows.
Qed.

(** A rebuild that finds no partition raises and writes nothing. *)
Lemma build_full_file_no_partition W st :
  rollup_matches st = false → daily st = ∅ →
  build_full_file W st
  = (journaled (Called "build_full_file") st,
     Raise (ValueError "No objects to concatenate")).
Proof.
  intros Hno Hnil. rewrite build_full_file_unfold. cbn zeta. rewrite Hno.
  by rewrite (proj2 (all_partitions_nil W st) Hnil).
Qed.

(** C6, as the code has it.  When a rollup exists and the dates read from it
    are the dates of the partition directories, [build_full_file] leaves it
    as it is.  Otherwise, with at least one enriched partition on disk, it
    overwrites the rollup with the concatenation of all of them, in the
    order in which the file system lists them; the dates of the rollup are
    then the dates of the directories provided each directory is not empty
    and holds only rows of its own date.  Otherwise still, with no enriched
    partition on disk, it raises the [ValueError] of [pd.concat] on an
    empty list and leaves the rollup, if any, as it is.  The partitions
    themselves are never changed. *)
Theorem build_full_file_rebuilds (W : World) (st : BaseDir) :
  let st' := (build_full_file W st).1 in
  (rollup_matches st = true → (build_full_file W st).2 = Ok tt ∧ rollup st' = rollup st)
  ∧ (rollup_matches st = false → daily st ≠ ∅ →
       ∃ full,
         (build_full_file W st).2 = Ok tt
         ∧ pd.concat (all_partitions W st) = Ok full
         ∧ rollup st' = Some full
         ∧ pd.rows full = all_partitions W st ≫= pd.rows
         ∧ (map_Forall dated (daily st) → rollup_matches st' = true))
  ∧ (rollup_matches st = false → daily st = ∅ →
       (build_full_file W st).2 = Raise (ValueError "No objects to concatenate")
       ∧ rollup st' = rollup st)
  ∧ all_partitions W st ≡ₚ (map_to_list (daily st)).*2
  ∧ daily st' = daily st.
Proof.
  intros st'. subst st'. split_and!.
  - rewrite build_full_file_unfold. cbn zeta. intros ->. done.
  - intros Hno Hne.
    destruct (build_full_file_writes W st Hno Hne) as (full & Hok & Hfull & Hroll & Hrows).
    exists full. split_and!; try done.
    intros Hdated. rewrite build_full_file_unfold. cbn zeta. rewrite Hno, Hfull.
    by apply (rebuilt_rollup_matches W).
  - intros Hno Hnil. by rewrite (build_full_file_no_partition W st Hno Hnil).
  - unfold all_partitions. by rewrite (rglob_listing W (daily st)).
  - rewrite build_full_file_unfold. cbn zeta.
    destruct (rollup_matches st); [done|]. by destruct (pd.concat _).
Qed.

Lemma build_full_file_rebuilds_witness :
  rollup_matches Sample.two_days = false
  ∧ daily Sample.two_days ≠ ∅
  ∧ map_Forall dated (daily Sample.two_days)
  ∧ rollup_matches (build_full_file Sample.world Sample.two_days).1 = true.
Proof.
  assert (rollup_matches Sample.two_days = false) as H1 by (vm_compute; reflexivity).
  assert (daily Sample.two_days ≠ ∅) as H2.
  { apply (bool_decide_unpack _). vm_compute. exact I. }
  assert (map_Forall dated (daily Sample.two_days)) as H3.
  { apply (bool_decide_unpack _). vm_compute. exact I. }
  split; [exact H1|]. split; [exact H2|]. split; [exact H3|].
  destruct (build_full_file_rebuilds Sample.world Sample.two_days) as (_ & Hrebuild & _).
  destruct (Hrebuild H1 H2) as (full & _ & _ & _ & _ & Hmatch).
  exact (Hmatch H3).
Defined.

(** The claim of C6 fails in two ways.  With no partition left and a stale
    rollup, the routine raises and the rollup keeps dates that no directory
    has; with a directory that holds rows of another date, the rebuilt
    rollup has a date that no directory has. *)
Lemma build_full_file_counterexample :
  (rollup_matches Sample.stale = false
   ∧ (build_full_file Sample.world Sample.stale).2 = Raise (ValueError "No objects to concatenate")
   ∧ rollup (build_full_file Sample.world Sample.stale).1 = rollup Sample.stale
   ∧ rollup_matches (build_full_file Sample.world Sample.stale).1 = false)
  ∧ (rollup_matches Sample.misdated = false
     ∧ (build_full_file Sample.world Sample.misdated).2 = Ok tt
     ∧ (date_values <$> rollup (build_full_file Sample.world Sample.misdated).1)
       = Some [Some (pd.CStr "2025-09-19")]
     ∧ partition_dates (build_full_file Sample.world Sample.misdated).1 = ["2025-09-20"]
     ∧ rollup_matches (build_full_file Sample.world Sample.misdated).1 = false).
Proof. apply (bool_decide_unpack _). vm_compute. exact I. Qed.

Lemma append_to_full_file_unfold W new_days st :
  append_to_full_file W new_days st =
    let st1 := journaled (Called "append_to_full_file") st in
    match rollup st with
    | None => build_full_file W st1
    | Some old_df =>
        match new_partitions new_days st with
        | [] => (st1, Ok tt)
        | _ :: _ =>
            match rbind (pd.concat (new_partitions new_days st)) (λ new_df,
                    rbind (pd.concat [old_df; new_df]) (pd.drop_duplicates_subset KEY)) with
            | Ok full_df => (with_rollup (Some full_df) st1, Ok tt)
            | Raise e => (st1, Raise e)
            | OutOfFuel => (st1, OutOfFuel)
            end
        end
    end.
Proof.
  unfold append_to_full_file, bind, gets, emit, modify, lift, journaled, new_partitions.
  simpl. destruct (rollup st) as [old|]; [|done].
  destruct (omap _ new_days) as [|df dfs]; [done|]. simpl.
  by destruct (pd.drop_duplicates_subset _ _).
Qed.

Lemma build_full_file_journaled W e st :
  (build_full_file W (journaled e st)).2 = (build_full_file W st).2
  ∧ rollup (build_full_file W (journaled e st)).1 = rollup (build_full_file W st).1
  ∧ daily (build_full_file W (journaled e st)).1 = daily (build_full_file W st).1.
Proof.
  rewrite !build_full_file_unfold. cbn zeta.
  change (rollup_matches (journaled e st)) with (rollup_matches st).
  change (all_partitions W (journaled e st)) with (all_partitions W st).
  destruct (rollup_matches st); [done|]. by destruct (pd.concat _).
Qed.

Lemma missing_none subset cols :
  Forall (λ c, c ∈ cols) subset → pd.missing subset cols = None.
Proof.
  intros Hall. unfold pd.missing.
  induction Hall as [|c subset Hc Hall IH]; [done|].
  rewrite filter_cons, decide_False by (by intros ?). done.
Qed.

Lemma drop_duplicates_subset_ok subset df full :
  pd.drop_duplicates_subset subset df = Ok full →
  pd.columns full = pd.columns df
  ∧ pd.rows full = keep_first (pd.key_of subset) (pd.rows df).
Proof.
  unfold pd.drop_duplicates_subset. destruct (pd.missing _ _); [done|].
  by intros [= <-].
Qed.

(** What the appended rollup holds, when the duplicate removal finds its
    key columns. *)
Lemma appended_rollup old new_dfs :
  new_dfs ≠ [] →
  Forall (λ c, c ∈ pd.columns old) KEY →
  ∃ full,
    rbind (pd.concat new_dfs) (λ new_df,
      rbind (pd.concat [old; new_df]) (pd.drop_duplicates_subset KEY)) = Ok full
    ∧ pd.rows full = keep_first (pd.key_of KEY) (pd.rows old ++ (new_dfs ≫= pd.rows)).
Proof.
  intros Hne Hkeys. destruct new_dfs as [|df dfs]; [done|].
  destruct (concat_cons_ok df dfs) as (new & Hnew). rewrite Hnew. cbn [rbind].
  destruct (concat_cons_ok old [new]) as (both & Hboth). rewrite Hboth. cbn [rbind].
  unfold pd.drop_duplicates_subset. rewrite missing_none.
  - eexists. split; [done|]. cbn [pd.rows].
    rewrite (concat_rows _ _ Hboth). cbn [mbind list_bind]. simpl.
    rewrite app_nil_r. by rewrite (concat_rows _ _ Hnew).
  - eapply Forall_impl; [exact Hkeys|]. intros c Hc.
    apply (concat_columns _ _ _ Hboth). exists old. split; [by left|done].
Qed.

(** C7, as the code has it.  Without a rollup file [append_to_full_file] does
    what [build_full_file] does.  With one, and with its key columns, the
    rollup becomes the prior rollup followed by the enriched partitions
    found for the new dates, with duplicates on (product_id, date,
    sub_type_name) removed keeping the first; when none of the new dates has
    a partition the file is left as it is.  When the prior rollup has unique
    keys, both cases give the deduplicated concatenation, its row count is
    the prior row count plus the number of new rows with a key not met
    before, every prior row is in it and every new row has its key in it. *)
Theorem append_to_full_file_appends (W : World) (new_days : list string) (st : BaseDir) :
  let st' := (append_to_full_file W new_days st).1 in
  let new_rows := new_partitions new_days st ≫= pd.rows in
  (rollup st = None →
     (append_to_full_file W new_days st).2 = (build_full_file W st).2
     ∧ rollup st' = rollup (build_full_file W st).1)
  ∧ (∀ old, rollup st = Some old → new_partitions new_days st = [] →
       (append_to_full_file W new_days st).2 = Ok tt ∧ rollup st' = Some old)
  ∧ (∀ old, rollup st = Some old → new_partitions new_days st ≠ [] →
       Forall (λ c, c ∈ pd.columns old) KEY →
       ∃ full,
         (append_to_full_file W new_days st).2 = Ok tt
         ∧ rollup st' = Some full
         ∧ pd.rows full = keep_first (pd.key_of KEY) (pd.rows old ++ new_rows)
         ∧ unique_keys full)
  ∧ (∀ old, rollup st = Some old → Forall (λ c, c ∈ pd.columns old) KEY →
       unique_keys old →
       ∃ full,
         (append_to_full_file W new_days st).2 = Ok tt
         ∧ rollup st' = Some full
         ∧ pd.rows full = keep_first (pd.key_of KEY) (pd.rows old ++ new_rows)
         ∧ List.length (pd.rows full)
           = (List.length (pd.rows old)
              + List.length (keep_first_from (pd.key_of KEY)
                               (pd.key_of KEY <$> pd.rows old) new_rows))%nat
         ∧ (∀ r, r ∈ pd.rows old → r ∈ pd.rows full)
         ∧ (∀ r, r ∈ new_rows →
              ∃ r', r' ∈ pd.rows full ∧ pd.key_of KEY r' = pd.key_of KEY r))
  ∧ daily st' = daily st.
Proof.
  intros st' new_rows. subst st' new_rows.
  rewrite append_to_full_file_unfold. cbn zeta.
  assert (∀ old, rollup st = Some old → new_partitions new_days st ≠ [] →
       Forall (λ c, c ∈ pd.columns old) KEY →
       ∃ full,
         (match new_partitions new_days st with
          | [] => (journaled (Called "append_to_full_file") st, Ok tt)
          | _ :: _ =>
              match rbind (pd.concat (new_partitions new_days st)) (λ new_df,
                      rbind (pd.concat [old; new_df]) (pd.drop_duplicates_subset KEY)) with
              | Ok full_df =>
                  (with_rollup (Some full_df) (journaled (Called "append_to_full_file") st),
                   Ok tt)
              | Raise e => (journaled (Called "append_to_full_file") st, Raise e)
              | OutOfFuel => (journaled (Called "append_to_full_file") st, OutOfFuel)
              end
          end) = (with_rollup (Some full) (journaled (Called "append_to_full_file") st), Ok tt)
         ∧ pd.rows full
           = keep_first (pd.key_of KEY)
               (pd.rows old ++ (new_partitions new_days st ≫= pd.rows))) as Hpath.
  { intros old Hold Hne Hkeys.
    destruct (appended_rollup old _ Hne Hkeys) as (full & Hfull & Hrows).
    exists full. split; [|done].
    destruct (new_partitions new_days st) as [|df dfs] eqn:Hnew; [done|].
    by rewrite Hfull. }
  split_and!.
  - intros ->. pose proof (build_full_file_journaled W (Called "append_to_full_file") st).
    tauto.
  - intros old Hold Hnil. rewrite Hold, Hnil. done.
  - intros old Hold Hne Hkeys. destruct (Hpath old Hold Hne Hkeys) as (full & Heq & Hrows).
    rewrite Hold, Heq. exists full. split_and!; try done.
    unfold unique_keys. rewrite Hrows. apply keep_first_NoDup.
  - intros old Hold Hkeys Huniq.
    assert (∀ full,
      pd.rows full = keep_first (pd.key_of KEY)
                       (pd.rows old ++ (new_partitions new_days st ≫= pd.rows)) →
      List.length (pd.rows full)
        = (List.length (pd.rows old)
           + List.length (keep_first_from (pd.key_of KEY) (pd.key_of KEY <$> pd.rows old)
                            (new_partitions new_days st ≫= pd.rows)))%nat
      ∧ (∀ r, r ∈ pd.rows old → r ∈ pd.rows full)
      ∧ (∀ r, r ∈ new_partitions new_days st ≫= pd.rows →
           ∃ r', r' ∈ pd.rows full ∧ pd.key_of KEY r' = pd.key_of KEY r)) as Hcons.
    { intros full Hrows. rewrite Hrows, keep_first_app, (keep_first_id _ _ Huniq).
      split_and!.
      - by rewrite length_app.
      - intros r Hr. apply elem_of_app. by left.
      - intros r Hr.
        destruct (keep_first_from_key (pd.key_of KEY) (pd.key_of KEY <$> pd.rows old)
                    _ r Hr) as [Hseen|Hkept].
        + apply list_elem_of_fmap in Hseen as (r' & Hk & Hr').
          exists r'. split; [apply elem_of_app; by left|done].
        + apply list_elem_of_fmap in Hkept as (r' & Hk & Hr').
          exists r'. split; [apply elem_of_app; by right|done]. }
    destruct (decide (new_partitions new_days st = [])) as [Hnil|Hne].
    + rewrite Hold, Hnil. exists old. cbn [fst snd mbind list_bind].
      assert (pd.rows old = keep_first (pd.key_of KEY) (pd.rows old ++ [])) as Hrows.
      { by rewrite app_nil_r, (keep_first_id _ _ Huniq). }
      split_and!; try done.
      all: rewrite Hnil in Hcons; by apply (Hcons old Hrows).
    + destruct (Hpath old Hold Hne Hkeys) as (full & Heq & Hrows).
      rewrite Hold, Heq. exists full. split_and!; try done.
      all: by apply (Hcons full Hrows).
  - destruct (rollup st) as [old|].
    + destruct (new_partitions new_days st); [done|].
      by destruct (rbind _ _).
    + destruct (build_full_file_journaled W (Called "append_to_full_file") st)
        as (_ & _ & ->).
      rewrite build_full_file_unfold. cbn zeta.
      destruct (rollup_matches st); [done|]. by destruct (pd.concat (all_partitions W st)).
Qed.

Lemma append_to_full_file_appends_witness :
  ∃ old full,
    rollup Sample.two_days = Some old
    ∧ Forall (λ c, c ∈ pd.columns old) KEY
    ∧ unique_keys old
    ∧ rollup (append_to_full_file Sample.world ["2025-09-20"] Sample.two_days).1 = Some full
    ∧ List.length (pd.rows full) = 3%nat.
Proof.
  set (old := Sample.enriched [Sample.enriched_row 1 "2025-09-19" "Normal";
                               Sample.enriched_row 2 "2025-09-19" "Normal"]).
  assert (rollup Sample.two_days = Some old) as H1 by reflexivity.
  assert (Forall (λ c, c ∈ pd.columns old) KEY) as H2.
  { apply (bool_decide_unpack _). vm_compute. exact I. }
  assert (unique_keys old) as H3.
  { apply (bool_decide_unpack _). vm_compute. exact I. }
  destruct (append_to_full_file_appends Sample.world ["2025-09-20"] Sample.two_days)
    as (_ & _ & _ & Happ & _).
  destruct (Happ old H1 H2 H3) as (full & _ & Hfull & _ & Hlen & _).
  exists old, full. split_and!; [exact H1|exact H2|exact H3|exact Hfull|exact Hlen].
Defined.

(** The claim of C7 fails on a prior rollup that holds a key twice: appending
    one new row to its two rows leaves two rows, not three. *)
Lemma append_to_full_file_counterexample :
  (pd.len <$> rollup Sample.doubled) = Some 2%nat
  ∧ pd.len <$> new_partitions ["2025-09-20"] Sample.doubled = [1%nat]
  ∧ (append_to_full_file Sample.world ["2025-09-20"] Sample.doubled).2 = Ok tt
  ∧ (pd.len <$> rollup (append_to_full_file Sample.world ["2025-09-20"] Sample.doubled).1) = Some 2%nat
  ∧ (pd.rows <$> rollup (append_to_full_file Sample.world ["2025-09-20"] Sample.doubled).1)
    = Some [Sample.enriched_row 1 "2025-09-19" "Normal";
            Sample.enriched_row 1 "2025-09-20" "Normal"].
Proof. apply (bool_decide_unpack _). vm_compute. exact I. Qed.

(** *** The key is unique *)

Lemma merge_day_unique day_prices products_df groups_df e :
  merge_day day_prices products_df groups_df = Ok e → unique_keys e.
Proof.
  unfold merge_day. destruct (pd.merge_left day_prices _ _) as [m1| |]; [|done..].
  cbn [rbind]. destruct (pd.merge_left m1 _ _) as [m2| |]; [|done..].
  cbn [rbind]. intros Hd. apply drop_duplicates_subset_ok in Hd as [_ Hrows].
  unfold unique_keys. rewrite Hrows. apply keep_first_NoDup.
Qed.

Lemma merge_loop_unique products_df groups_df new_days : ∀ st name df,
  daily (merge_loop products_df groups_df new_days st).1 !! name = Some df →
  daily st !! name = Some df ∨ unique_keys df.
Proof.
  induction new_days as [|day rest IH]; intros st name df; [by left|].
  cbn [merge_loop]. unfold bind, gets, lift, modify. cbn [fst snd].
  destruct (daily_prices st !! ("date=" +:+ day)) as [[|[day_prices|]]|]; try (by left).
  destruct (merge_day day_prices products_df groups_df) as [e| |] eqn:Hm; try (by left).
  cbn [fst snd]. intros Hlook. apply IH in Hlook as [Hlook|Hu]; [|by right].
  unfold with_daily in Hlook. cbn [daily] in Hlook.
  destruct (decide (name = "date=" +:+ day)) as [->|Hne].
  - rewrite lookup_insert_eq in Hlook. injection Hlook as <-.
    right. by eapply merge_day_unique.
  - rewrite lookup_insert_ne in Hlook by done. by left.
Qed.

(** C1, as the code has it.  Every enriched partition the merge stage
    writes, and every rollup the incremental append writes after removing
    duplicates, has no two rows with the same (product_id, date,
    sub_type_name).  The full rebuild, also reached from the incremental
    append when there is no rollup, only concatenates: the rollup it writes
    has unique keys when each enriched partition on disk has them and no two
    partitions share a key. *)
Theorem rollup_keys_unique :
  (∀ products_df groups_df new_days st name df,
     daily (merge_loop products_df groups_df new_days st).1 !! name = Some df →
     daily st !! name = Some df ∨ unique_keys df)
  ∧ (∀ W new_days st old full,
       rollup st = Some old →
       rollup (append_to_full_file W new_days st).1 = Some full →
       full = old ∨ unique_keys full)
  ∧ (∀ W st,
       map_Forall (λ _ df, unique_keys df) (daily st) →
       (∀ n1 n2 df1 df2, n1 ≠ n2 → daily st !! n1 = Some df1 → daily st !! n2 = Some df2 →
          disjoint_keys df1 df2) →
       rollup_matches st = false →
       daily st ≠ ∅ →
       ∃ full,
         (build_full_file W st).2 = Ok tt
         ∧ rollup (build_full_file W st).1 = Some full
         ∧ unique_keys full)
  ∧ (∀ W new_days st,
       rollup st = None →
       rollup (append_to_full_file W new_days st).1 = rollup (build_full_file W st).1).
Proof.
  split_and!.
  - apply merge_loop_unique.
  - intros W new_days st old full Hold. rewrite append_to_full_file_unfold. cbn zeta.
    rewrite Hold. destruct (new_partitions new_days st) as [|df dfs] eqn:Hnew.
    { cbn [fst]. change (rollup (journaled _ st)) with (rollup st).
      rewrite Hold. intros [= <-]. by left. }
    destruct (rbind _ _) as [full'| |] eqn:Hr; cbn [fst].
    + intros [= <-]. right.
      destruct (pd.concat (df :: dfs)) as [new| |]; [|done..]. cbn [rbind] in Hr.
      destruct (pd.concat [old; new]) as [both| |]; [|done..]. cbn [rbind] in Hr.
      apply drop_duplicates_subset_ok in Hr as [_ Hrows].
      unfold unique_keys. rewrite Hrows. apply keep_first_NoDup.
    + change (rollup (journaled _ st)) with (rollup st). rewrite Hold.
      intros [= <-]. by left.
    + change (rollup (journaled _ st)) with (rollup st). rewrite Hold.
      intros [= <-]. by left.
  - intros W st Huniq Hdisj Hno Hne.
    destruct (build_full_file_writes W st Hno Hne) as (full & Hok & Hc & Hroll & Hrows).
    exists full. split_and!; [done|done|].
    unfold unique_keys. rewrite Hrows. apply bind_rows_NoDup.
    + intros df Hdf. apply all_partitions_elem in Hdf as (name & Hname).
      by apply (Huniq name df).
    + intros i j df1 df2 Hij Hi Hj.
      destruct (all_partitions_distinct W st i j df1 df2 Hij Hi Hj)
        as (n1 & n2 & Hn & H1 & H2).
      by apply (Hdisj n1 n2).
  - intros W new_days st Hnone. rewrite append_to_full_file_unfold. cbn zeta.
    rewrite Hnone. apply (build_full_file_journaled W (Called "append_to_full_file") st).
Qed.

Lemma rollup_keys_unique_witness :
  rollup_matches Sample.two_days = false
  ∧ daily Sample.two_days ≠ ∅
  ∧ ∃ full, rollup (build_full_file Sample.world Sample.two_days).1 = Some full ∧ unique_keys full.
Proof.
  assert (rollup_matches Sample.two_days = false) as H1 by (vm_compute; reflexivity).
  assert (daily Sample.two_days ≠ ∅) as H2.
  { apply (bool_decide_unpack _). vm_compute. exact I. }
  assert (map_Forall (λ _ df, unique_keys df) (daily Sample.two_days)) as H3.
  { apply (bool_decide_unpack _). vm_compute. exact I. }
  assert (map_Forall (λ n1 df1,
            map_Forall (λ n2 df2, n1 ≠ n2 → disjoint_keys df1 df2)
              (daily Sample.two_days)) (daily Sample.two_days)) as H4.
  { apply (bool_decide_unpack _). vm_compute. exact I. }
  split; [exact H1|]. split; [exact H2|].
  destruct rollup_keys_unique as (_ & _ & Hrebuild & _).
  destruct (Hrebuild Sample.world Sample.two_days H3) as (full & _ & Hroll & Hu); [|exact H1|exact H2|].
  - intros n1 n2 df1 df2 Hne Hn1 Hn2. exact (H4 n1 df1 Hn1 n2 df2 Hn2 Hne).
  - exists full. split; [exact Hroll|exact Hu].
Defined.

(** The claim of C1 fails for the full rebuild: two partition directories,
    each with unique keys, hold the same row; the rollup that
    [build_full_file] writes, and the one [append_to_full_file] writes when
    no rollup exists yet, holds that row twice. *)
Lemma rollup_keys_unique_counterexample :
  map_Forall (λ _ df, unique_keys df) (daily Sample.overlapping)
  ∧ (build_full_file Sample.world Sample.overlapping).2 = Ok tt
  ∧ (pd.rows <$> rollup (build_full_file Sample.world Sample.overlapping).1)
    = Some [Sample.enriched_row 1 "2025-09-19" "Normal";
            Sample.enriched_row 1 "2025-09-19" "Normal"]
  ∧ (pd.rows <$> rollup (append_to_full_file Sample.world ["2025-09-20"] Sample.overlapping).1)
    = Some [Sample.enriched_row 1 "2025-09-19" "Normal";
            Sample.enriched_row 1 "2025-09-19" "Normal"]
  ∧ ¬ (∀ full, rollup (build_full_file Sample.world Sample.overlapping).1 = Some full → unique_keys full).
Proof.
  assert ((pd.rows <$> rollup (build_full_file Sample.world Sample.overlapping).1)
    = Some [Sample.enriched_row 1 "2025-09-19" "Normal";
            Sample.enriched_row 1 "2025-09-19" "Normal"]) as Hrows.
  { apply (bool_decide_unpack _). vm_compute. exact I. }
  split_and!.
  - apply (bool_decide_unpack _). vm_compute. exact I.
  - apply (bool_decide_unpack _). vm_compute. exact I.
  - exact Hrows.
  - apply (bool_decide_unpack _). vm_compute. exact I.
  - intros Hall. destruct (rollup (build_full_file Sample.world Sample.overlapping).1) as [full|] eqn:Hf;
      [|done].
    injection Hrows as Hrows. specialize (Hall full eq_refl).
    unfold unique_keys in Hall. rewrite Hrows in Hall.
    apply NoDup_cons in Hall as [Hnotin _]. apply Hnotin. by left.
Qed.

(** *** The products cache *)

Lemma products_loop_cons W processed gid rest acc st :
  products_loop W processed (gid :: rest) acc st =
    if bool_decide (gid ∈ processed) && bool_decide (is_Some (products_file st))
    then products_loop W processed rest acc st
    else
      match fetched_frame W gid with
      | Some df =>
          products_loop W processed rest (acc ++ [df])
            (with_processed_products (λ l, l ++ [gid]) st)
      | None => products_loop W processed rest acc st
      end.
Proof.
  cbn [products_loop]. unfold bind at 1, gets at 1. cbn beta iota.
  destruct (_ && _); [done|]. unfold fetched_frame.
  destruct (fetch_products_for_group W gid) as [df| |]; [|done..].
  by destruct (pd.empty df).
Qed.

Lemma products_loop_spec W processed gids : ∀ acc st,
  (products_loop W processed gids acc st).2
  = Ok (acc ++ newly_fetched W processed (bool_decide (is_Some (products_file st))) gids)
  ∧ same_files st (products_loop W processed gids acc st).1.
Proof.
  induction gids as [|gid rest IH]; intros acc st.
  { simpl. unfold ret, newly_fetched. simpl. rewrite app_nil_r. by repeat split. }
  rewrite products_loop_cons.
  unfold newly_fetched. rewrite filter_cons. fold (newly_fetched W processed).
  destruct (bool_decide (gid ∈ processed) && bool_decide (is_Some (products_file st)))
    eqn:Hskip.
  - apply andb_true_iff in Hskip as [Hp Hc]. apply bool_decide_eq_true_1 in Hp.
    rewrite decide_False by (intros Hn; apply Hn; by split).
    apply IH.
  - rewrite decide_True.
    2:{ intros [Hp Hc]. apply andb_false_iff in Hskip as [Hs|Hs].
        - by apply bool_decide_eq_false_1 in Hs.
        - congruence. }
    cbn [omap list_omap].
    destruct (fetched_frame W gid) as [df|]; [|apply IH].
    set (st1 := with_processed_products _ st).
    destruct (IH (acc ++ [df]) st1) as [Hr Hs].
    split.
    + rewrite Hr. by rewrite <- app_assoc.
    + unfold same_files in *. by subst st1.
Qed.

(** The end of [build_products_and_groups], from the frames fetched. *)
Lemma products_tail (G : pd.DataFrame) (new : list pd.DataFrame) (st2 st' : BaseDir)
    (groups_df products_df : pd.DataFrame) :
  bind (gets products_file)
    (λ old : option pd.DataFrame,
       bind
         match new with
         | [] => ret match old with Some df => df | None => pd.empty_frame end
         | _ :: _ =>
             bind (lift (pd.concat new))
               (λ new_products_df : pd.DataFrame,
                  bind
                    match old with
                    | Some old_products_df =>
                        lift (pd.concat [old_products_df; new_products_df])
                    | None => ret new_products_df
                    end
                    (λ products_df : pd.DataFrame,
                       bind (modify (with_products_file (Some products_df)))
                         (λ _ : (), ret products_df)))
         end
         (λ products_df : pd.DataFrame,
            ret (pd.rename "group_id" "groupid" G,
                 pd.drop_duplicates (pd.rename "group_id" "groupid" products_df))))
    st2 = (st', Ok (groups_df, products_df)) →
  (new ≠ [] →
     ∃ cache,
       products_file st' = Some cache
       ∧ pd.rows cache
         = match products_file st2 with Some old => pd.rows old | None => [] end
           ++ (new ≫= pd.rows)
       ∧ pd.rows products_df
         = keep_first id (pd.rows (pd.rename "group_id" "groupid" cache)))
  ∧ (new = [] → products_file st' = products_file st2).
Proof.
  unfold bind at 1, gets at 1. cbn beta iota.
  destruct new as [|df dfs].
  - unfold bind, ret. intros [= <- _ _]. split; [done|]. done.
  - destruct (concat_cons_ok df dfs) as (new_df & Hnew).
    unfold bind at 1. unfold bind at 1, lift at 1. rewrite Hnew. cbn beta iota.
    intros H. split; [|done]. intros _.
    destruct (products_file st2) as [old|] eqn:Hold.
    + destruct (concat_cons_ok old [new_df]) as (both & Hboth).
      unfold bind, lift, modify, ret in H. rewrite Hboth in H. cbn beta iota in H.
      injection H as <- _ <-. exists both. split_and!; [done| |done].
      rewrite (concat_rows _ _ Hboth). cbn [mbind list_bind]. simpl.
      by rewrite app_nil_r, (concat_rows _ _ Hnew).
    + unfold bind, lift, modify, ret in H. cbn beta iota in H.
      injection H as <- _ <-. exists new_df. split_and!; [done| |done].
      by rewrite (concat_rows _ _ Hnew).
Qed.

(** C5, as the code has it.  In a run of [build_products_and_groups] that
    fetches new product rows, the products cache written to disk holds the
    rows of the prior cache followed by the newly fetched rows, duplicates
    included; exact duplicates are removed, keeping the first, from the table
    returned to the caller only.  A run that fetches nothing leaves the cache
    file as it is. *)
Theorem products_cache_appends (W : World) (st st' : BaseDir)
    (groups_df products_df : pd.DataFrame) :
  build_products_and_groups W st = (st', Ok (groups_df, products_df)) →
  ∃ G gids,
    (groups_file st = Some G ∨ (groups_file st = None ∧ groups_response W = Ok G))
    ∧ pd.unique_str "group_id" G = Ok gids
    ∧ let new := newly_fetched W (processed_products st)
                   (bool_decide (is_Some (products_file st))) gids in
      let old_rows := match products_file st with Some old => pd.rows old | None => [] end in
      (new ≠ [] →
         ∃ cache,
           products_file st' = Some cache
           ∧ pd.rows cache = old_rows ++ (new ≫= pd.rows)
           ∧ pd.rows products_df
             = keep_first id (pd.rows (pd.rename "group_id" "groupid" cache)))
      ∧ (new = [] → products_file st' = products_file st).
Proof.
  intros H. unfold build_products_and_groups in H.
  unfold bind at 1, gets at 1 in H. cbn beta iota in H.
  destruct (groups_file st) as [G|] eqn:Hg.
  - unfold bind at 1, ret at 1 in H. cbn beta iota in H.
    unfold bind at 1, load_processed_products, gets at 1 in H. cbn beta iota in H.
    unfold bind at 1, lift at 1 in H. cbn beta iota in H.
    destruct (pd.unique_str "group_id" G) as [gids| |] eqn:Hgids; [|done..].
    unfold bind at 1 in H.
    destruct (products_loop_spec W (processed_products st) gids [] st) as [Hr Hs].
    destruct (products_loop W (processed_products st) gids [] st) as [st2 r].
    cbn [fst snd] in Hr, Hs. subst r. cbn [app] in H.
    apply products_tail in H. destruct Hs as (_ & _ & Hp & _). rewrite Hp in H.
    exists G, gids. split_and!; [by left|done|apply H].
  - unfold bind at 1 in H. unfold bind at 1, lift at 1 in H.
    destruct (groups_response W) as [G| |] eqn:Hresp; [|done..].
    unfold bind at 1, to_parquet_check in H.
    destruct (bool_decide (NoDup (pd.columns G))); [|done].
    unfold ret at 1, bind at 1, modify at 1, ret at 1 in H. cbn beta iota in H.
    unfold bind at 1, load_processed_products, gets at 1 in H. cbn beta iota in H.
    unfold bind at 1, lift at 1 in H. cbn beta iota in H.
    destruct (pd.unique_str "group_id" G) as [gids| |] eqn:Hgids; [|done..].
    unfold bind at 1 in H.
    set (st0 := with_groups_file (Some G) st) in *.
    destruct (products_loop_spec W (processed_products st0) gids [] st0) as [Hr Hs].
    destruct (products_loop W (processed_products st0) gids [] st0) as [st2 r].
    cbn [fst snd] in Hr, Hs. subst r. cbn [app] in H.
    apply products_tail in H. destruct Hs as (_ & _ & Hp & _). rewrite Hp in H.
    exists G, gids. split_and!; [by right|done|apply H].
Qed.

Lemma products_cache_appends_witness :
  ∃ cache,
    products_file (build_products_and_groups Sample.world Sample.fresh).1 = Some cache
    ∧ pd.rows cache = [Sample.pikachu_row].
Proof.
  set (run := build_products_and_groups Sample.world Sample.fresh).
  assert (∃ g p, run = (run.1, Ok (g, p))) as (g & p & Hrun).
  { exists (pd.rename "group_id" "groupid" Sample.groups),
      (pd.mkDF ["product_id"; "name"; "groupid"; "modified_on"; "number"; "attack_1";
                "attack_2"]
         [Sample.row [("product_id", pd.CInt 1); ("name", pd.CStr "Pikachu");
                      ("groupid", pd.CStr "604"); ("modified_on", pd.CStr "t2");
                      ("number", pd.CStr "025"); ("attack_1", pd.CStr "Gnaw");
                      ("attack_2", pd.CStr "Thunder Jolt")]]).
    apply (bool_decide_unpack _). vm_compute. exact I. }
  destruct (products_cache_appends Sample.world Sample.fresh run.1 g p Hrun)
    as (G & gids & HG & Hgids & Hnew & _).
  destruct HG as [HG|[_ HG]]; [discriminate HG|].
  injection HG as <-. injection Hgids as <-.
  destruct Hnew as (cache & Hcache & Hrows & _).
  { apply (bool_decide_unpack _). vm_compute. exact I. }
  exists cache. split; [exact Hcache|].
  rewrite Hrows. apply (bool_decide_unpack _). vm_compute. exact I.
Defined.

(** The claim of C5 fails: when the tracking file of the groups is gone and
    the cache is not, group 604 is fetched again and the cache written to
    disk holds its row twice; only the table returned has it once. *)
Lemma products_cache_counterexample :
  processed_products Sample.untracked = []
  ∧ (pd.rows <$> products_file Sample.untracked) = Some [Sample.pikachu_row]
  ∧ (pd.rows <$> products_file (build_products_and_groups Sample.world Sample.untracked).1)
    = Some [Sample.pikachu_row; Sample.pikachu_row]
  ∧ (pd.rows <$> returned_products (build_products_and_groups Sample.world Sample.untracked).2)
    = Some [<["groupid" := pd.CStr "604"]> (delete "group_id" Sample.pikachu_row)].
Proof. apply (bool_decide_unpack _). vm_compute. exact I. Qed.

(** *** What each stage leaves alone *)

Section preserves.
Context (R : relation BaseDir) `{!Reflexive R, !Transitive R}.

Lemma preserves_ret {A} (a : A) : preserves R (ret a).
Proof. intros st. simpl. reflexivity. Qed.

Lemma preserves_raise {A} e : preserves R (raise (A := A) e).
Proof. intros st. simpl. reflexivity. Qed.

Lemma preserves_lift {A} (r : result A) : preserves R (lift r).
Proof. intros st. simpl. reflexivity. Qed.

Lemma preserves_gets {A} (f : BaseDir → A) : preserves R (gets f).
Proof. intros st. simpl. reflexivity. Qed.

Lemma preserves_modify f : (∀ st, R st (f st)) → preserves R (modify f).
Proof. intros Hf st. apply Hf. Qed.

Lemma preserves_bind {A B} (m : M A) (k : A → M B) :
  preserves R m → (∀ a, preserves R (k a)) → preserves R (bind m k).
Proof.
  intros Hm Hk st. unfold bind. specialize (Hm st).
  destruct (m st) as [st1 [a|e|]]; simpl in *; [|done..].
  etrans; [exact Hm|]. apply Hk.
Qed.
End preserves.

Lemma journal_grows_refl ok : Reflexive (journal_grows ok).
Proof. intros st. exists []. rewrite app_nil_r. split_and!; [done|constructor|by left]. Qed.

Lemma journal_grows_trans ok : Transitive (journal_grows ok).
Proof.
  intros st1 st2 st3 (evs1 & H1 & Hok1 & Hr1) (evs2 & H2 & Hok2 & Hr2).
  exists (evs1 ++ evs2). split_and!.
  - by rewrite H2, H1, app_assoc.
  - by apply Forall_app.
  - destruct Hr1 as [Hr1|Hr1]; [|right; apply elem_of_app; by left].
    destruct Hr2 as [Hr2|Hr2]; [left; congruence|right; apply elem_of_app; by right].
Qed.

Lemma quiet_refl : Reflexive quiet.
Proof. by intros st. Qed.

Lemma quiet_trans : Transitive quiet.
Proof. intros st1 st2 st3 (?&?&?) (?&?&?). split_and!; congruence. Qed.

#[local] Existing Instance journal_grows_refl.
#[local] Existing Instance journal_grows_trans.
#[local] Existing Instance quiet_refl.
#[local] Existing Instance quiet_trans.

Lemma quiet_journal_grows ok st st' : quiet st st' → journal_grows ok st st'.
Proof.
  intros (Hj & Hr & _). exists []. rewrite app_nil_r.
  split_and!; [done|constructor|by left].
Qed.

Lemma preserves_weaken {A} (R1 R2 : relation BaseDir) (m : M A) :
  (∀ st st', R1 st st' → R2 st st') → preserves R1 m → preserves R2 m.
Proof. intros Himp Hm st. apply Himp, Hm. Qed.

Lemma products_loop_quiet W processed gids : ∀ acc, preserves quiet (products_loop W processed gids acc).
Proof.
  induction gids as [|gid rest IH]; intros acc; cbn [products_loop].
  - apply preserves_ret; apply _.
  - apply preserves_bind; [apply _|apply preserves_gets; apply _|]. intros cached.
    destruct (_ && _); [apply IH|].
    destruct (fetch_products_for_group W gid) as [df| |]; [|apply IH..].
    destruct (negb (pd.empty df)); [|apply IH].
    apply preserves_bind; [apply _| |intros _; apply IH].
    apply preserves_modify. by intros st.
Qed.

Lemma build_products_and_groups_quiet W : preserves quiet (build_products_and_groups W).
Proof.
  unfold build_products_and_groups, to_parquet_check, load_processed_products.
  apply preserves_bind; [apply _|apply preserves_gets; apply _|]. intros cached_groups.
  apply preserves_bind; [apply _| |].
  { destruct cached_groups; [apply preserves_ret; apply _|].
    apply preserves_bind; [apply _|apply preserves_lift; apply _|]. intros df.
    apply preserves_bind; [apply _| |].
    { case_match; [apply preserves_ret|apply preserves_raise]; apply _. }
    intros _. apply preserves_bind; [apply _| |intros _; apply preserves_ret; apply _].
    apply preserves_modify. by intros st. }
  intros groups_df.
  apply preserves_bind; [apply _|apply preserves_gets; apply _|]. intros processed.
  apply preserves_bind; [apply _|apply preserves_lift; apply _|]. intros gids.
  apply preserves_bind; [apply _|apply products_loop_quiet|]. intros all_products.
  apply preserves_bind; [apply _|apply preserves_gets; apply _|]. intros old.
  apply preserves_bind; [apply _| |intros ?; apply preserves_ret; apply _].
  destruct all_products; [apply preserves_ret; apply _|].
  apply preserves_bind; [apply _|apply preserves_lift; apply _|]. intros new_df.
  apply preserves_bind; [apply _| |].
  { destruct old; [apply preserves_lift|apply preserves_ret]; apply _. }
  intros products_df.
  apply preserves_bind; [apply _| |intros _; apply preserves_ret; apply _].
  apply preserves_modify. by intros st.
Qed.

Lemma merge_loop_quiet products_df groups_df new_days :
  preserves quiet (merge_loop products_df groups_df new_days).
Proof.
  induction new_days as [|day rest IH]; cbn [merge_loop].
  - apply preserves_ret; apply _.
  - apply preserves_bind; [apply _|apply preserves_gets; apply _|]. intros entry.
    destruct entry as [[|[day_prices|]]|]; try (apply preserves_raise; apply _).
    apply preserves_bind; [apply _|apply preserves_lift; apply _|]. intros merged.
    apply preserves_bind; [apply _| |intros _; apply IH].
    apply preserves_modify. by intros st.
Qed.

Lemma prune_quiet keep_days : preserves quiet (prune_old_daily_prices keep_days).
Proof.
  unfold prune_old_daily_prices.
  apply preserves_bind; [apply _|apply preserves_gets; apply _|]. intros entries.
  destruct (filter _ entries); [apply preserves_ret; apply _|].
  apply preserves_modify. by intros st.
Qed.

Lemma build_full_file_journal W :
  preserves (journal_grows (main_event true)) (build_full_file W).
Proof.
  intros st. rewrite build_full_file_unfold. cbn zeta.
  exists [Called "build_full_file"]. split_and!.
  - destruct (rollup_matches st); [done|]. by destruct (pd.concat _).
  - repeat constructor; discriminate.
  - right. by left.
Qed.

Lemma build_full_file_processed_days W st :
  processed_days (build_full_file W st).1 = processed_days st.
Proof.
  rewrite build_full_file_unfold. cbn zeta.
  destruct (rollup_matches st); [done|]. by destruct (pd.concat _).
Qed.

(** *** The harvesting loop *)

Lemma build_prices_loop_step strftime W fuel processed end_date step d frames days st :
  build_prices_loop strftime W (S fuel) processed end_date step d frames days st =
    let continue frames days :=
      bind (lift (date_add d step)) (λ d',
        build_prices_loop strftime W fuel processed end_date step d' frames days) in
    if d <=? end_date then
      if decide (strftime d ∈ processed) then continue frames days st
      else
        bind (lift (harvested strftime W d)) (λ o,
          match o with
          | None => continue frames days
          | Some df =>
              bind (write_raw_partition strftime W d df) (λ _,
                bind (mark_day_processed strftime d) (λ _,
                  continue (frames ++ [df]) (days ++ [strftime d])))
          end) st
    else ret (frames, days) st.
Proof.
  cbn [build_prices_loop]. cbn zeta.
  destruct (d <=? end_date); [|done].
  destruct (decide (strftime d ∈ processed)); [done|].
  unfold harvested. destruct (download_archive W d) as [a|]; [|done].
  destruct (extract_archive strftime W a) as [day_root|]; [|done].
  unfold bind at 1 3, lift at 1 3.
  destruct (harvest_prices_for_day day_root) as [df| |]; cbn [rbind]; [|done..].
  by destruct (pd.empty df).
Qed.

Lemma write_raw_partition_spec strftime W d df st st1 r1 :
  write_raw_partition strftime W d df st = (st1, r1) →
  same_dimensions st st1
  ∧ processed_days st1 = processed_days st
  ∧ (∀ k, written k st → written k st1)
  ∧ ((r1 = Ok tt
      ∧ raw_write_fails W d = false
      ∧ journal st1 = journal st ++ [WroteRaw (strftime d)]
      ∧ written (strftime d) st1)
     ∨ ((∃ e, r1 = Raise e) ∧ journal st1 = journal st)).
Proof.
  unfold write_raw_partition, to_parquet_check. cbn zeta.
  unfold bind at 1, gets at 1. cbn beta iota.
  assert (∀ st0 : BaseDir,
    same_dimensions st st0 → processed_days st0 = processed_days st →
    journal st0 = journal st →
    (∀ k, written k st → written k st0) →
    (if raw_write_fails W d then raise (OSError ("date=" +:+ strftime d))
     else bind (if bool_decide (NoDup (pd.columns df)) then ret tt
                else raise (ValueError "Duplicate column names found"))
            (λ _, bind (modify (with_daily_prices
                          (insert ("date=" +:+ strftime d) (Directory (Some df)))))
                    (λ _, emit (WroteRaw (strftime d))))) st0 = (st1, r1) →
    same_dimensions st st1
    ∧ processed_days st1 = processed_days st
    ∧ (∀ k, written k st → written k st1)
    ∧ ((r1 = Ok tt
        ∧ raw_write_fails W d = false
        ∧ journal st1 = journal st ++ [WroteRaw (strftime d)]
        ∧ written (strftime d) st1)
       ∨ ((∃ e, r1 = Raise e) ∧ journal st1 = journal st))) as Hwrite.
  { intros st0 Hdim Hpd Hj Hw.
    destruct (raw_write_fails W d) eqn:Hfail.
    { intros [= <- <-]. split_and!; [done|done|done|]. right. split; [by eexists|done]. }
    destruct (bool_decide (NoDup (pd.columns df))).
    2:{ intros [= <- <-]. split_and!; [done|done|done|]. right. split; [by eexists|done]. }
    intros [= <- <-]. split_and!; [done|done| |].
    - intros k Hk. apply Hw in Hk as (df' & Hk). unfold written. cbn.
      destruct (decide ("date=" +:+ k = "date=" +:+ strftime d)) as [->|Hne].
      + rewrite lookup_insert_eq. by eexists.
      + rewrite lookup_insert_ne by done. by eexists.
    - left. split_and!; [done|done|by cbn; rewrite Hj|].
      unfold written. cbn. rewrite lookup_insert_eq. by eexists. }
  destruct (daily_prices st !! ("date=" +:+ strftime d)) as [[|part]|] eqn:Hentry.
  - intros [= <- <-]. split_and!; [done|done|done|]. right. split; [by eexists|done].
  - unfold bind at 1, ret at 1. cbn beta iota. by apply Hwrite.
  - unfold bind at 1, modify at 1. cbn beta iota. apply Hwrite; [done|done|done|].
    intros k (df' & Hk). exists df'. cbn.
    rewrite lookup_insert_ne; [done|]. intros Heq. rewrite <- Heq in Hk. congruence.
Qed.

Lemma visited_start start_date end_date step :
  start_date ≤ end_date → visited start_date end_date step start_date.
Proof. intros Hle. exists 0%nat. split; [lia|done]. Qed.

Lemma visited_next start_date end_date step d :
  visited (start_date + step) end_date step d → visited start_date end_date step d.
Proof. intros (n & -> & Hle). exists (S n). split; [lia|done]. Qed.

Lemma day_written_next strftime W start_date end_date step k :
  day_written strftime W (start_date + step) end_date step k →
  day_written strftime W start_date end_date step k.
Proof.
  intros (d & df & Hv & ?). exists d, df. split; [by apply visited_next|done].
Qed.

Lemma date_add_ok d step d' : date_add d step = Ok d' → d' = d + step.
Proof. unfold date_add. case_match; [by intros [= <-]|done]. Qed.

(** What a run of the loop does to the base directory, whatever it returns:
    for each day processed, in order, it writes the partition and then marks
    the day; nothing else of the tracking file or of the journal changes. *)
Lemma build_prices_loop_inv strftime W fuel :
  ∀ processed end_date step d frames days st st' r,
  build_prices_loop strftime W fuel processed end_date step d frames days st = (st', r) →
  ∃ keys,
    journal st' = journal st ++ day_events keys
    ∧ processed_days st' = processed_days st ++ keys
    ∧ (∀ res, r = Ok res → res.2 = days ++ keys)
    ∧ Forall (day_written strftime W d end_date step) keys
    ∧ Forall (λ k, written k st') keys
    ∧ (∀ k, written k st → written k st')
    ∧ same_dimensions st st'.
Proof.
  induction fuel as [|fuel IH]; intros processed end_date step d frames days st st' r.
  { intros [= <- <-]. exists []. cbn. rewrite !app_nil_r. split_and!; try done. }
  rewrite build_prices_loop_step. cbn zeta.
  assert (∀ frames0 days0 st0 keys0,
    journal st0 = journal st ++ day_events keys0 →
    processed_days st0 = processed_days st ++ keys0 →
    Forall (day_written strftime W d end_date step) keys0 →
    Forall (λ k, written k st0) keys0 →
    (∀ k, written k st → written k st0) →
    same_dimensions st st0 →
    bind (lift (date_add d step)) (λ d',
      build_prices_loop strftime W fuel processed end_date step d' frames0 days0) st0
    = (st', r) →
    ∃ keys,
      journal st' = journal st ++ day_events keys
      ∧ processed_days st' = processed_days st ++ keys
      ∧ (∀ res, r = Ok res → res.2 = days0 ++ drop (List.length keys0) keys)
      ∧ take (List.length keys0) keys = keys0
      ∧ Forall (day_written strftime W d end_date step) keys
      ∧ Forall (λ k, written k st') keys
      ∧ (∀ k, written k st → written k st')
      ∧ same_dimensions st st') as Hcont.
  { intros frames0 days0 st0 keys0 Hj Hp Hdw Hw Hmono Hdim.
    unfold bind, lift. destruct (date_add d step) as [d'| |] eqn:Hadd.
    2,3: (intros [= <- <-]; exists keys0; rewrite drop_all, take_ge, app_nil_r by lia;
          split_and!; try done).
    apply date_add_ok in Hadd as ->. intros Hrun.
    destruct (IH processed end_date step (d + step) frames0 days0 st0 st' r Hrun)
      as (keys & Hj' & Hp' & Hres & Hdw' & Hw' & Hmono' & Hdim').
    exists (keys0 ++ keys).
    rewrite drop_app_length, take_app_length. split_and!; try done.
    - rewrite Hj', Hj. unfold day_events. by rewrite bind_app, app_assoc.
    - by rewrite Hp', Hp, app_assoc.
    - apply Forall_app. split; [done|].
      eapply Forall_impl; [exact Hdw'|]. intros k. apply day_written_next.
    - apply Forall_app. split; [|done].
      eapply Forall_impl; [exact Hw|]. intros k. apply Hmono'.
    - intros k Hk. by apply Hmono', Hmono.
    - unfold same_dimensions in *. destruct Hdim as (?&?&?&?&?), Hdim' as (?&?&?&?&?).
      split_and!; congruence. }
  assert (∀ frames0,
    bind (lift (date_add d step)) (λ d',
      build_prices_loop strftime W fuel processed end_date step d' frames0 days) st
    = (st', r) →
    ∃ keys,
      journal st' = journal st ++ day_events keys
      ∧ processed_days st' = processed_days st ++ keys
      ∧ (∀ res, r = Ok res → res.2 = days ++ keys)
      ∧ Forall (day_written strftime W d end_date step) keys
      ∧ Forall (λ k, written k st') keys
      ∧ (∀ k, written k st → written k st')
      ∧ same_dimensions st st') as Hskip.
  { intros frames0 Hrun.
    destruct (Hcont frames0 days st []) as (keys & ? & ? & Hres & _ & ? & ? & ? & ?);
      try done.
    - cbn. by rewrite app_nil_r.
    - by rewrite app_nil_r.
    - exists keys. split_and!; try done. }
  destruct (Z.leb_spec d end_date) as [Hle|Hgt].
  2:{ intros [= <- <-]. exists []. cbn. rewrite !app_nil_r. split_and!; try done.
      by intros res [= <-]. }
  destruct (decide (strftime d ∈ processed)); [apply Hskip|].
  unfold bind at 1, lift at 1.
  destruct (harvested strftime W d) as [[df|]| |] eqn:Hharv.
  2: apply Hskip.
  2,3: (intros [= <- <-]; exists []; cbn; rewrite !app_nil_r; split_and!; try done).
  unfold bind at 1.
  destruct (write_raw_partition strftime W d df st) as [st1 r1] eqn:Hwr.
  apply write_raw_partition_spec in Hwr as (Hdim1 & Hp1 & Hmono1 & Hcase).
  destruct Hcase as [(-> & Hfail & Hj1 & Hw1)|[(e & ->) Hj1]].
  2:{ intros [= <- <-]. exists []. cbn. rewrite !app_nil_r. split_and!; try done. }
  unfold bind at 1, mark_day_processed. unfold bind at 1, modify at 1. cbn beta iota.
  unfold emit at 1, modify at 1. cbn beta iota.
  match goal with |- bind _ _ ?s = _ → _ => set (st2 := s) end.
  intros Hrun.
  destruct (Hcont (frames ++ [df]) (days ++ [strftime d]) st2 [strftime d])
    as (keys & Hj & Hp & Hres & Htake & Hdw & Hw & Hmono & Hdim).
  - subst st2. cbn. by rewrite Hj1, <- app_assoc.
  - subst st2. cbn. by rewrite Hp1.
  - constructor; [|constructor]. exists d, df. split_and!; try done.
    by apply visited_start.
  - constructor; [|constructor]. destruct Hw1 as (df' & Hw1). by exists df'.
  - intros k Hk. apply Hmono1 in Hk as (df' & Hk). by exists df'.
  - by subst st2.
  - exact Hrun.
  - exists keys. split_and!; try done.
    intros res Hr. rewrite (Hres res Hr). rewrite <- app_assoc. f_equal.
    rewrite <- (take_drop 1 keys) at 2. cbn [List.length] in Htake. by rewrite Htake.
Qed.

Lemma day_events_cons k keys :
  day_events (k :: keys) = WroteRaw k :: MarkedDay k :: day_events keys.
Proof. reflexivity. Qed.

(** In the journal of the days processed every mark comes right after the
    write of the same day. *)
Lemma day_events_mark_after_write keys : ∀ i k,
  day_events keys !! i = Some (MarkedDay k) →
  ∃ j, i = S j ∧ day_events keys !! j = Some (WroteRaw k).
Proof.
  induction keys as [|k0 keys IH]; intros i k; [done|].
  rewrite day_events_cons. destruct i as [|[|i]]; simpl.
  - done.
  - intros [= ->]. by exists 0%nat.
  - intros Hi. apply IH in Hi as (j & -> & Hj). by exists (S (S j)).
Qed.

Lemma no_write_harvested strftime W d :
  no_write strftime W d →
  harvested strftime W d = Ok None ∨ raw_write_fails W d = true.
Proof.
  unfold no_write, harvested, download_archive, extract_archive.
  intros [Hno|[Hno|[(cat & df & Hcat & Hdf & Hempty)|Hfail]]].
  - left. by rewrite Hno.
  - left. destruct (archive_found W d); [|done]. by rewrite Hno.
  - left. destruct (archive_found W d); [|done]. rewrite Hcat, Hdf. cbn. by rewrite Hempty.
  - by right.
Qed.

Lemma build_prices_inv strftime W fuel start_date end_date step st st' r :
  build_prices strftime W fuel start_date end_date step st = (st', r) →
  ∃ keys,
    journal st' = journal st ++ day_events keys
    ∧ processed_days st' = processed_days st ++ keys
    ∧ (∀ res, r = Ok res → res.2 = keys)
    ∧ Forall (day_written strftime W start_date end_date step) keys
    ∧ Forall (λ k, written k st') keys
    ∧ (∀ k, written k st → written k st')
    ∧ same_dimensions st st'.
Proof.
  unfold build_prices. unfold bind at 1, load_processed_days, gets at 1. cbn beta iota.
  unfold bind at 1.
  destruct (build_prices_loop strftime W fuel (processed_days st) end_date step start_date
              [] [] st) as [st1 r1] eqn:Hloop.
  apply build_prices_loop_inv in Hloop
    as (keys & Hj & Hp & Hres & Hdw & Hw & Hmono & Hdim).
  destruct r1 as [[all_frames new_days]| |].
  - specialize (Hres _ eq_refl). cbn in Hres. subst new_days.
    destruct all_frames as [|df dfs].
    + intros [= <- <-]. exists keys. split_and!; try done. by intros res [= <-].
    + unfold bind, lift. destruct (concat_cons_ok df dfs) as (full & ->).
      intros [= <- <-]. exists keys. split_and!; try done. by intros res [= <-].
  - intros [= <- <-]. exists keys. split_and!; try done.
  - intros [= <- <-]. exists keys. split_and!; try done.
Qed.

(** C2. In every execution of [build_prices], whatever it returns, the journal
    grows by a write followed by the mark of the same day for each day
    processed, and [processed_days.txt] grows by exactly those days; each of
    them is a date the loop reached, for which the harvest gave a frame and
    the write did not fail, and its raw partition is on disk.  A date for
    which the archive is missing, the extraction gives nothing, the
    harvested frame is empty or the write fails is not marked, when no other
    date of the run has the same formatted day. *)
Theorem build_prices_marks_after_write (strftime : Z → string) (W : World) (fuel : nat)
    (start_date end_date step : Z) (st : BaseDir) :
  let st' := (build_prices strftime W fuel start_date end_date step st).1 in
  ∃ keys,
    journal st' = journal st ++ day_events keys
    ∧ processed_days st' = processed_days st ++ keys
    ∧ (∀ i k, day_events keys !! i = Some (MarkedDay k) →
         ∃ j, i = S j ∧ day_events keys !! j = Some (WroteRaw k))
    ∧ Forall (day_written strftime W start_date end_date step) keys
    ∧ Forall (λ k, written k st') keys
    ∧ (∀ d, no_write strftime W d →
         (∀ d', visited start_date end_date step d' → strftime d' = strftime d → d' = d) →
         strftime d ∉ processed_days st →
         strftime d ∉ processed_days st').
Proof.
  intros st'. subst st'.
  destruct (build_prices strftime W fuel start_date end_date step st) as [st' r] eqn:Hrun.
  apply build_prices_inv in Hrun as (keys & Hj & Hp & _ & Hdw & Hw & _ & _).
  exists keys. cbn [fst]. split_and!; try done.
  - apply day_events_mark_after_write.
  - intros d Hno Hinj Hnotin. rewrite Hp, elem_of_app. intros [Hin|Hin]; [done|].
    rewrite Forall_forall in Hdw.
    destruct (Hdw _ Hin) as (d' & df & Hv & Heq & Hharv & Hok).
    apply Hinj in Hv; [|done]. subst d'.
    apply no_write_harvested in Hno as [Hno|Hno]; congruence.
Qed.

(** The harvest has no loop that could go on for ever. *)
Lemma harvest_loop_returns date_str cat : ∀ rows,
  harvest_loop date_str cat rows ≠ OutOfFuel.
Proof.
  induction cat as [|[gid g] cat IH]; intros rows; [done|]. cbn [harvest_loop].
  unfold harvest_group. destruct (negb (is_dir g)); cbn [rbind]; [apply IH|].
  destruct (prices g) as [[|src|]|]; cbn [rbind]; try apply IH; [|done].
  case_bool_decide; cbn [rbind]; apply IH.
Qed.

Lemma harvest_prices_for_day_returns day_root :
  harvest_prices_for_day day_root ≠ OutOfFuel.
Proof.
  unfold harvest_prices_for_day. destruct (category day_root) as [cat|]; [|done].
  pose proof (harvest_loop_returns (day_name day_root) cat []) as Hloop.
  destruct (harvest_loop _ _ _) as [rows| |]; cbn [rbind]; [|done..].
  destruct (filter _ _) as [|df dfs]; [done|].
  by destruct (concat_cons_ok df dfs) as (full & ->).
Qed.

Lemma harvested_returns strftime W d : harvested strftime W d ≠ OutOfFuel.
Proof.
  unfold harvested. destruct (download_archive W d) as [a|]; [|done].
  destruct (extract_archive strftime W a) as [day_root|]; [|done].
  pose proof (harvest_prices_for_day_returns day_root) as Hh.
  by destruct (harvest_prices_for_day day_root).
Qed.

(** Enough fuel: with a positive step the loop returns or raises. *)
Lemma build_prices_loop_terminates strftime W fuel :
  ∀ processed end_date step d frames days st,
  1 ≤ step →
  Z.max 0 (end_date - d + step) < Z.of_nat fuel * step →
  (build_prices_loop strftime W fuel processed end_date step d frames days st).2 ≠ OutOfFuel.
Proof.
  induction fuel as [|fuel IH]; intros processed end_date step d frames days st Hstep Hfuel.
  { lia. }
  rewrite build_prices_loop_step. cbn zeta.
  assert (∀ frames days st, d ≤ end_date →
    (bind (lift (date_add d step)) (λ d',
       build_prices_loop strftime W fuel processed end_date step d' frames days) st).2
    ≠ OutOfFuel) as Hcont.
  { intros frames0 days0 st0 Hle. unfold bind, lift.
    destruct (date_add d step) as [d'| |] eqn:Hadd; cbn [fst snd]; [|discriminate|].
    - apply date_add_ok in Hadd as ->. apply IH; [done|]. nia.
    - unfold date_add in Hadd. by case_match. }
  destruct (Z.leb_spec d end_date) as [Hle|Hgt]; [|discriminate].
  destruct (decide (strftime d ∈ processed)); [by apply Hcont|].
  unfold bind at 1, lift at 1.
  pose proof (harvested_returns strftime W d) as Hret.
  destruct (harvested strftime W d) as [[df|]|e|]; [|by apply Hcont|discriminate|done].
  unfold bind at 1.
  destruct (write_raw_partition strftime W d df st) as [st1 r1] eqn:Hwr.
  apply write_raw_partition_spec in Hwr as (_ & _ & _ & Hcase).
  destruct Hcase as [(-> & _)|[(e & ->) _]]; [|discriminate].
  unfold bind at 1, mark_day_processed. unfold bind at 1, modify at 1. cbn beta iota.
  unfold emit at 1, modify at 1. cbn beta iota. by apply Hcont.
Qed.

Lemma build_prices_terminates strftime W fuel start_date end_date step st :
  1 ≤ step →
  Z.max 0 (end_date - start_date + step) < Z.of_nat fuel * step →
  (build_prices strftime W fuel start_date end_date step st).2 ≠ OutOfFuel.
Proof.
  intros Hstep Hfuel. unfold build_prices.
  unfold bind at 1, load_processed_days, gets at 1. cbn beta iota. unfold bind at 1.
  pose proof (build_prices_loop_terminates strftime W fuel (processed_days st) end_date
                step start_date [] [] st Hstep Hfuel) as Hloop.
  destruct (build_prices_loop _ _ _ _ _ _ _ _ _ _) as [st1 [[frames days]| |]];
    cbn [fst snd] in *; [|discriminate|done].
  destruct frames as [|df dfs]; [discriminate|].
  unfold bind, lift. destruct (concat_cons_ok df dfs) as (full & ->). discriminate.
Qed.

Lemma build_prices_marks_after_write_witness :
  no_write strftime_ymd Sample.world Sample.d20
  ∧ strftime_ymd Sample.d20 = "2025-09-20"
  ∧ strftime_ymd Sample.d20
    ∉ processed_days
        (build_prices strftime_ymd Sample.world 10 739512 739515 1 Sample.fresh).1.
Proof.
  assert (no_write strftime_ymd Sample.world Sample.d20) as Hno.
  { right. left. reflexivity. }
  split; [exact Hno|]. split; [reflexivity|].
  destruct (build_prices_marks_after_write strftime_ymd Sample.world 10 739512 739515 1
              Sample.fresh) as (keys & _ & _ & _ & _ & _ & Hnot).
  apply Hnot; [exact Hno| |apply not_elem_of_nil].
  intros d' (n & -> & Hle) Heq. unfold Sample.d20 in *.
  assert (n = 0 ∨ n = 1 ∨ n = 2 ∨ n = 3)%nat as [->|[->|[->| ->]]] by lia;
    vm_compute in Heq; first [discriminate Heq|reflexivity].
Defined.

(** The run of the witness: 2025-09-19 is written and marked, 2025-09-18,
    2025-09-20 and 2025-09-21 are not. *)
Example build_prices_four_days :
  processed_days (build_prices strftime_ymd Sample.world 10 739512 739515 1 Sample.fresh).1
  = ["2025-09-19"]
  ∧ journal (build_prices strftime_ymd Sample.world 10 739512 739515 1 Sample.fresh).1
    = [WroteRaw "2025-09-19"; MarkedDay "2025-09-19"]
  ∧ dom (daily_prices
           (build_prices strftime_ymd Sample.world 10 739512 739515 1 Sample.fresh).1)
    = {["date=2025-09-19"]}.
Proof. apply (bool_decide_unpack _). vm_compute. exact I. Qed.

(** *** The left joins *)

Lemma relabel_lookup_inv f (r : gmap string pd.cell) k v :
  pd.relabel f r !! k = Some v → ∃ k0, f k0 = k ∧ r !! k0 = Some v.
Proof.
  unfold pd.relabel. intros H. apply elem_of_list_to_map_2 in H.
  apply list_elem_of_fmap in H as ([k0 v0] & [= -> ->] & Hin).
  exists k0. split; [done|]. by apply elem_of_map_to_list.
Qed.

Lemma relabel_lookup f (r : gmap string pd.cell) k v :
  (∀ k1 k2, is_Some (r !! k1) → is_Some (r !! k2) → f k1 = f k2 → k1 = k2) →
  r !! k = Some v → pd.relabel f r !! f k = Some v.
Proof.
  intros Hinj Hk. unfold pd.relabel. apply elem_of_list_to_map_1.
  - rewrite <- list_fmap_compose.
    assert ((λ kv : string * pd.cell, (f kv.1, kv.2).1) <$> map_to_list r
            = f <$> (map_to_list r).*1) as Heq.
    { rewrite <- list_fmap_compose. done. }
    unfold compose. rewrite Heq.
    apply NoDup_fmap_2_strong; [|apply NoDup_fst_map_to_list].
    intros k1 k2 H1 H2. apply Hinj.
    + apply list_elem_of_fmap in H1 as ([? v1] & -> & H1).
      apply elem_of_map_to_list in H1. by eexists.
    + apply list_elem_of_fmap in H2 as ([? v2] & -> & H2).
      apply elem_of_map_to_list in H2. by eexists.
  - apply list_elem_of_fmap. exists (k, v). split; [done|]. by apply elem_of_map_to_list.
Qed.

Lemma merge_left_ok left right on joined :
  pd.merge_left left right on = Ok joined →
  NoDup (pd.merged_columns left right on)
  ∧ joined = pd.mkDF (pd.merged_columns left right on)
               (pd.rows left ≫= pd.join_row left right on).
Proof.
  unfold pd.merge_left.
  destruct (pd.missing on (pd.columns left)); [done|].
  destruct (pd.missing on (pd.columns right)); [done|].
  destruct (negb _); [done|].
  destruct (bool_decide (NoDup (pd.merged_columns left right on))) eqn:Hnd; [|done].
  intros [= <-]. split; [|done]. by apply bool_decide_eq_true in Hnd.
Qed.

Lemma join_row_nonempty left right on l : pd.join_row left right on l ≠ [].
Proof. unfold pd.join_row. by destruct (pd.matches right on l). Qed.



Lemma merge_left_rows_wf left right on joined :
  pd.merge_left left right on = Ok joined →
  Forall (λ r : gmap string pd.cell, map_Forall (λ c _, c ∈ pd.columns left) r)
    (pd.rows left) →
  Forall (λ r : gmap string pd.cell, map_Forall (λ c _, c ∈ pd.columns right) r)
    (pd.rows right) →
  pd.wf joined.
Proof.
  intros Hm Hl Hr. apply merge_left_ok in Hm as [Hnd ->]. split; [done|].
  cbn [pd.rows pd.columns]. apply Forall_forall. intros m Hin.
  apply list_elem_of_bind in Hin as (l & Hin & Hlin).
  rewrite Forall_forall in Hl. specialize (Hl l Hlin).
  assert (∀ c v, pd.relabel (pd.left_label left right on) l !! c = Some v →
            c ∈ pd.merged_columns left right on) as Hleft.
  { intros c v Hc. apply relabel_lookup_inv in Hc as (k0 & <- & Hk0).
    unfold pd.merged_columns. apply elem_of_app. left.
    apply list_elem_of_fmap_2. by apply (Hl k0 v). }
  unfold pd.join_row in Hin. destruct (pd.matches right on l) as [|r0 ms] eqn:Hmatch.
  - apply list_elem_of_singleton in Hin as ->. intros c v Hc. by apply (Hleft c v).
  - apply list_elem_of_fmap in Hin as (r & -> & Hrin).
    intros c v Hc. apply lookup_union_Some_raw in Hc as [Hc|[_ Hc]]; [by apply (Hleft c v)|].
    apply relabel_lookup_inv in Hc as (k0 & <- & Hk0).
    apply map_lookup_filter_Some in Hk0 as [Hk0 Hon]. cbn in Hon.
    unfold pd.merged_columns, pd.right_labels. apply elem_of_app. right.
    apply list_elem_of_fmap_2. apply list_elem_of_filter. split; [done|].
    rewrite Forall_forall in Hr.
    assert (r ∈ pd.rows right) as Hrr.
    { rewrite <- Hmatch in Hrin. unfold pd.matches in Hrin.
      by apply list_elem_of_filter in Hrin as [_ ?]. }
    by apply (Hr r Hrr k0 v).
Qed.



(** The merge of the sample day: the three raw rows survive; the second has
    no products row and the third has neither a products row nor a group. *)
Example merge_day_sample :
  (λ df, map_to_list <$> pd.rows df)
    <$> (match merge_day Sample.raw_day Sample.products_dim Sample.groups_dim with
         | Ok df => Some df
         | _ => None
         end)
  = Some
      [ map_to_list (Sample.row
          [("product_id", pd.CInt 1); ("low_price", pd.CFloat "1.5");
           ("sub_type_name", pd.CStr "Normal"); ("date", pd.CStr "2025-09-19");
           ("groupid", pd.CStr "604"); ("name", pd.CStr "Pikachu");
           ("modified_on_x", pd.CStr "t2"); ("set_name", pd.CStr "Base Set");
           ("modified_on_y", pd.CStr "t0")]);
        map_to_list (Sample.row
          [("product_id", pd.CInt 2); ("low_price", pd.CFloat "0.2");
           ("sub_type_name", pd.CStr "Normal"); ("date", pd.CStr "2025-09-19");
           ("groupid", pd.CStr "604"); ("set_name", pd.CStr "Base Set");
           ("modified_on_y", pd.CStr "t0")]);
        map_to_list (Sample.row
          [("product_id", pd.CInt 3); ("low_price", pd.CFloat "9.0");
           ("sub_type_name", pd.CStr "Normal"); ("date", pd.CStr "2025-09-19");
           ("groupid", pd.CStr "999")]) ].
Proof. vm_compute. reflexivity. Qed.

(** *** The main control flow *)

Lemma main_event_day_events full_file keys : Forall (main_event full_file) (day_events keys).
Proof.
  induction keys as [|k keys IH]; [constructor|].
  rewrite day_events_cons. repeat constructor; try discriminate. done.
Qed.

Lemma build_prices_journal strftime W fuel start_date end_date step full_file :
  preserves (journal_grows (main_event full_file))
    (build_prices strftime W fuel start_date end_date step).
Proof.
  intros st.
  destruct (build_prices strftime W fuel start_date end_date step st) as [st' r] eqn:Hrun.
  apply build_prices_inv in Hrun as (keys & Hj & _ & _ & _ & _ & _ & Hdim).
  exists (day_events keys). split_and!; [done|apply main_event_day_events|].
  left. apply Hdim.
Qed.

Lemma main_event_weaken full_file st st' :
  journal_grows (main_event true) st st' → full_file = true →
  journal_grows (main_event full_file) st st'.
Proof. by intros H ->. Qed.

Lemma main_journal strftime W fuel start_date end_date interval full_file :
  preserves (journal_grows (main_event full_file))
    (main strftime W fuel start_date end_date interval full_file).
Proof.
  unfold main.
  apply preserves_bind; [apply _|apply build_prices_journal|]. intros [prices_df new_days].
  destruct new_days as [|day days]; [apply preserves_ret; apply _|].
  apply preserves_bind; [apply _| |].
  { eapply preserves_weaken; [apply quiet_journal_grows|].
    apply build_products_and_groups_quiet. }
  intros [groups_df products_df].
  apply preserves_bind; [apply _|apply preserves_lift; apply _|]. intros products'.
  apply preserves_bind; [apply _|apply preserves_lift; apply _|]. intros groups'.
  apply preserves_bind; [apply _| |].
  { eapply preserves_weaken; [apply quiet_journal_grows|]. apply merge_loop_quiet. }
  intros _. apply preserves_bind; [apply _| |].
  { destruct full_file; [apply build_full_file_journal|apply preserves_ret; apply _]. }
  intros _. apply preserves_bind; [apply _| |intros _; apply preserves_ret; apply _].
  eapply preserves_weaken; [apply quiet_journal_grows|]. apply prune_quiet.
Qed.

(** C10. In every execution of [main] the journal never gets an entry of
    [append_to_full_file]; the rollup file changes only when the full-file
    flag is set, and then [build_full_file] was entered. *)
Theorem main_never_appends (strftime : Z → string) (W : World) (fuel : nat)
    (start_date end_date interval : Z) (full_file : bool) (st : BaseDir) :
  let st' := (main strftime W fuel start_date end_date interval full_file st).1 in
  ∃ evs,
    journal st' = journal st ++ evs
    ∧ (Called "append_to_full_file" ∉ evs)
    ∧ (rollup st' ≠ rollup st → full_file = true ∧ Called "build_full_file" ∈ evs).
Proof.
  intros st'. subst st'.
  destruct (main_journal strftime W fuel start_date end_date interval full_file st)
    as (evs & Hj & Hok & Hroll).
  exists evs. rewrite Forall_forall in Hok. split_and!; [done| |].
  - intros Hin. by destruct (Hok _ Hin) as [Hne _].
  - intros Hchanged. destruct Hroll as [Hsame|Hcalled]; [done|].
    split; [|done]. destruct full_file; [done|].
    by destruct (Hok _ Hcalled) as [_ Hne]; destruct Hne.
Qed.

(** With the full-file flag the sample run enters [build_full_file] once, and
    never [append_to_full_file]. *)
Example main_sample_journal :
  journal (main strftime_ymd Sample.world 10 739512 739515 1 true Sample.fresh).1
  = [WroteRaw "2025-09-19"; MarkedDay "2025-09-19"; Called "build_full_file"].
Proof. apply (bool_decide_unpack _). vm_compute. exact I. Qed.

(** *** Running the pipeline again *)

(** A loop that returned, run again on tracking keys that hold the days it
    marked, skips every date: it writes nothing and reports no new day. *)
Lemma build_prices_loop_rerun strftime W fuel :
  ∀ processed end_date step d frames days st st1 res,
  build_prices_loop strftime W fuel processed end_date step d frames days st = (st1, Ok res) →
  ∀ processed' frames' days' st2,
  (∀ k, k ∈ processed → k ∈ processed') →
  (∀ k, k ∈ processed_days st1 → k ∈ processed') →
  build_prices_loop strftime W fuel processed' end_date step d frames' days' st2
  = (st2, Ok (frames', days')).
Proof.
  induction fuel as [|fuel IH];
    intros processed end_date step d frames days st st1 res Hrun
      processed' frames' days' st2 Hsub Hmarked; [done|].
  rewrite build_prices_loop_step in Hrun. rewrite build_prices_loop_step.
  cbn zeta in *.
  destruct (d <=? end_date); [|done].
  assert (∀ frames0 days0 st0,
    bind (lift (date_add d step)) (λ d',
      build_prices_loop strftime W fuel processed end_date step d' frames0 days0) st0
    = (st1, Ok res) →
    bind (lift (date_add d step)) (λ d',
      build_prices_loop strftime W fuel processed' end_date step d' frames' days') st2
    = (st2, Ok (frames', days'))) as Hcont.
  { intros frames0 days0 st0. unfold bind, lift.
    destruct (date_add d step) as [d'| |]; [|done..].
    intros Hrun'. by eapply IH. }
  destruct (decide (strftime d ∈ processed)) as [Hin|Hnotin].
  { rewrite decide_True by by apply Hsub. by eapply Hcont. }
  unfold bind at 1, lift at 1 in Hrun.
  destruct (harvested strftime W d) as [[df|]| |] eqn:Hharv; [| |done..].
  - unfold bind at 1 in Hrun.
    destruct (write_raw_partition strftime W d df st) as [st_w r_w] eqn:Hwr.
    destruct r_w as [[]| |]; [|done..].
    unfold bind at 1, mark_day_processed in Hrun.
    unfold bind at 1, modify at 1 in Hrun. cbn beta iota in Hrun.
    unfold emit at 1, modify at 1 in Hrun. cbn beta iota in Hrun.
    rewrite decide_True; [by eapply Hcont|].
    apply Hmarked.
    unfold bind at 1, lift at 1 in Hrun.
    destruct (date_add d step) as [d'| |]; [|done..].
    apply build_prices_loop_inv in Hrun as (keys & _ & Hp & _).
    rewrite Hp. cbn. rewrite !elem_of_app. left. right. by left.
  - destruct (decide (strftime d ∈ processed')); [by eapply Hcont|].
    unfold bind at 1, lift at 1. by eapply Hcont.
Qed.

Lemma build_prices_rerun strftime W fuel start_date end_date step st st1 res st2 :
  build_prices strftime W fuel start_date end_date step st = (st1, Ok res) →
  (∀ k, k ∈ processed_days st1 → k ∈ processed_days st2) →
  build_prices strftime W fuel start_date end_date step st2 = (st2, Ok (pd.empty_frame, [])).
Proof.
  intros Hrun Hsub. unfold build_prices in *.
  unfold bind at 1, load_processed_days, gets at 1 in Hrun. cbn beta iota in Hrun.
  unfold bind at 1 in Hrun.
  destruct (build_prices_loop strftime W fuel (processed_days st) end_date step start_date
              [] [] st) as [st1' r1] eqn:Hloop.
  destruct r1 as [[all_frames new_days]| |]; [|done..].
  assert (st1' = st1) as ->.
  { destruct all_frames.
    - by injection Hrun as ->.
    - unfold bind, lift in Hrun. destruct (pd.concat _); [|done..]. by injection Hrun as ->. }
  pose proof Hloop as Hinv.
  apply build_prices_loop_inv in Hinv as (keys & _ & Hp & _).
  unfold bind at 1, load_processed_days, gets at 1. cbn beta iota. unfold bind at 1.
  rewrite (build_prices_loop_rerun strftime W fuel _ _ _ _ _ _ _ _ _ Hloop
             (processed_days st2) [] [] st2); [done| |done].
  intros k Hk. apply Hsub. rewrite Hp, elem_of_app. by left.
Qed.

Lemma keeps_processed_days_refl : Reflexive keeps_processed_days.
Proof. by intros st. Qed.

Lemma keeps_processed_days_trans : Transitive keeps_processed_days.
Proof. intros st1 st2 st3 H1 H2. unfold keeps_processed_days in *. congruence. Qed.

#[local] Existing Instance keeps_processed_days_refl.
#[local] Existing Instance keeps_processed_days_trans.

Lemma quiet_keeps_processed_days st st' : quiet st st' → keeps_processed_days st st'.
Proof. by intros (_ & _ & ?). Qed.

Lemma main_processed_days strftime W fuel start_date end_date interval full_file st st1
    res st' code :
  build_prices strftime W fuel start_date end_date interval st = (st1, Ok res) →
  main strftime W fuel start_date end_date interval full_file st = (st', code) →
  processed_days st' = processed_days st1.
Proof.
  intros Hprices. unfold main. unfold bind at 1. rewrite Hprices.
  destruct res as [prices_df new_days].
  destruct new_days as [|day days]; [by intros [= <- _]|].
  intros Hrest.
  match type of Hrest with
  | ?m st1 = _ => assert (preserves keeps_processed_days m) as Hpres
  end.
  { apply preserves_bind; [apply _| |].
    { eapply preserves_weaken; [apply quiet_keeps_processed_days|].
      apply build_products_and_groups_quiet. }
    intros [groups_df products_df].
    apply preserves_bind; [apply _|apply preserves_lift; apply _|]. intros products'.
    apply preserves_bind; [apply _|apply preserves_lift; apply _|]. intros groups'.
    apply preserves_bind; [apply _| |].
    { eapply preserves_weaken; [apply quiet_keeps_processed_days|]. apply merge_loop_quiet. }
    intros _. apply preserves_bind; [apply _| |].
    { destruct full_file; [|apply preserves_ret; apply _].
      intros s. apply build_full_file_processed_days. }
    intros _. apply preserves_bind; [apply _| |intros _; apply preserves_ret; apply _].
    eapply preserves_weaken; [apply quiet_keeps_processed_days|]. apply prune_quiet. }
  specialize (Hpres st1). rewrite Hrest in Hpres. exact Hpres.
Qed.

(** C4. When a run of [main] has returned, running [main] again with the same
    arguments against the same remote data returns 0 and leaves the base
    directory exactly as the first run left it: the day partitions, the
    groups and products caches, the rollup and the tracking files. *)
Theorem main_idempotent (strftime : Z → string) (W : World) (fuel : nat)
    (start_date end_date interval : Z) (full_file : bool) (st st1 : BaseDir) (code : Z) :
  main strftime W fuel start_date end_date interval full_file st = (st1, Ok code) →
  main strftime W fuel start_date end_date interval full_file st1 = (st1, Ok 0).
Proof.
  intros Hmain.
  destruct (build_prices strftime W fuel start_date end_date interval st) as [sta r] eqn:Hp.
  destruct r as [res| |].
  2,3: (unfold main in Hmain; unfold bind at 1 in Hmain; by rewrite Hp in Hmain).
  pose proof (main_processed_days _ _ _ _ _ _ _ _ _ _ _ _ Hp Hmain) as Hpd.
  unfold main. unfold bind at 1.
  rewrite (build_prices_rerun strftime W fuel start_date end_date interval st sta res st1 Hp).
  - done.
  - intros k. by rewrite Hpd.
Qed.

Lemma main_idempotent_witness :
  ∃ st1,
    main strftime_ymd Sample.world 10 739512 739515 1 true Sample.fresh = (st1, Ok 0)
    ∧ dom (daily st1) = {["date=2025-09-19"]}
    ∧ main strftime_ymd Sample.world 10 739512 739515 1 true st1 = (st1, Ok 0).
Proof.
  set (run := main strftime_ymd Sample.world 10 739512 739515 1 true Sample.fresh).
  assert (run = (run.1, Ok 0)) as H1.
  { apply (bool_decide_unpack _). vm_compute. exact I. }
  exists run.1. split; [exact H1|]. split.
  - apply (bool_decide_unpack _). vm_compute. exact I.
  - exact (main_idempotent strftime_ymd Sample.world 10 739512 739515 1 true Sample.fresh
             run.1 0 H1).
Defined.

(** ** Snake case *)

Lemma lstrip_us_cons a rest :
  Str.lstrip_us (String a rest)
  = if Ascii.eqb a "_" then Str.lstrip_us rest else String a rest.
Proof. ascii_cases a; reflexivity. Qed.

Lemma alnum_not_us a : Str.is_alnum a = true → Ascii.eqb a "_" = false.
Proof. ascii_cases a; vm_compute; congruence. Qed.

Lemma word_alnum a : is_word a = true → Str.is_alnum a = true.
Proof. ascii_cases a; vm_compute; congruence. Qed.

Lemma word_not_upper a : is_word a = true → Str.is_upper a = false.
Proof. ascii_cases a; vm_compute; congruence. Qed.

Lemma alnum_lower_word a : Str.is_alnum a = true → is_word (Str.lower_char a) = true.
Proof. ascii_cases a; vm_compute; congruence. Qed.

Lemma lower_char_us a : Ascii.eqb (Str.lower_char a) "_" = Ascii.eqb a "_".
Proof. ascii_cases a; vm_compute; congruence. Qed.

Lemma lower_char_not_alnum a :
  Str.is_alnum a = false → is_word (Str.lower_char a) = false.
Proof. ascii_cases a; vm_compute; congruence. Qed.

Lemma not_upper_lower_char a : Str.is_upper a = false → Str.lower_char a = a.
Proof. unfold Str.lower_char. by intros ->. Qed.

Lemma squash_runs_squashed t : ∀ b, squashed Str.is_alnum b (Str.squash_runs b t) = true.
Proof.
  induction t as [|a t IH]; intros b; [done|]. cbn [Str.squash_runs].
  destruct (Str.is_alnum a) eqn:Ha.
  - cbn [squashed]. by rewrite Ha.
  - destruct b; [done|]. cbn [squashed].
    change (Str.is_alnum "_") with false. cbn. apply IH.
Qed.

Lemma squashed_weaken w s : squashed w true s = true → squashed w false s = true.
Proof.
  destruct s as [|a s]; [done|]. cbn [squashed]. destruct (w a); [done|].
  rewrite andb_false_r. done.
Qed.

Section class.
Context (w : ascii → bool) (Hw : ∀ a, w a = true → Ascii.eqb a "_" = false).

Lemma squashed_lstrip_id s : squashed w true s = true → Str.lstrip_us s = s.
Proof.
  destruct s as [|a s]; [done|]. cbn [squashed]. rewrite lstrip_us_cons.
  destruct (w a) eqn:Ha; [by rewrite Hw|]. by rewrite andb_false_r.
Qed.

Lemma squashed_lstrip s :
  squashed w false s = true → squashed w true (Str.lstrip_us s) = true.
Proof.
  destruct s as [|a s]; [done|]. rewrite lstrip_us_cons. cbn [squashed].
  destruct (w a) eqn:Ha.
  - rewrite Hw by done. cbn [squashed]. by rewrite Ha.
  - destruct (Ascii.eqb a "_"); [|done]. cbn. intros Hs.
    by rewrite squashed_lstrip_id.
Qed.

Lemma squashed_rstrip s : ∀ b,
  squashed w b s = true → squashed w b (Str.rstrip_us s) = true.
Proof.
  induction s as [|a s IH]; intros b; [done|]. cbn [Str.rstrip_us squashed].
  destruct (w a) eqn:Ha.
  - intros Hs. specialize (IH false Hs). destruct (Str.rstrip_us s) as [|c r].
    + rewrite Hw by done. cbn [squashed]. by rewrite Ha.
    + cbn [squashed] in *. by rewrite Ha.
  - intros Hs. apply andb_prop in Hs as [Hs1 Hs]. apply andb_prop in Hs1 as [Hus Hb].
    specialize (IH true Hs). destruct (Str.rstrip_us s) as [|c r].
    + by rewrite Hus.
    + cbn [squashed] in *. by rewrite Ha, Hus, Hb.
Qed.
End class.

Lemma rstrip_no_trailing s : no_trailing_us (Str.rstrip_us s) = true.
Proof.
  induction s as [|a s IH]; [done|]. cbn [Str.rstrip_us].
  destruct (Str.rstrip_us s) as [|c r].
  - destruct (Ascii.eqb a "_") eqn:Ha; [done|]. cbn. by rewrite Ha.
  - done.
Qed.

Lemma rstrip_id s : no_trailing_us s = true → Str.rstrip_us s = s.
Proof.
  induction s as [|a s IH]; [done|]. cbn [Str.rstrip_us no_trailing_us].
  destruct s as [|c r].
  - cbn. by destruct (Ascii.eqb a "_").
  - intros Hs. by rewrite IH.
Qed.

Lemma lower_squashed s : ∀ b,
  squashed Str.is_alnum b s = true → squashed is_word b (Str.lower s) = true.
Proof.
  induction s as [|a s IH]; intros b; [done|]. cbn [Str.lower squashed].
  destruct (Str.is_alnum a) eqn:Ha.
  - rewrite alnum_lower_word by done. apply IH.
  - rewrite lower_char_not_alnum by done. rewrite lower_char_us.
    intros Hs. apply andb_prop in Hs as [-> Hs]. by rewrite IH.
Qed.

Lemma lower_no_trailing s : no_trailing_us s = true → no_trailing_us (Str.lower s) = true.
Proof.
  induction s as [|a s IH]; [done|]. cbn [Str.lower no_trailing_us].
  destruct s as [|c r]; [by rewrite lower_char_us|]. apply IH.
Qed.

Lemma to_snake_squashed s :
  squashed is_word true (to_snake s) = true ∧ no_trailing_us (to_snake s) = true.
Proof.
  unfold to_snake, Str.strip_us. split.
  - apply lower_squashed, (squashed_rstrip _ alnum_not_us), (squashed_lstrip _ alnum_not_us).
    apply squash_runs_squashed.
  - apply lower_no_trailing, rstrip_no_trailing.
Qed.

Lemma word_not_us a : is_word a = true → a ≠ "_"%char.
Proof. by intros Ha ->. Qed.

Lemma squashed_get s : ∀ b,
  squashed is_word b s = true →
  (∀ i a, String.get i s = Some a → is_word a = true ∨ a = "_"%char)
  ∧ (∀ i, String.get i s = Some "_"%char →
       (i = 0%nat → b = false)
       ∧ (∀ j, i = S j → ∃ a, String.get j s = Some a ∧ is_word a = true)
       ∧ (∀ c, String.get (S i) s = Some c → is_word c = true)).
Proof.
  induction s as [|a s IH]; intros b Hs; [by split; intros []|].
  cbn [squashed] in Hs. destruct (is_word a) eqn:Ha.
  - destruct (IH false Hs) as [IH1 IH2]. split.
    + intros [|i] c; cbn [String.get]; [intros [= <-]; by left|apply IH1].
    + intros [|i]; cbn [String.get].
      * intros [= ->]. done.
      * intros Hi. destruct (IH2 i Hi) as (H0 & Hprev & Hnext). split_and!; [done| |done].
        intros j [= <-]. destruct i as [|i].
        -- exists a. by cbn.
        -- cbn [String.get]. by apply Hprev.
  - apply andb_prop in Hs as [Hs1 Hs]. apply andb_prop in Hs1 as [Hus Hb].
    apply Ascii.eqb_eq in Hus. subst a. destruct b; [done|].
    destruct (IH true Hs) as [IH1 IH2]. split.
    + intros [|i] c; cbn [String.get]; [intros [= <-]; by right|apply IH1].
    + intros [|i]; cbn [String.get].
      * intros _. split_and!; [done|done|].
        intros c Hc. destruct (IH1 0%nat c Hc) as [?| ->]; [done|].
        by destruct (IH2 0%nat Hc) as [H0 _]; specialize (H0 eq_refl).
      * intros Hi. destruct (IH2 i Hi) as (H0 & Hprev & Hnext). split_and!; [done| |done].
        intros j [= <-]. destruct i as [|i]; [by specialize (H0 eq_refl)|].
        cbn [String.get]. by apply Hprev.
Qed.

Lemma no_trailing_get s : no_trailing_us s = true →
  ∀ i, String.get i s = Some "_"%char → ∃ c, String.get (S i) s = Some c.
Proof.
  induction s as [|a s IH]; [by intros _ []|]. cbn [no_trailing_us].
  destruct s as [|c r].
  - intros Ha [|i]; cbn; [|done]. intros [= ->]. done.
  - intros Hs [|i].
    + intros _. by exists c.
    + cbn [String.get]. intros Hi. by apply (IH Hs i).
Qed.

(** X1. The name [to_snake] gives holds lower-case letters, digits and
    underscores only, and each of its underscores stands between two
    characters that are not underscores: none comes first or last, and no two
    are adjacent. *)
Theorem to_snake_shape (s : string) :
  (∀ i a, String.get i (to_snake s) = Some a →
     Str.is_lower a = true ∨ Str.is_digit a = true ∨ a = "_"%char)
  ∧ (∀ i, String.get i (to_snake s) = Some "_"%char →
       ∃ j a b,
         i = S j
         ∧ String.get j (to_snake s) = Some a ∧ a ≠ "_"%char
         ∧ String.get (S i) (to_snake s) = Some b ∧ b ≠ "_"%char).
Proof.
  destruct (to_snake_squashed s) as [Hs Ht].
  destruct (squashed_get _ _ Hs) as [H1 H2]. split.
  - intros i a Hi. destruct (H1 i a Hi) as [Ha| ->]; [|by right; right].
    unfold is_word in Ha. apply orb_prop in Ha as [?|?]; auto.
  - intros i Hi. destruct (H2 i Hi) as (H0 & Hprev & Hnext).
    destruct i as [|j]; [by specialize (H0 eq_refl)|].
    destruct (Hprev j eq_refl) as (a & Ha & Hwa).
    destruct (no_trailing_get _ Ht _ Hi) as (b & Hb).
    exists j, a, b. split_and!; [done|done|by apply word_not_us|done|].
    apply word_not_us. by apply Hnext.
Qed.

Lemma to_snake_shape_witness :
  ∃ j a b,
    3%nat = S j
    ∧ String.get j (to_snake "subTypeName") = Some a ∧ a ≠ "_"%char
    ∧ String.get 4 (to_snake "subTypeName") = Some b ∧ b ≠ "_"%char.
Proof.
  destruct (to_snake_shape "subTypeName") as [_ H]. apply (H 3%nat). reflexivity.
Defined.

Lemma split_camel_id s : ∀ b, squashed is_word b s = true → Str.split_camel s = s.
Proof.
  induction s as [|a s IH]; intros b Hs; [done|]. cbn [Str.split_camel].
  assert (∃ b', squashed is_word b' s = true) as [b' Hs'].
  { cbn [squashed] in Hs. destruct (is_word a); [by exists false|].
    exists true. by apply andb_prop in Hs as [_ ?]. }
  rewrite (IH b' Hs'). destruct s as [|c r]; [done|].
  assert (Str.is_upper c = false) as ->; [|by rewrite andb_false_r].
  cbn [squashed] in Hs'. destruct (is_word c) eqn:Hc; [by apply word_not_upper|].
  apply andb_prop in Hs' as [Hs' _]. apply andb_prop in Hs' as [Hus _].
  apply Ascii.eqb_eq in Hus. by subst c.
Qed.

Lemma squash_runs_id s : ∀ b, squashed is_word b s = true → Str.squash_runs b s = s.
Proof.
  induction s as [|a s IH]; intros b Hs; [done|]. cbn [Str.squash_runs squashed] in *.
  destruct (is_word a) eqn:Ha.
  - rewrite word_alnum by done. by rewrite IH.
  - apply andb_prop in Hs as [Hs1 Hs]. apply andb_prop in Hs1 as [Hus Hb].
    apply Ascii.eqb_eq in Hus. subst a. destruct b; [done|].
    change (Str.is_alnum "_") with false. cbn iota. by rewrite IH.
Qed.

Lemma lower_id s : ∀ b, squashed is_word b s = true → Str.lower s = s.
Proof.
  induction s as [|a s IH]; intros b Hs; [done|]. cbn [Str.lower squashed] in *.
  destruct (is_word a) eqn:Ha.
  - rewrite not_upper_lower_char by by apply word_not_upper. by rewrite (IH false).
  - apply andb_prop in Hs as [Hs1 Hs]. apply andb_prop in Hs1 as [Hus Hb].
    apply Ascii.eqb_eq in Hus. subst a. by rewrite (IH true).
Qed.

Lemma word_not_us_eqb a : is_word a = true → Ascii.eqb a "_" = false.
Proof. intros Ha. by apply alnum_not_us, word_alnum. Qed.

(** X2. [to_snake] is idempotent: a name it gave is left as it is. *)
Theorem to_snake_idempotent (s : string) : to_snake (to_snake s) = to_snake s.
Proof.
  destruct (to_snake_squashed s) as [Hs Ht]. generalize dependent (to_snake s).
  intros r Hs Ht. unfold to_snake, Str.strip_us.
  rewrite (split_camel_id r true Hs).
  rewrite (squash_runs_id r false) by by apply squashed_weaken.
  rewrite (squashed_lstrip_id _ word_not_us_eqb r Hs).
  rewrite (rstrip_id r Ht). apply (lower_id r true Hs).
Qed.

(** ** The products frame *)

Lemma dict_fold_keys {B} (P : string → Prop) (f : B → string) (g : B → jval) l :
  (∀ b, P (f b)) → ∀ acc : list (string * jval),
  (∀ k, k ∈ acc.*1 → P k) →
  ∀ k, k ∈ (foldl (λ flat b, dict_set (f b) (g b) flat) acc l).*1 → P k.
Proof.
  intros Hf. induction l as [|b l IH]; intros acc Hacc k; [apply Hacc|].
  cbn [foldl]. apply IH. intros k'. rewrite dict_set_keys. intros [->|?]; auto.
Qed.

Lemma ext_step_keys (P : string → Prop) acc e :
  P "attack_1" → P "attack_2" → P (to_snake (ext_name e)) →
  0 ≤ acc.2 → (∀ k, k ∈ acc.1.*1 → P k) →
  0 ≤ (ext_step acc e).2 ∧ ∀ k, k ∈ (ext_step acc e).1.*1 → P k.
Proof.
  destruct acc as [flat n]. intros H1 H2 He Hn Hacc. unfold ext_step. cbn [fst snd] in *.
  destruct (decide (to_snake (ext_name e) = "")); [done|].
  destruct (Str.startswith _ _).
  - destruct (2 <? n + 1) eqn:Hlt; cbn [fst snd]; [split; [lia|done]|].
    split; [lia|]. intros k. rewrite dict_set_keys. intros [->|?]; [|auto].
    apply Z.ltb_ge in Hlt. assert (n = 0 ∨ n = 1) as [->| ->] by lia; done.
  - cbn [fst snd]. split; [done|]. intros k. rewrite dict_set_keys. intros [->|?]; auto.
Qed.

Lemma flatten_product_keys (P : string → Prop) prod :
  P "attack_1" → P "attack_2" → (∀ s, P (to_snake s)) →
  ∀ k, k ∈ (flatten_product prod).*1 → P k.
Proof.
  intros H1 H2 Hs. unfold flatten_product.
  assert (∀ k, k ∈ (flatten_presale (flatten_items (items prod)) (presaleInfo prod)).*1 → P k)
    as H0.
  { unfold flatten_presale, flatten_items.
    apply (dict_fold_keys P (λ kv : string * jval, to_snake ("presale_" +:+ kv.1)) snd);
      [done|].
    apply (dict_fold_keys P (λ kv : string * jval, to_snake kv.1) snd); [done|].
    intros k Hk. by apply elem_of_nil in Hk. }
  revert H0. generalize (flatten_presale (flatten_items (items prod)) (presaleInfo prod)).
  intros flat Hflat.
  assert (∀ exts acc, 0 ≤ acc.2 → (∀ k, k ∈ acc.1.*1 → P k) →
            ∀ k, k ∈ (foldl ext_step acc exts).1.*1 → P k) as Hloop.
  { induction exts as [|e exts IH]; intros acc Hn Hacc; [done|]. cbn [foldl].
    destruct (ext_step_keys P acc e H1 H2 (Hs _) Hn Hacc) as [Hn' Hacc'].
    by apply IH. }
  by apply Hloop.
Qed.

Lemma row_of_dict_bound d k v : row_of_dict d !! k = Some v → k ∈ d.*1.
Proof.
  intros Hk. destruct (decide (k ∈ d.*1)) as [|Hn]; [done|].
  apply row_of_dict_notin in Hn. congruence.
Qed.

Lemma from_dicts_wf ds : pd.wf (from_dicts ds).
Proof.
  unfold from_dicts. split; cbn [pd.columns pd.rows].
  - pose proof (keep_first_NoDup id (ds ≫= λ d : list (string * jval), d.*1)) as Hnd.
    by rewrite list_fmap_id in Hnd.
  - apply Forall_fmap, Forall_forall. intros d Hd k v Hk. cbn.
    apply keep_first_id_elem, list_elem_of_bind. exists d. split; [|done].
    by eapply row_of_dict_bound.
Qed.

Lemma drop_wf cs df : pd.wf df → pd.wf (pd.drop cs df).
Proof.
  intros [Hnd Hrows]. unfold pd.drop. split; cbn [pd.columns pd.rows].
  - by apply NoDup_filter.
  - apply Forall_fmap. eapply Forall_impl; [exact Hrows|]. intros r Hr k v Hk. cbn.
    apply map_lookup_filter_Some in Hk as [Hk Hcs]. cbn in Hcs.
    apply list_elem_of_filter. split; [done|]. by apply (Hr k v).
Qed.

(** X3. When the products endpoint answers, [fetch_products_for_group] gives
    a frame with one row per product, in order; its labels are unique and in
    snake case, none is a pruned column, and every row holds values under
    those labels only.  A failed request is raised to the caller. *)
Theorem fetch_products_frame (W : World) (group_id : string) :
  (∀ data, products_response W group_id = Ok data →
     ∃ df,
       fetch_products_for_group W group_id = Ok df
       ∧ pd.len df = List.length data
       ∧ pd.wf df
       ∧ ∀ c, c ∈ pd.columns df → (c ∉ PRUNE_COLS) ∧ to_snake c = c)
  ∧ (∀ e, products_response W group_id = Raise e →
       fetch_products_for_group W group_id = Raise e).
Proof.
  unfold fetch_products_for_group. split.
  - intros data ->. cbn [rbind]. eexists. split; [done|]. split_and!.
    + unfold pd.len, pd.drop, from_dicts. cbn [pd.rows]. by rewrite !length_fmap.
    + apply drop_wf, from_dicts_wf.
    + intros c Hc. unfold pd.drop, from_dicts in Hc. cbn [pd.columns] in Hc.
      apply list_elem_of_filter in Hc as [Hprune Hc]. split; [done|].
      apply keep_first_id_elem, list_elem_of_bind in Hc as (d & Hc & Hd).
      apply list_elem_of_fmap in Hd as (prod & -> & _).
      revert Hc. apply (flatten_product_keys (λ k, to_snake k = k)); [done|done|].
      apply to_snake_idempotent.
  - by intros e ->.
Qed.

Lemma fetch_products_frame_witness :
  ∃ df,
    fetch_products_for_group Sample.world "604" = Ok df
    ∧ pd.len df = 1%nat
    ∧ pd.wf df.
Proof.
  destruct (fetch_products_frame Sample.world "604") as [H _].
  destruct (H [Sample.pikachu] eq_refl) as (df & Hrun & Hlen & Hwf & _).
  exists df. split; [exact Hrun|]. split; [exact Hlen|exact Hwf].
Defined.

(** ** The harvest of a day *)

Lemma set_column_columns c v df c' :
  c' ∈ pd.columns (pd.set_column c v df) ↔ c' = c ∨ c' ∈ pd.columns df.
Proof.
  unfold pd.set_column. cbn [pd.columns]. case_decide.
  - split; [by right|]. by intros [->|?].
  - rewrite elem_of_app, list_elem_of_singleton. tauto.
Qed.

Lemma tagged_valid gid date_str (df : pd.DataFrame) :
  pd.rows df ≠ [] →
  negb (pd.empty (pd.set_column "groupid" (pd.CStr gid)
                    (pd.set_column "date" (pd.CStr date_str) df)))
  && negb (all_null (pd.set_column "groupid" (pd.CStr gid)
                       (pd.set_column "date" (pd.CStr date_str) df))) = true.
Proof.
  intros Hrows. destruct (pd.rows df) as [|r rs] eqn:Hr; [done|].
  set (tagged := pd.set_column "groupid" (pd.CStr gid) _).
  assert ("groupid" ∈ pd.columns tagged) as Hcol.
  { apply set_column_columns. by left. }
  assert (pd.rows tagged
          = <["groupid" := pd.CStr gid]> (<["date" := pd.CStr date_str]> r)
            :: ((λ r : gmap string pd.cell,
                   <["groupid" := pd.CStr gid]> (<["date" := pd.CStr date_str]> r)) <$> rs))
    as Hrows'.
  { unfold tagged, pd.set_column. cbn [pd.rows]. rewrite Hr, <- list_fmap_compose. reflexivity. }
  apply andb_true_intro. split; apply negb_true_iff.
  - unfold pd.empty. apply orb_false_intro; apply bool_decide_eq_false.
    + intros Hnil. rewrite Hnil in Hcol. by apply elem_of_nil in Hcol.
    + by rewrite Hrows'.
  - unfold all_null. apply bool_decide_eq_false. rewrite Hrows'. intros Hall.
    apply Forall_cons in Hall as [Hall _]. rewrite Forall_forall in Hall.
    specialize (Hall _ Hcol). by rewrite lookup_insert_eq in Hall.
Qed.

Lemma harvest_group_rows date_str e :
  match harvest_group date_str e with
  | Ok (Some df) =>
      pd.rows df = group_rows date_str e
      ∧ negb (pd.empty df) && negb (all_null df) = true
      ∧ "date" ∈ pd.columns df ∧ "groupid" ∈ pd.columns df
  | Ok None => group_rows date_str e = []
  | Raise x => x = TypeError ∧ is_dir e.2 = true ∧ prices e.2 = Some Unlabelled
  | OutOfFuel => False
  end.
Proof.
  destruct e as [gid g]. unfold harvest_group, group_rows. cbn [fst snd].
  destruct (is_dir g); cbn [negb]; [|done].
  destruct (prices g) as [[|src|]|]; [done| |done|done].
  case_bool_decide as Hsrc; [by rewrite Hsrc|].
  split_and!; [|by apply tagged_valid|..].
  - unfold pd.set_column. cbn [pd.rows]. by rewrite <- list_fmap_compose.
  - rewrite !set_column_columns. auto.
  - rewrite !set_column_columns. auto.
Qed.

(** The frames gathered by the loop of the harvest: each one passes the
    test of validity and has the two tags as columns, and their rows are
    the rows of the group directories, in the order of the listing. *)
Lemma harvest_loop_rows date_str cat : ∀ acc rows,
  harvest_loop date_str cat acc = Ok rows →
  ∃ new,
    rows = (acc ++ new)%list
    ∧ Forall (λ df, negb (pd.empty df) && negb (all_null df) = true
                    ∧ "date" ∈ pd.columns df ∧ "groupid" ∈ pd.columns df) new
    ∧ new ≫= pd.rows = cat ≫= group_rows date_str.
Proof.
  induction cat as [|e cat IH]; intros acc rows; cbn [harvest_loop].
  { intros [= <-]. exists []. by rewrite app_nil_r. }
  pose proof (harvest_group_rows date_str e) as He.
  destruct (harvest_group date_str e) as [[df|]| |]; cbn [rbind]; [| |done..].
  - intros Hloop. apply IH in Hloop as (new & -> & Hvalid & Hrows).
    destruct He as (He & Hv & Hd & Hg).
    exists (df :: new). split_and!.
    + by rewrite <- app_assoc.
    + by apply Forall_cons.
    + cbn [mbind list_bind]. by rewrite He, <- Hrows.
  - intros Hloop. apply IH in Hloop as (new & -> & Hvalid & Hrows).
    exists new. split_and!; [done|done|]. cbn [mbind list_bind]. by rewrite He.
Qed.

(** A group directory whose [prices] file gives a frame without string
    labels ends the harvest. *)
Lemma harvest_loop_unlabelled date_str cat e :
  e ∈ cat → is_dir e.2 = true → prices e.2 = Some Unlabelled →
  ∀ acc, harvest_loop date_str cat acc = Raise TypeError.
Proof.
  intros Hin Hdir Hfile.
  induction cat as [|e' cat IH]; [by apply elem_of_nil in Hin|]. intros acc.
  cbn [harvest_loop]. pose proof (harvest_group_rows date_str e') as He.
  apply elem_of_cons in Hin as [<-|Hin].
  - destruct e as [gid g]. cbn [snd] in *. unfold harvest_group.
    by rewrite Hdir, Hfile.
  - destruct (harvest_group date_str e') as [o|x|]; cbn [rbind]; [by apply IH| |done].
    by destruct He as [-> _].
Qed.

Lemma harvest_rows (day_root : DayRoot) (df : pd.DataFrame) :
  harvest_prices_for_day day_root = Ok df →
  pd.rows df
  = match category day_root with
    | Some cat => cat ≫= group_rows (day_name day_root)
    | None => []
    end
  ∧ (pd.rows df ≠ [] → "date" ∈ pd.columns df ∧ "groupid" ∈ pd.columns df).
Proof.
  unfold harvest_prices_for_day. destruct (category day_root) as [cat|].
  2:{ by intros [= <-]. }
  destruct (harvest_loop (day_name day_root) cat []) as [rows0| |] eqn:Hloop;
    cbn [rbind]; [|done..].
  apply harvest_loop_rows in Hloop as (new & -> & Hvalid & Hrows).
  rewrite app_nil_l.
  assert (filter (λ df, negb (pd.empty df) && negb (all_null df) = true) new = new)
    as ->.
  { clear Hrows. induction Hvalid as [|df0 dfs [Hdf _] _ IH]; [done|].
    rewrite filter_cons, decide_True by done. by rewrite IH. }
  destruct new as [|df0 dfs] eqn:H0.
  - intros [= <-]. split; [by rewrite <- Hrows|done].
  - intros Hfull. split; [by rewrite (concat_rows _ _ Hfull)|].
    intros _. apply Forall_cons in Hvalid as [(_ & Hd & Hg) _].
    split; apply (concat_columns _ _ _ Hfull); exists df0; (split; [by left|done]).
Qed.

Lemma fmap_tags date_str gid (l : list (gmap string pd.cell)) :
  (λ r : gmap string pd.cell, (r !! "date", r !! "groupid"))
    <$> ((λ r : gmap string pd.cell,
            <["groupid" := pd.CStr gid]> (<["date" := pd.CStr date_str]> r)) <$> l)
  = replicate (List.length l) (Some (pd.CStr date_str), Some (pd.CStr gid)).
Proof.
  induction l as [|r l IH]; [done|]. cbn [fmap list_fmap List.length replicate].
  f_equal; [|exact IH].
  rewrite lookup_insert_ne by done. by rewrite !lookup_insert_eq.
Qed.

(** X4. When the harvest of a day returns, its frame has one row for each
    record of the [prices] file of each group directory, directory by
    directory in the order of the listing, and the row has the day's name
    as [date] and the name of its directory as [groupid]; entries that are
    not directories or have no readable [prices] file give no row, and a
    day without category directory gives none.  A group directory whose
    [prices] file gives a frame without string labels ends the harvest in
    a [TypeError]. *)
Theorem harvest_rows_tagged (day_root : DayRoot) :
  (∀ df, harvest_prices_for_day day_root = Ok df →
     (λ r : gmap string pd.cell, (r !! "date", r !! "groupid")) <$> pd.rows df
     = match category day_root with
       | Some cat =>
           cat ≫= λ e, replicate (records e)
                         (Some (pd.CStr (day_name day_root)), Some (pd.CStr e.1))
       | None => []
       end)
  ∧ (∀ cat e, category day_root = Some cat → e ∈ cat →
       is_dir e.2 = true → prices e.2 = Some Unlabelled →
       harvest_prices_for_day day_root = Raise TypeError).
Proof.
  split.
  - intros df Hrun. apply harvest_rows in Hrun as [-> _].
    destruct (category day_root) as [cat|]; [|done].
    induction cat as [|e cat IH]; [done|].
    cbn [mbind list_bind]. rewrite fmap_app, IH. f_equal.
    unfold group_rows, records. destruct (is_dir e.2); [|done].
    destruct (prices e.2) as [[|src|]|]; try done. apply fmap_tags.
  - intros cat e Hcat Hin Hdir Hfile. unfold harvest_prices_for_day. rewrite Hcat.
    by rewrite (harvest_loop_unlabelled _ cat e Hin Hdir Hfile).
Qed.

Lemma harvest_rows_tagged_witness :
  ∃ df,
    harvest_prices_for_day
      {| day_name := "2025-09-19"; category := Some Sample.category_dir |} = Ok df
    ∧ (λ r : gmap string pd.cell, (r !! "date", r !! "groupid")) <$> pd.rows df
      = replicate 3 (Some (pd.CStr "2025-09-19"), Some (pd.CStr "604")).
Proof.
  remember (harvest_prices_for_day
              {| day_name := "2025-09-19"; category := Some Sample.category_dir |})
    as run eqn:Hm.
  assert (match run with Ok _ => True | _ => False end) as Hok
    by (rewrite Hm; vm_compute; exact I).
  destruct run as [df| |]; [|destruct Hok..]. symmetry in Hm.
  exists df. split; [reflexivity|].
  destruct (harvest_rows_tagged
              {| day_name := "2025-09-19"; category := Some Sample.category_dir |})
    as [Htags _].
  exact (Htags df Hm).
Defined.

(** ** More on the harvesting loop *)

Lemma raw_kept_refl strftime W : Reflexive (raw_kept strftime W).
Proof. intros st. split; [done|]. intros k Hk. by left. Qed.

Lemma raw_kept_trans strftime W : Transitive (raw_kept strftime W).
Proof.
  intros st1 st2 st3 [H1 H2] [H3 H4]. split; [by auto|].
  intros k Hk. destruct (H4 k Hk) as [Hk2|?]; [|by right].
  destruct (H2 k Hk2) as [?|?]; [by left|right; auto].
Qed.

#[local] Existing Instance raw_kept_refl.
#[local] Existing Instance raw_kept_trans.

Lemma date_name_inj k k' : "date=" +:+ k = "date=" +:+ k' → k = k'.
Proof. intros Heq. by simplify_eq/=. Qed.

Lemma write_raw_partition_raw strftime W d df st st1 r1 :
  harvested strftime W d = Ok (Some df) →
  write_raw_partition strftime W d df st = (st1, r1) →
  (∀ k, raw_of strftime W k st → raw_of strftime W k st1)
  ∧ processed_days st1 = processed_days st
  ∧ (r1 = Ok tt → raw_of strftime W (strftime d) st1).
Proof.
  intros Hharv. unfold write_raw_partition, to_parquet_check. cbn zeta.
  unfold bind at 1, gets at 1. cbn beta iota.
  assert (∀ st0 : BaseDir,
    (∀ k, raw_of strftime W k st → raw_of strftime W k st0) →
    processed_days st0 = processed_days st →
    (if raw_write_fails W d then raise (OSError ("date=" +:+ strftime d))
     else bind (if bool_decide (NoDup (pd.columns df)) then ret tt
                else raise (ValueError "Duplicate column names found"))
            (λ _, bind (modify (with_daily_prices
                          (insert ("date=" +:+ strftime d) (Directory (Some df)))))
                    (λ _, emit (WroteRaw (strftime d))))) st0 = (st1, r1) →
    (∀ k, raw_of strftime W k st → raw_of strftime W k st1)
    ∧ processed_days st1 = processed_days st
    ∧ (r1 = Ok tt → raw_of strftime W (strftime d) st1)) as Hwrite.
  { intros st0 Hmono Hpd.
    destruct (raw_write_fails W d) eqn:Hfail.
    { by intros [= <- <-]. }
    destruct (bool_decide (NoDup (pd.columns df))).
    2:{ by intros [= <- <-]. }
    intros [= <- <-]. split_and!; [|done|].
    - intros k Hk. apply Hmono in Hk as (d0 & df0 & Hd0 & Hh0 & Hk).
      destruct (decide ("date=" +:+ k = "date=" +:+ strftime d)) as [Heq|Hne].
      + apply date_name_inj in Heq as ->. exists d, df. split_and!; [done|done|].
        cbn. by rewrite lookup_insert_eq.
      + exists d0, df0. split_and!; [done|done|]. cbn. by rewrite lookup_insert_ne.
    - intros _. exists d, df. split_and!; [done|done|]. cbn. by rewrite lookup_insert_eq. }
  destruct (daily_prices st !! ("date=" +:+ strftime d)) as [[|part]|] eqn:Hentry.
  - by intros [= <- <-].
  - unfold bind at 1, ret at 1. cbn beta iota. by apply Hwrite.
  - unfold bind at 1, modify at 1. cbn beta iota. apply Hwrite; [|done].
    intros k (d0 & df0 & Hd0 & Hh0 & Hk). exists d0, df0. split_and!; [done|done|].
    cbn. rewrite lookup_insert_ne; [done|]. intros Heq. rewrite <- Heq in Hk. congruence.
Qed.

Lemma build_prices_loop_raw strftime W fuel :
  ∀ processed end_date step d frames days,
  preserves (raw_kept strftime W)
    (build_prices_loop strftime W fuel processed end_date step d frames days).
Proof.
  induction fuel as [|fuel IH]; intros processed end_date step d frames days st.
  { reflexivity. }
  rewrite build_prices_loop_step. cbn zeta.
  assert (∀ frames0 days0,
    preserves (raw_kept strftime W)
      (bind (lift (date_add d step)) (λ d',
         build_prices_loop strftime W fuel processed end_date step d' frames0 days0)))
    as Hcont.
  { intros frames0 days0. apply preserves_bind; [apply _|apply preserves_lift; apply _|].
    intros d'. apply IH. }
  destruct (d <=? end_date); [|reflexivity].
  destruct (decide (strftime d ∈ processed)); [apply Hcont|].
  unfold bind at 1, lift at 1.
  destruct (harvested strftime W d) as [[df|]| |] eqn:Hharv; [|apply Hcont|reflexivity..].
  unfold bind at 1.
  destruct (write_raw_partition strftime W d df st) as [st1 r1] eqn:Hwr.
  destruct (write_raw_partition_raw _ _ _ _ _ _ _ Hharv Hwr) as (Hmono & Hpd & Hok).
  destruct r1 as [[]| |]; cbn [fst].
  2,3: (split; [done|]; intros k Hk; left; by rewrite <- Hpd).
  unfold bind at 1, mark_day_processed. unfold bind at 1, modify at 1. cbn beta iota.
  unfold emit at 1, modify at 1. cbn beta iota.
  match goal with |- raw_kept _ _ _ (bind _ _ ?s).1 => set (st2 := s) end.
  transitivity st2; [|apply Hcont].
  specialize (Hok eq_refl). destruct Hok as (d0 & df0 & Hd0 & Hh0 & Hk0). split.
  - intros k Hk. apply Hmono in Hk as (d1 & df1 & Hd1 & Hh1 & Hk1). by exists d1, df1.
  - intros k. subst st2. cbn. rewrite Hpd, elem_of_app, list_elem_of_singleton.
    intros [?| ->]; [by left|]. right. by exists d0, df0.
Qed.

Lemma build_prices_raw strftime W fuel start_date end_date step :
  preserves (raw_kept strftime W) (build_prices strftime W fuel start_date end_date step).
Proof.
  unfold build_prices.
  apply preserves_bind; [apply _|apply preserves_gets; apply _|]. intros processed.
  apply preserves_bind; [apply _|apply build_prices_loop_raw|]. intros [frames days].
  destruct frames; [apply preserves_ret; apply _|].
  apply preserves_bind; [apply _|apply preserves_lift; apply _|].
  intros df. apply preserves_ret; apply _.
Qed.

Lemma drop_lookup (cs : list string) (r : gmap string pd.cell) (k : string) :
  k ∉ cs → (filter (λ kv : string * pd.cell, kv.1 ∉ cs) r : gmap string pd.cell) !! k = r !! k.
Proof.
  intros Hk. destruct (r !! k) as [v|] eqn:Hv.
  - by apply map_lookup_filter_Some_2.
  - apply map_lookup_filter_None. by left.
Qed.

Lemma group_rows_tagged date_str e r :
  r ∈ group_rows date_str e →
  r !! "date" = Some (pd.CStr date_str) ∧ r !! "groupid" = Some (pd.CStr e.1).
Proof.
  unfold group_rows. destruct (is_dir e.2); [|by rewrite elem_of_nil].
  destruct (prices e.2) as [[|src|]|]; try by rewrite elem_of_nil.
  intros Hr. apply list_elem_of_fmap in Hr as (r0 & -> & _). split.
  - rewrite lookup_insert_ne by done. by rewrite lookup_insert_eq.
  - by rewrite lookup_insert_eq.
Qed.

Lemma harvested_tagged strftime W d df :
  harvested strftime W d = Ok (Some df) →
  pd.rows df ≠ []
  ∧ "date" ∈ pd.columns df
  ∧ "groupid" ∈ pd.columns df
  ∧ (∀ c, c ∈ pd.columns df → c ∉ PRUNE_COLS)
  ∧ Forall (λ r : gmap string pd.cell,
              r !! "date" = Some (pd.CStr (strftime d))
              ∧ ∃ gid, r !! "groupid" = Some (pd.CStr gid)) (pd.rows df).
Proof.
  unfold harvested. destruct (download_archive W d) as [a|] eqn:Ha; [|done].
  unfold download_archive in Ha. destruct (archive_found W d); [|done]. injection Ha as <-.
  unfold extract_archive. destruct (extracted W d) as [cat|]; [|done].
  destruct (harvest_prices_for_day {| day_name := strftime d; category := Some cat |})
    as [h| |] eqn:Hh; [|done..].
  apply harvest_rows in Hh as [Hrows Hcols].
  cbn [rbind category day_name] in *. destruct (pd.empty h) eqn:Hempty; [done|].
  intros [= <-]. unfold pd.empty in Hempty. apply orb_false_elim in Hempty as [_ Hne].
  apply bool_decide_eq_false in Hne. destruct (Hcols Hne) as [Hd Hg].
  unfold pd.drop. cbn [pd.rows pd.columns]. split_and!.
  - destruct (pd.rows h); [done|]. done.
  - apply list_elem_of_filter. split; [|done]. compute_done.
  - apply list_elem_of_filter. split; [|done]. compute_done.
  - intros c Hc. by apply list_elem_of_filter in Hc as [? _].
  - apply Forall_fmap, Forall_forall. intros r Hr. cbn.
    rewrite !drop_lookup by compute_done.
    rewrite Hrows in Hr. apply list_elem_of_bind in Hr as (e & Hr & _).
    apply group_rows_tagged in Hr as [? ?]. split; [done|]. by eexists.
Qed.

(** X5. Every day that a run of [build_prices] adds to [processed_days.txt]
    has its raw partition on disk when the run ends, whatever the run
    returns: a frame with at least one row, without any pruned column, whose
    rows all carry that day as [date] and a group id. *)
Theorem build_prices_partitions (strftime : Z → string) (W : World) (fuel : nat)
    (start_date end_date step : Z) (st : BaseDir) (k : string) :
  let st' := (build_prices strftime W fuel start_date end_date step st).1 in
  k ∈ processed_days st' → k ∉ processed_days st →
  ∃ df,
    daily_prices st' !! ("date=" +:+ k) = Some (Directory (Some df))
    ∧ pd.rows df ≠ []
    ∧ "date" ∈ pd.columns df
    ∧ "groupid" ∈ pd.columns df
    ∧ (∀ c, c ∈ pd.columns df → c ∉ PRUNE_COLS)
    ∧ Forall (λ r : gmap string pd.cell,
                r !! "date" = Some (pd.CStr k)
                ∧ ∃ gid, r !! "groupid" = Some (pd.CStr gid)) (pd.rows df).
Proof.
  intros st' Hin Hnot.
  destruct (build_prices_raw strftime W fuel start_date end_date step st) as [_ Hnew].
  destruct (Hnew k Hin) as [?|(d & df & <- & Hharv & Hdisk)]; [done|].
  exists df. split; [done|]. by apply (harvested_tagged strftime W).
Qed.

Lemma bind_not_ok {A B} (m : M A) (k : A → M B) st :
  (∀ a st1 b, (k a st1).2 ≠ Ok b) → ∀ b, (bind m k st).2 ≠ Ok b.
Proof.
  intros Hk b. unfold bind. destruct (m st) as [st1 [a| |]]; [apply Hk|done..].
Qed.

Lemma build_prices_loop_nonpositive strftime W fuel :
  ∀ processed end_date step d frames days st res,
  step ≤ 0 → d ≤ end_date →
  (build_prices_loop strftime W fuel processed end_date step d frames days st).2 ≠ Ok res.
Proof.
  induction fuel as [|fuel IH]; intros processed end_date step d frames days st res Hstep Hd.
  { done. }
  rewrite build_prices_loop_step. cbn zeta.
  assert (∀ frames0 days0 st0 res0,
    (bind (lift (date_add d step)) (λ d',
       build_prices_loop strftime W fuel processed end_date step d' frames0 days0) st0).2
    ≠ Ok res0) as Hcont.
  { intros frames0 days0 st0 res0. unfold bind, lift.
    destruct (date_add d step) as [d'| |] eqn:Hadd; [|done..].
    apply date_add_ok in Hadd as ->. apply IH; lia. }
  destruct (Z.leb_spec d end_date); [|lia].
  destruct (decide (strftime d ∈ processed)); [apply Hcont|].
  apply bind_not_ok. intros [df|] st1 res1; [|apply Hcont].
  apply bind_not_ok. intros _ st2 res2. apply bind_not_ok. intros _ st3 res3. apply Hcont.
Qed.

(** X6. With a step of zero or less and a start date that is not after the
    end date, [build_prices] never returns: the loop goes on for ever, or an
    exception ends it. *)
Theorem build_prices_nonpositive_step (strftime : Z → string) (W : World) (fuel : nat)
    (start_date end_date step : Z) (st : BaseDir) (res : pd.DataFrame * list string) :
  step ≤ 0 → start_date ≤ end_date →
  (build_prices strftime W fuel start_date end_date step st).2 ≠ Ok res.
Proof.
  intros Hstep Hd. unfold build_prices.
  apply bind_not_ok. intros processed st1 res1. unfold bind.
  pose proof (build_prices_loop_nonpositive strftime W fuel processed end_date step
                start_date [] [] st1) as Hloop.
  destruct (build_prices_loop _ _ _ _ _ _ _ _ _ _) as [st2 [res2| |]]; [|done..].
  by destruct (Hloop res2).
Qed.

Lemma build_prices_nonpositive_step_witness :
  0 ≤ 0 ∧ Sample.d19 ≤ Sample.d20
  ∧ (build_prices strftime_ymd Sample.world 50 Sample.d19 Sample.d20 0 Sample.fresh).2
    ≠ Ok (pd.empty_frame, [])
  ∧ (build_prices strftime_ymd Sample.world 50 Sample.d19 Sample.d20 (-1) Sample.fresh).2
    ≠ Ok (pd.empty_frame, []).
Proof.
  split; [lia|]. split; [by vm_compute|]. split.
  - apply (build_prices_nonpositive_step strftime_ymd Sample.world 50 Sample.d19 Sample.d20 0
             Sample.fresh (pd.empty_frame, [])); [lia|by vm_compute].
  - apply (build_prices_nonpositive_step strftime_ymd Sample.world 50 Sample.d19 Sample.d20
             (-1) Sample.fresh (pd.empty_frame, [])); [lia|by vm_compute].
Defined.

Lemma refines_refl {A} (m : M A) : refines m m.
Proof. by intros st st' r. Qed.

Lemma refines_bind_both {A B} (m m' : M A) (k k' : A → M B) :
  refines m m' → (∀ a, refines (k a) (k' a)) → refines (bind m k) (bind m' k').
Proof.
  intros Hm Hk st st' r. unfold bind. destruct (m st) as [st1 r1] eqn:Hrun.
  destruct r1 as [a|e|].
  - rewrite (Hm _ _ _ Hrun) by done. apply Hk.
  - rewrite (Hm _ _ _ Hrun) by done. done.
  - by intros [= <- <-].
Qed.

Lemma refines_bind {A B} (m : M A) (k k' : A → M B) :
  (∀ a, refines (k a) (k' a)) → refines (bind m k) (bind m k').
Proof. apply refines_bind_both, refines_refl. Qed.

Lemma build_prices_loop_fuel_S strftime W fuel :
  ∀ processed end_date step d frames days,
  refines (build_prices_loop strftime W fuel processed end_date step d frames days)
    (build_prices_loop strftime W (S fuel) processed end_date step d frames days).
Proof.
  induction fuel as [|fuel IH]; intros processed end_date step d frames days st st' r.
  { by intros [= <- <-]. }
  rewrite (build_prices_loop_step strftime W (S fuel)), build_prices_loop_step. cbn zeta.
  assert (∀ frames0 days0,
    refines
      (bind (lift (date_add d step)) (λ d',
         build_prices_loop strftime W fuel processed end_date step d' frames0 days0))
      (bind (lift (date_add d step)) (λ d',
         build_prices_loop strftime W (S fuel) processed end_date step d' frames0 days0)))
    as Hcont.
  { intros frames0 days0. apply refines_bind. intros d'. apply IH. }
  destruct (d <=? end_date); [|done].
  destruct (decide (strftime d ∈ processed)); [apply Hcont|].
  apply refines_bind. intros [df|]; [|apply Hcont].
  apply refines_bind. intros _. apply refines_bind. intros _. apply Hcont.
Qed.

Lemma build_prices_loop_fuel_le strftime W processed end_date step d frames days fuel fuel' :
  (fuel ≤ fuel')%nat →
  refines (build_prices_loop strftime W fuel processed end_date step d frames days)
    (build_prices_loop strftime W fuel' processed end_date step d frames days).
Proof.
  induction 1 as [|fuel' _ IH]; [apply refines_refl|].
  intros st st' r Hrun Hr. apply build_prices_loop_fuel_S; [|done]. by apply IH.
Qed.

(** X7. With a step of at least one day the loop of [build_prices] ends: a
    bound on its iterations above the number of dates of the range is
    enough for the run to return or raise, and every larger bound gives the
    same result and the same base directory. *)
Theorem build_prices_fuel (strftime : Z → string) (W : World) (fuel fuel' : nat)
    (start_date end_date step : Z) (st : BaseDir) :
  1 ≤ step →
  Z.max 0 (end_date - start_date + step) < Z.of_nat fuel * step →
  (fuel ≤ fuel')%nat →
  (build_prices strftime W fuel start_date end_date step st).2 ≠ OutOfFuel
  ∧ build_prices strftime W fuel' start_date end_date step st
    = build_prices strftime W fuel start_date end_date step st.
Proof.
  intros Hstep Hfuel Hle.
  pose proof (build_prices_terminates strftime W fuel start_date end_date step st Hstep Hfuel)
    as Hend.
  split; [done|].
  assert (refines (build_prices strftime W fuel start_date end_date step)
            (build_prices strftime W fuel' start_date end_date step)) as Href.
  { unfold build_prices. apply refines_bind. intros processed.
    apply refines_bind_both; [by apply build_prices_loop_fuel_le|].
    intros res. apply refines_refl. }
  destruct (build_prices strftime W fuel start_date end_date step st) as [st' r] eqn:Hrun.
  by apply Href.
Qed.

Lemma build_prices_partitions_witness :
  ∃ df,
    daily_prices (build_prices strftime_ymd Sample.world 10 739512 739515 1 Sample.fresh).1
      !! "date=2025-09-19" = Some (Directory (Some df))
    ∧ pd.rows df ≠ [].
Proof.
  destruct (build_prices_partitions strftime_ymd Sample.world 10 739512 739515 1 Sample.fresh
              "2025-09-19") as (df & H1 & H2 & _).
  - apply (bool_decide_unpack _). vm_compute. exact I.
  - apply not_elem_of_nil.
  - exists df. split; [exact H1|exact H2].
Defined.

Lemma build_prices_fuel_witness :
  build_prices strftime_ymd Sample.world 20 739512 739515 1 Sample.fresh
  = build_prices strftime_ymd Sample.world 10 739512 739515 1 Sample.fresh.
Proof.
  destruct (build_prices_fuel strftime_ymd Sample.world 10 20 739512 739515 1 Sample.fresh)
    as [_ H]; [lia|lia|lia|exact H].
Defined.

Lemma build_prices_loop_result strftime W fuel :
  ∀ processed end_date step d frames days st st' frames' days',
  build_prices_loop strftime W fuel processed end_date step d frames days st
  = (st', Ok (frames', days')) →
  ∃ fs ks,
    frames' = frames ++ fs ∧ days' = days ++ ks
    ∧ Forall2 (frame_of strftime W) ks fs
    ∧ (ks = [] → st' = st).
Proof.
  induction fuel as [|fuel IH];
    intros processed end_date step d frames days st st' frames' days'.
  { done. }
  rewrite build_prices_loop_step. cbn zeta.
  assert (∀ frames0 days0 st0,
    bind (lift (date_add d step)) (λ d',
      build_prices_loop strftime W fuel processed end_date step d' frames0 days0) st0
    = (st', Ok (frames', days')) →
    ∃ fs ks,
      frames' = frames0 ++ fs ∧ days' = days0 ++ ks
      ∧ Forall2 (frame_of strftime W) ks fs
      ∧ (ks = [] → st' = st0)) as Hcont.
  { intros frames0 days0 st0. unfold bind, lift.
    destruct (date_add d step) as [d'| |]; [apply IH|done..]. }
  destruct (d <=? end_date).
  2:{ intros [= <- <- <-]. exists [], []. rewrite !app_nil_r. split_and!; try done. }
  destruct (decide (strftime d ∈ processed)); [apply Hcont|].
  unfold bind at 1, lift at 1.
  destruct (harvested strftime W d) as [[df|]| |] eqn:Hharv; [|apply Hcont|done..].
  unfold bind at 1.
  destruct (write_raw_partition strftime W d df st) as [st1 [[]| |]]; [|done..].
  unfold bind at 1.
  destruct (mark_day_processed strftime d st1) as [st2 [[]| |]]; [|done..].
  intros Hrun. apply Hcont in Hrun as (fs & ks & -> & -> & Hfs & _).
  exists (df :: fs), (strftime d :: ks). rewrite <- !app_assoc. split_and!; try done.
  constructor; [|done]. by exists d.
Qed.

(** X8. When [build_prices] returns, the days it returns are the days it
    added to [processed_days.txt], in order, and the frame it returns holds
    the rows of the frames harvested for those days, one day after the
    other.  A run that finds no new day returns the empty frame and leaves
    every file that the base directory keeps between runs as it was: the
    two tracking files, the two caches, the raw and the enriched partitions
    and the rollup.  (The scratch directories [archives/] and [extracted/]
    are not in [BaseDir].) *)
Theorem build_prices_new_days (strftime : Z → string) (W : World) (fuel : nat)
    (start_date end_date step : Z) (st st' : BaseDir)
    (prices_df : pd.DataFrame) (new_days : list string) :
  build_prices strftime W fuel start_date end_date step st = (st', Ok (prices_df, new_days)) →
  processed_days st' = processed_days st ++ new_days
  ∧ (∃ frames,
       Forall2 (frame_of strftime W) new_days frames
       ∧ pd.rows prices_df = frames ≫= pd.rows)
  ∧ (new_days = [] → st' = st ∧ prices_df = pd.empty_frame).
Proof.
  intros Hrun.
  destruct (build_prices_inv _ _ _ _ _ _ _ _ _ Hrun) as (keys & _ & Hpd & Hres & _).
  specialize (Hres _ eq_refl). cbn in Hres. subst keys. split; [done|].
  revert Hrun. unfold build_prices. unfold bind at 1, load_processed_days, gets at 1.
  cbn beta iota. unfold bind at 1.
  destruct (build_prices_loop strftime W fuel (processed_days st) end_date step start_date
              [] [] st) as [st1 [[all_frames days]| |]] eqn:Hloop; [|done..].
  apply build_prices_loop_result in Hloop as (fs & ks & -> & -> & Hfs & Hsame).
  cbn [app]. destruct fs as [|df fs].
  - intros [= <- <- <-]. apply Forall2_nil_inv_r in Hfs as ->. split.
    + exists []. split; [constructor|done].
    + intros _. by rewrite Hsame.
  - unfold bind, lift. destruct (concat_cons_ok df fs) as (full & Hfull). rewrite Hfull.
    intros [= <- <- <-]. split.
    + exists (df :: fs). split; [done|]. by apply concat_rows.
    + intros ->. by apply Forall2_nil_inv_l in Hfs.
Qed.

Lemma build_prices_new_days_witness :
  ∃ st',
    build_prices strftime_ymd Sample.world 10 739512 739515 1 Sample.fresh
    = (st', Ok (pd.drop PRUNE_COLS
                  (pd.set_column "groupid" (pd.CStr "604")
                     (pd.set_column "date" (pd.CStr "2025-09-19") Sample.prices_604)),
                ["2025-09-19"]))
    ∧ processed_days st' = ["2025-09-19"].
Proof.
  set (run := build_prices strftime_ymd Sample.world 10 739512 739515 1 Sample.fresh).
  assert (run = (run.1, Ok (pd.drop PRUNE_COLS
                  (pd.set_column "groupid" (pd.CStr "604")
                     (pd.set_column "date" (pd.CStr "2025-09-19") Sample.prices_604)),
                ["2025-09-19"]))) as Hrun.
  { apply (bool_decide_unpack _). vm_compute. exact I. }
  exists run.1. split; [exact Hrun|].
  destruct (build_prices_new_days _ _ _ _ _ _ _ _ _ _ Hrun) as (Hpd & _).
  exact Hpd.
Defined.

(** ** More on the dimension builder *)

Lemma products_loop_marks W processed gids : ∀ acc st,
  processed_products (products_loop W processed gids acc st).1
  = processed_products st
    ++ marked_groups W processed (bool_decide (is_Some (products_file st))) gids.
Proof.
  induction gids as [|gid rest IH]; intros acc st.
  { cbn. by rewrite app_nil_r. }
  rewrite products_loop_cons. unfold marked_groups. rewrite filter_cons.
  fold (marked_groups W processed).
  destruct (bool_decide (gid ∈ processed) && bool_decide (is_Some (products_file st)))
    eqn:Hskip.
  - apply andb_true_iff in Hskip as [Hp Hc]. apply bool_decide_eq_true_1 in Hp.
    rewrite decide_False by (intros Hn; apply Hn; by split).
    apply IH.
  - rewrite decide_True.
    2:{ intros [Hp Hc]. apply andb_false_iff in Hskip as [Hs|Hs].
        - by apply bool_decide_eq_false_1 in Hs.
        - congruence. }
    rewrite filter_cons. destruct (fetched_frame W gid) as [df|] eqn:Hf.
    + rewrite decide_True by done. rewrite IH. cbn. by rewrite <- app_assoc.
    + rewrite decide_False by (by intros [? ?]). apply IH.
Qed.

Lemma products_tail_run (G : pd.DataFrame) (new : list pd.DataFrame) (st2 : BaseDir) :
  ∃ st' products_df,
    bind (gets products_file)
      (λ old : option pd.DataFrame,
         bind
           match new with
           | [] => ret match old with Some df => df | None => pd.empty_frame end
           | _ :: _ =>
               bind (lift (pd.concat new))
                 (λ new_products_df : pd.DataFrame,
                    bind
                      match old with
                      | Some old_products_df =>
                          lift (pd.concat [old_products_df; new_products_df])
                      | None => ret new_products_df
                      end
                      (λ products_df : pd.DataFrame,
                         bind (modify (with_products_file (Some products_df)))
                           (λ _ : (), ret products_df)))
           end
           (λ products_df : pd.DataFrame,
              ret (pd.rename "group_id" "groupid" G,
                   pd.drop_duplicates (pd.rename "group_id" "groupid" products_df))))
      st2 = (st', Ok (pd.rename "group_id" "groupid" G, products_df))
    ∧ NoDup (pd.rows products_df)
    ∧ groups_file st' = groups_file st2
    ∧ processed_products st' = processed_products st2
    ∧ same_prices st2 st'
    ∧ (new = [] → pd.columns products_df = []
                  ∨ ∃ old, products_file st2 = Some old
                           ∧ products_df
                             = pd.drop_duplicates (pd.rename "group_id" "groupid" old)).
Proof.
  assert (∀ df, NoDup (pd.rows (pd.drop_duplicates df))) as Hnd.
  { intros df. cbn. pose proof (keep_first_NoDup id (pd.rows df)) as H.
    by rewrite list_fmap_id in H. }
  unfold bind at 1, gets at 1. cbn beta iota.
  destruct new as [|df dfs].
  - unfold bind, ret. eexists _, _. split; [done|]. split_and!; try done.
    intros _. destruct (products_file st2) as [old|]; [right; by exists old|by left].
  - destruct (concat_cons_ok df dfs) as (new_df & Hnew).
    unfold bind at 1. unfold bind at 1, lift at 1. rewrite Hnew. cbn beta iota.
    destruct (products_file st2) as [old|] eqn:Hold.
    + destruct (concat_cons_ok old [new_df]) as (both & Hboth).
      unfold bind, lift, modify, ret. rewrite Hboth. cbn beta iota.
      eexists _, _. split; [done|]. split_and!; try done.
    + unfold bind, lift, modify, ret. cbn beta iota.
      eexists _, _. split; [done|]. split_and!; try done.
Qed.

Lemma unique_str_ok c df : c ∈ pd.columns df → ∃ gids, pd.unique_str c df = Ok gids.
Proof. intros Hc. unfold pd.unique_str. rewrite decide_True by done. by eexists. Qed.

Lemma unique_str_missing c df : c ∉ pd.columns df → pd.unique_str c df = Raise (KeyError c).
Proof. intros Hc. unfold pd.unique_str. by rewrite decide_False. Qed.

Lemma build_products_and_groups_run (W : World) (st : BaseDir) (G : pd.DataFrame) :
  groups_file st = Some G
  ∨ (groups_file st = None ∧ groups_response W = Ok G ∧ NoDup (pd.columns G)) →
  "group_id" ∈ pd.columns G →
  ∃ gids st' products_df,
    pd.unique_str "group_id" G = Ok gids
    ∧ build_products_and_groups W st
      = (st', Ok (pd.rename "group_id" "groupid" G, products_df))
    ∧ groups_file st' = Some G
    ∧ NoDup (pd.rows products_df)
    ∧ same_prices st st'
    ∧ (newly_fetched W (processed_products st)
         (bool_decide (is_Some (products_file st))) gids = [] →
       pd.columns products_df = []
       ∨ ∃ old, products_file st = Some old
                ∧ products_df = pd.drop_duplicates (pd.rename "group_id" "groupid" old)).
Proof.
  intros HG Hcol. destruct (unique_str_ok _ _ Hcol) as (gids & Hgids). exists gids.
  unfold build_products_and_groups. unfold bind at 1, gets at 1. cbn beta iota.
  destruct HG as [Hg|(Hg & Hresp & Hnd)]; rewrite Hg.
  - unfold bind at 1, ret at 1. cbn beta iota.
    unfold bind at 1, load_processed_products, gets at 1. cbn beta iota.
    unfold bind at 1, lift at 1. rewrite Hgids. cbn beta iota.
    unfold bind at 1.
    destruct (products_loop_spec W (processed_products st) gids [] st) as [Hr Hs].
    destruct (products_loop W (processed_products st) gids [] st) as [st2 r].
    cbn [fst snd] in Hr, Hs. subst r. cbn [app].
    destruct (products_tail_run G
                (newly_fetched W (processed_products st)
                   (bool_decide (is_Some (products_file st))) gids) st2)
      as (st' & p & Hrun & Hnd & Hgf & _ & Hsame & Hnone).
    exists st', p. split; [done|]. split; [exact Hrun|]. destruct Hs as (?&?&Hpf&?&?&?&?).
    destruct Hsame as (?&?&?&?&?). split_and!; [congruence|done| |].
    + unfold same_prices. split_and!; congruence.
    + intros Hnew. destruct (Hnone Hnew) as [?|(old & Hold & ->)]; [by left|].
      right. exists old. split; [congruence|done].
  - unfold bind at 1. unfold bind at 1, lift at 1. rewrite Hresp. cbn beta iota.
    unfold bind at 1, to_parquet_check. rewrite bool_decide_eq_true_2 by done.
    unfold ret at 1, bind at 1, modify at 1, ret at 1. cbn beta iota.
    unfold bind at 1, load_processed_products, gets at 1. cbn beta iota.
    unfold bind at 1, lift at 1. rewrite Hgids. cbn beta iota.
    unfold bind at 1.
    set (st0 := with_groups_file (Some G) st) in *.
    destruct (products_loop_spec W (processed_products st0) gids [] st0) as [Hr Hs].
    destruct (products_loop W (processed_products st0) gids [] st0) as [st2 r].
    cbn [fst snd] in Hr, Hs. subst r. cbn [app].
    destruct (products_tail_run G
                (newly_fetched W (processed_products st0)
                   (bool_decide (is_Some (products_file st0))) gids) st2)
      as (st' & p & Hrun & Hnd' & Hgf & _ & Hsame & Hnone).
    assert (processed_days st0 = processed_days st ∧ daily_prices st0 = daily_prices st
            ∧ daily st0 = daily st ∧ rollup st0 = rollup st ∧ journal st0 = journal st
            ∧ groups_file st0 = Some G ∧ products_file st0 = products_file st)
      as (?&?&?&?&?&?&Hpf0) by done.
    exists st', p. split; [done|]. split; [exact Hrun|]. destruct Hs as (?&?&Hpf&?&?&?&?).
    destruct Hsame as (?&?&?&?&?). split_and!; [congruence|done| |].
    + unfold same_prices. split_and!; congruence.
    + intros Hnew. destruct (Hnone Hnew) as [?|(old & Hold & ->)]; [by left|].
      right. exists old. split; [congruence|done].
Qed.

Lemma same_run_bind {A B} (m m' : M A) (k k' : A → M B) :
  same_run m m' → (∀ a, same_run (k a) (k' a)) → same_run (bind m k) (bind m' k').
Proof.
  intros Hm Hk st. unfold bind. rewrite (Hm st).
  destruct (m' st) as [st1 [a| |]]; [apply Hk|done..].
Qed.

Lemma same_run_refl {A} (m : M A) : same_run m m.
Proof. by intros st. Qed.

(** The loop over the groups sees the site through [fetched_frame] only. *)
Lemma products_loop_ext W W' processed gids :
  (∀ gid, fetched_frame W' gid = fetched_frame W gid) →
  ∀ acc, same_run (products_loop W' processed gids acc) (products_loop W processed gids acc).
Proof.
  intros Hsame. induction gids as [|gid rest IH]; intros acc st; [done|].
  rewrite !products_loop_cons, Hsame.
  destruct (_ && _); [apply IH|]. destruct (fetched_frame W gid); apply IH.
Qed.

Lemma build_products_and_groups_ext W W' :
  groups_response W' = groups_response W →
  (∀ gid, fetched_frame W' gid = fetched_frame W gid) →
  same_run (build_products_and_groups W') (build_products_and_groups W).
Proof.
  intros Hg Hf. unfold build_products_and_groups.
  apply same_run_bind; [apply same_run_refl|]. intros cached.
  apply same_run_bind.
  { destruct cached; [apply same_run_refl|]. rewrite Hg. apply same_run_refl. }
  intros groups_df. apply same_run_bind; [apply same_run_refl|]. intros processed.
  apply same_run_bind; [apply same_run_refl|]. intros gids.
  apply same_run_bind; [by apply products_loop_ext|]. intros all_products.
  apply same_run_refl.
Qed.

(** A products request that fails has the effect of an empty answer. *)
Lemma fetched_frame_failed W W' gid :
  products_response W' gid
  = match products_response W gid with Ok data => Ok data | _ => Ok [] end →
  fetched_frame W' gid = fetched_frame W gid.
Proof.
  intros Hresp. unfold fetched_frame, fetch_products_for_group. rewrite Hresp.
  by destruct (products_response W gid).
Qed.

Lemma build_products_and_groups_offline W st e :
  groups_file st = None → groups_response W = Raise e →
  build_products_and_groups W st = (st, Raise e).
Proof.
  intros Hg Hresp. unfold build_products_and_groups.
  unfold bind at 1, gets at 1. cbn beta iota. rewrite Hg.
  unfold bind at 1. unfold bind at 1, lift at 1. by rewrite Hresp.
Qed.

Lemma build_products_and_groups_no_column W st G :
  groups_file st = Some G → "group_id" ∉ pd.columns G →
  build_products_and_groups W st = (st, Raise (KeyError "group_id")).
Proof.
  intros Hg Hcol. unfold build_products_and_groups.
  unfold bind at 1, gets at 1. cbn beta iota. rewrite Hg.
  unfold bind at 1, ret at 1. cbn beta iota.
  unfold bind at 1, load_processed_products, gets at 1. cbn beta iota.
  unfold bind at 1, lift at 1. by rewrite unique_str_missing.
Qed.

(** Without a cache, the run goes on after the groups request only with a
    groups table that has unique labels and a [group_id] column. *)
Lemma build_products_and_groups_fetched W st st' res :
  groups_file st = None →
  build_products_and_groups W st = (st', Ok res) →
  ∃ G, groups_response W = Ok G ∧ NoDup (pd.columns G) ∧ "group_id" ∈ pd.columns G.
Proof.
  intros Hg. unfold build_products_and_groups.
  unfold bind at 1, gets at 1. cbn beta iota. rewrite Hg.
  unfold bind at 1. unfold bind at 1, lift at 1.
  destruct (groups_response W) as [G| |]; [|done..].
  unfold bind at 1, to_parquet_check. case_bool_decide as Hnd; [|done].
  unfold ret at 1, bind at 1, modify at 1, ret at 1. cbn beta iota.
  unfold bind at 1, load_processed_products, gets at 1. cbn beta iota.
  unfold bind at 1, lift at 1.
  destruct (decide ("group_id" ∈ pd.columns G)) as [Hcol|Hcol].
  - intros _. by exists G.
  - by rewrite unique_str_missing.
Qed.

(** X9. In [build_products_and_groups] a products request that fails has
    the effect of an empty answer: the run is the one that a site answering
    with no product, where this one fails, would give; no such failure ends
    the run.  When the run returns, it returns the groups table, cached or
    just fetched, with [group_id] renamed, and a products table without two
    equal rows, and the groups cache holds that groups table.  A failed
    groups request, without a cache, is raised and nothing is written; a
    cached groups table without [group_id] is a [KeyError]. *)
Theorem build_products_and_groups_returns (W : World) (st : BaseDir) :
  (∀ W',
     groups_response W' = groups_response W →
     (∀ gid, products_response W' gid
             = match products_response W gid with Ok data => Ok data | _ => Ok [] end) →
     build_products_and_groups W' st = build_products_and_groups W st)
  ∧ (∀ st' groups_df products_df,
       build_products_and_groups W st = (st', Ok (groups_df, products_df)) →
       ∃ G,
         (groups_file st = Some G ∨ (groups_file st = None ∧ groups_response W = Ok G))
         ∧ "group_id" ∈ pd.columns G
         ∧ groups_df = pd.rename "group_id" "groupid" G
         ∧ groups_file st' = Some G
         ∧ NoDup (pd.rows products_df))
  ∧ (∀ e, groups_file st = None → groups_response W = Raise e →
       build_products_and_groups W st = (st, Raise e))
  ∧ (∀ G, groups_file st = Some G → "group_id" ∉ pd.columns G →
       build_products_and_groups W st = (st, Raise (KeyError "group_id"))).
Proof.
  split_and!.
  - intros W' Hg Hresp. apply build_products_and_groups_ext; [done|].
    intros gid. by apply fetched_frame_failed.
  - intros st' groups_df products_df Hrun.
    assert (∃ G,
      (groups_file st = Some G
       ∨ (groups_file st = None ∧ groups_response W = Ok G ∧ NoDup (pd.columns G)))
      ∧ "group_id" ∈ pd.columns G) as (G & HG & Hcol).
    { destruct (groups_file st) as [G|] eqn:Hg.
      - exists G. split; [by left|].
        destruct (decide ("group_id" ∈ pd.columns G)) as [?|Hcol]; [done|].
        by rewrite (build_products_and_groups_no_column W st G Hg Hcol) in Hrun.
      - destruct (build_products_and_groups_fetched W st st' _ Hg Hrun)
          as (G & Hresp & Hnd & Hcol).
        exists G. split; [by right|done]. }
    destruct (build_products_and_groups_run W st G HG Hcol)
      as (gids & st'' & p & _ & Hrun' & Hgf & Hnd & _).
    rewrite Hrun' in Hrun. injection Hrun as <- <- <-.
    exists G. split_and!; try done.
    destruct HG as [?|(? & ? & _)]; [by left|by right].
  - intros e. apply build_products_and_groups_offline.
  - intros G. apply build_products_and_groups_no_column.
Qed.

(** The site of the examples fails for every group but 604; the run is the
    one of a site that answers with no product for them. *)
Lemma build_products_and_groups_returns_witness :
  ∃ st' products_df,
    build_products_and_groups Sample.world Sample.fresh
    = (st', Ok (pd.rename "group_id" "groupid" Sample.groups, products_df))
    ∧ groups_file st' = Some Sample.groups
    ∧ NoDup (pd.rows products_df)
    ∧ build_products_and_groups Sample.patient Sample.fresh
      = build_products_and_groups Sample.world Sample.fresh.
Proof.
  destruct (build_products_and_groups_returns Sample.world Sample.fresh)
    as (Hsame & Hret & _).
  remember (build_products_and_groups Sample.world Sample.fresh) as run eqn:Hm.
  assert (match run with (_, Ok _) => True | _ => False end) as Hok
    by (rewrite Hm; vm_compute; exact I).
  destruct run as [st' [[g p]| |]]; [|destruct Hok..].
  destruct (Hret st' g p eq_refl) as (G & HG & _ & -> & Hgf & Hnd).
  assert (G = Sample.groups) as ->.
  { destruct HG as [HG|[_ HG]]; [discriminate HG|]. by injection HG as <-. }
  exists st', p. split_and!; [reflexivity|exact Hgf|exact Hnd|].
  apply Hsame; [reflexivity|]. intros gid. unfold Sample.patient, Sample.world.
  cbn [products_response]. by case_bool_decide.
Defined.

Lemma marked_groups_fetched W processed cached gids gid :
  gid ∈ marked_groups W processed cached gids →
  gid ∈ gids
  ∧ ¬ (gid ∈ processed ∧ cached = true)
  ∧ ∃ df, fetch_products_for_group W gid = Ok df ∧ pd.empty df = false.
Proof.
  unfold marked_groups. intros Hin. apply list_elem_of_filter in Hin as [[f Hf] Hin].
  apply list_elem_of_filter in Hin as [Hskip Hin]. split_and!; [done|done|].
  unfold fetched_frame in Hf. destruct (fetch_products_for_group W gid) as [df| |]; [|done..].
  exists df. split; [done|]. by destruct (pd.empty df).
Qed.

(** X10. When [build_products_and_groups] returns, the tracking file of the
    groups has grown by exactly the groups it fetched with at least one
    product, in the order of the groups table.  A group whose request failed
    or gave no product is not marked, so that a later run asks for it again;
    the days' tracking file, the partitions and the rollup are untouched. *)
Theorem build_products_and_groups_marks (W : World) (st st' : BaseDir)
    (groups_df products_df : pd.DataFrame) :
  build_products_and_groups W st = (st', Ok (groups_df, products_df)) →
  ∃ G gids,
    groups_file st' = Some G
    ∧ pd.unique_str "group_id" G = Ok gids
    ∧ processed_products st'
      = processed_products st
        ++ marked_groups W (processed_products st)
             (bool_decide (is_Some (products_file st))) gids
    ∧ (∀ gid,
         gid ∈ marked_groups W (processed_products st)
                 (bool_decide (is_Some (products_file st))) gids →
         gid ∈ gids
         ∧ ∃ df, fetch_products_for_group W gid = Ok df ∧ pd.empty df = false)
    ∧ same_prices st st'.
Proof.
  intros H. unfold build_products_and_groups in H.
  unfold bind at 1, gets at 1 in H. cbn beta iota in H.
  assert (∀ G gids (st0 : BaseDir),
    processed_products st0 = processed_products st →
    products_file st0 = products_file st →
    groups_file st0 = Some G →
    same_prices st st0 →
    pd.unique_str "group_id" G = Ok gids →
    bind (products_loop W (processed_products st0) gids [])
      (λ all_products,
         bind (gets products_file)
           (λ old : option pd.DataFrame,
              bind
                match all_products with
                | [] => ret match old with Some df => df | None => pd.empty_frame end
                | _ :: _ =>
                    bind (lift (pd.concat all_products))
                      (λ new_products_df : pd.DataFrame,
                         bind
                           match old with
                           | Some old_products_df =>
                               lift (pd.concat [old_products_df; new_products_df])
                           | None => ret new_products_df
                           end
                           (λ products_df : pd.DataFrame,
                              bind (modify (with_products_file (Some products_df)))
                                (λ _ : (), ret products_df)))
                end
                (λ products_df : pd.DataFrame,
                   ret (pd.rename "group_id" "groupid" G,
                        pd.drop_duplicates (pd.rename "group_id" "groupid" products_df)))))
      st0 = (st', Ok (groups_df, products_df)) →
    groups_file st' = Some G
    ∧ processed_products st'
      = processed_products st
        ++ marked_groups W (processed_products st)
             (bool_decide (is_Some (products_file st))) gids
    ∧ same_prices st st') as Hrest.
  { intros G gids st0 Hpp Hpf Hgf Hsame Hgids. unfold bind at 1.
    pose proof (products_loop_marks W (processed_products st0) gids [] st0) as Hmarks.
    destruct (products_loop_spec W (processed_products st0) gids [] st0) as [Hr Hs].
    destruct (products_loop W (processed_products st0) gids [] st0) as [st2 r].
    cbn [fst snd] in Hr, Hs, Hmarks. subst r. cbn [app].
    destruct (products_tail_run G
                (newly_fetched W (processed_products st0)
                   (bool_decide (is_Some (products_file st0))) gids) st2)
      as (st3 & p & Hrun & _ & Hgf3 & Hpp3 & Hsame3 & _).
    rewrite Hrun. intros [= <- _ _].
    destruct Hs as (?&?&?&?&?&?&?). destruct Hsame as (?&?&?&?&?).
    destruct Hsame3 as (?&?&?&?&?).
    split_and!; [congruence| |unfold same_prices; split_and!; congruence].
    rewrite Hpp3, Hmarks, Hpp, Hpf. done. }
  destruct (groups_file st) as [G|] eqn:Hg.
  - unfold bind at 1, ret at 1 in H. cbn beta iota in H.
    unfold bind at 1, load_processed_products, gets at 1 in H. cbn beta iota in H.
    unfold bind at 1, lift at 1 in H. cbn beta iota in H.
    destruct (pd.unique_str "group_id" G) as [gids| |] eqn:Hgids; [|done..].
    destruct (Hrest G gids st) as (H1 & H2 & H3); try done.
    exists G, gids. split_and!; try done.
    intros gid Hgid. by destruct (marked_groups_fetched _ _ _ _ _ Hgid) as (? & _ & ?).
  - unfold bind at 1 in H. unfold bind at 1, lift at 1 in H.
    destruct (groups_response W) as [G| |] eqn:Hresp; [|done..].
    unfold bind at 1, to_parquet_check in H.
    destruct (bool_decide (NoDup (pd.columns G))); [|done].
    unfold ret at 1, bind at 1, modify at 1, ret at 1 in H. cbn beta iota in H.
    unfold bind at 1, load_processed_products, gets at 1 in H. cbn beta iota in H.
    unfold bind at 1, lift at 1 in H. cbn beta iota in H.
    destruct (pd.unique_str "group_id" G) as [gids| |] eqn:Hgids; [|done..].
    destruct (Hrest G gids (with_groups_file (Some G) st)) as (H1 & H2 & H3); try done.
    exists G, gids. split_and!; try done.
    intros gid Hgid. by destruct (marked_groups_fetched _ _ _ _ _ Hgid) as (? & _ & ?).
Qed.

Lemma build_products_and_groups_marks_witness :
  processed_products (build_products_and_groups Sample.world Sample.fresh).1 = ["604"].
Proof.
  set (run := build_products_and_groups Sample.world Sample.fresh).
  assert (∃ g p, run = (run.1, Ok (g, p))) as (g & p & Hrun).
  { exists (pd.rename "group_id" "groupid" Sample.groups),
      (pd.mkDF ["product_id"; "name"; "groupid"; "modified_on"; "number"; "attack_1";
                "attack_2"]
         [Sample.row [("product_id", pd.CInt 1); ("name", pd.CStr "Pikachu");
                      ("groupid", pd.CStr "604"); ("modified_on", pd.CStr "t2");
                      ("number", pd.CStr "025"); ("attack_1", pd.CStr "Gnaw");
                      ("attack_2", pd.CStr "Thunder Jolt")]]).
    apply (bool_decide_unpack _). vm_compute. exact I. }
  destruct (build_products_and_groups_marks Sample.world Sample.fresh run.1 g p Hrun)
    as (G & gids & HG & Hgids & Hpp & _).
  assert (groups_file run.1 = Some Sample.groups) as HG' by reflexivity.
  rewrite HG in HG'. injection HG' as ->. injection Hgids as <-. rewrite Hpp.
  apply (bool_decide_unpack _). vm_compute. exact I.
Defined.

(** ** More on the merge of a day *)

Section keep_first_more.
Context {A K : Type} `{EqDecision K} (key : A → K).

Lemma keep_first_from_fmap seen l :
  key <$> keep_first_from key seen l = keep_first_from id seen (key <$> l).
Proof.
  revert seen. induction l as [|x l IH]; intros seen; [done|]. cbn.
  destruct (decide (key x ∈ seen)); [apply IH|]. cbn. by rewrite IH.
Qed.

Lemma keep_first_from_seen seen l :
  (∀ x, x ∈ l → key x ∈ seen) → keep_first_from key seen l = [].
Proof.
  induction l as [|x l IH]; intros Hseen; [done|]. cbn.
  rewrite decide_True by (apply Hseen; by left). apply IH.
  intros y Hy. apply Hseen. by right.
Qed.

(** Removing duplicates a second time, after appending rows already met,
    changes nothing. *)
Lemma keep_first_again l1 l2 :
  (∀ x, x ∈ l2 → key x ∈ key <$> l1) →
  keep_first key (keep_first key l1 ++ l2) = keep_first key l1.
Proof.
  intros Hl2. rewrite keep_first_app.
  rewrite (keep_first_id key (keep_first key l1)) by apply keep_first_NoDup.
  rewrite keep_first_from_seen; [by rewrite app_nil_r|].
  intros x Hx. apply Hl2, list_elem_of_fmap in Hx as (y & Hxy & Hy).
  destruct (keep_first_from_key key [] l1 y Hy) as [Hnil|Hk]; [by apply elem_of_nil in Hnil|].
  by rewrite Hxy.
Qed.
End keep_first_more.

Lemma keep_first_from_cons {K} `{EqDecision K} (seen : list K) x l :
  keep_first_from id seen (x :: l)
  = if decide (x ∈ seen) then keep_first_from id seen l
    else x :: keep_first_from id (x :: seen) l.
Proof. reflexivity. Qed.

Lemma keep_first_from_block {K} `{EqDecision K} (k : K) (b t seen : list K) :
  b ≠ [] → (∀ y, y ∈ b → y = k) →
  keep_first_from id seen (b ++ t) = keep_first_from id seen (k :: t).
Proof.
  revert seen. induction b as [|y b IH]; intros seen Hne Hall; [done|].
  assert (y = k) as -> by (apply Hall; by left).
  destruct b as [|z b]; [done|].
  assert (∀ y, y ∈ z :: b → y = k) as Hall' by (intros y' Hy'; apply Hall; by right).
  change ((k :: z :: b) ++ t) with (k :: ((z :: b) ++ t)).
  rewrite !(keep_first_from_cons seen k).
  destruct (decide (k ∈ seen)) as [Hin|Hnotin].
  - rewrite IH by done. rewrite keep_first_from_cons. by rewrite decide_True.
  - rewrite IH by done. rewrite keep_first_from_cons. rewrite decide_True by by left. done.
Qed.

Lemma keep_first_blocks {A B K} `{EqDecision K} (key : B → K) (key' : A → K)
    (f : A → list B) (l : list A) : ∀ seen,
  (∀ x, x ∈ l → f x ≠ [] ∧ ∀ y, y ∈ f x → key y = key' x) →
  keep_first_from id seen (key <$> (l ≫= f)) = keep_first_from id seen (key' <$> l).
Proof.
  induction l as [|x l IH]; intros seen Hf; [done|].
  rewrite bind_cons, fmap_app.
  destruct (Hf x) as [Hne Hkey]; [by left|].
  rewrite (keep_first_from_block (key' x)).
  - rewrite fmap_cons, !keep_first_from_cons.
    assert (∀ seen', keep_first_from id seen' (key <$> (l ≫= f))
                     = keep_first_from id seen' (key' <$> l)) as IH'.
    { intros seen'. apply IH. intros y Hy. apply Hf. by right. }
    destruct (decide (key' x ∈ seen)); by rewrite IH'.
  - destruct (f x); [done|]. done.
  - intros y Hy. apply list_elem_of_fmap in Hy as (b & -> & Hb). by apply Hkey.
Qed.

Lemma left_label_id left right on c :
  c ∈ on ∨ c ∉ pd.columns right → pd.left_label left right on c = c.
Proof.
  intros Hc. unfold pd.left_label, pd.shared. rewrite bool_decide_eq_false_2; [done|].
  intros (_ & ? & ?). by destruct Hc.
Qed.

Lemma relabel_left_lookup left right on (l : gmap string pd.cell) c :
  NoDup (pd.left_label left right on <$> pd.columns left) →
  map_Forall (λ c _, c ∈ pd.columns left) l →
  c ∈ pd.columns left →
  pd.relabel (pd.left_label left right on) l !! pd.left_label left right on c = l !! c.
Proof.
  intros Hnd Hwf Hc.
  assert (∀ k1 k2, k1 ∈ pd.columns left → k2 ∈ pd.columns left →
            pd.left_label left right on k1 = pd.left_label left right on k2 → k1 = k2)
    as Hinj.
  { intros k1 k2 Hc1 Hc2 Heq.
    apply list_elem_of_lookup in Hc1 as (i1 & Hi1).
    apply list_elem_of_lookup in Hc2 as (i2 & Hi2).
    assert (i1 = i2) as ->; [|congruence].
    eapply (NoDup_lookup _ i1 i2 _ Hnd); rewrite list_lookup_fmap.
    - by rewrite Hi1.
    - rewrite Hi2. cbn. by rewrite Heq. }
  destruct (l !! c) as [v|] eqn:Hl.
  - apply relabel_lookup; [|done]. intros k1 k2 [v1 H1] [v2 H2].
    apply Hinj; [by apply (Hwf k1 v1)|by apply (Hwf k2 v2)].
  - destruct (pd.relabel _ l !! _) as [v|] eqn:Hr; [|done].
    apply relabel_lookup_inv in Hr as (k0 & Heq & Hk0).
    apply Hinj in Heq; [congruence|by apply (Hwf k0 v)|done].
Qed.

Lemma join_row_from left right on (l m : gmap string pd.cell) :
  NoDup (pd.merged_columns left right on) →
  map_Forall (λ c _, c ∈ pd.columns left) l →
  Forall (λ r : gmap string pd.cell, map_Forall (λ c _, c ∈ pd.columns right) r)
    (pd.rows right) →
  m ∈ pd.join_row left right on l →
  (∀ c, c ∈ pd.columns left → m !! pd.left_label left right on c = l !! c)
  ∧ joined_from left right on l m.
Proof.
  intros Hnd Hwf Hwfr Hm. unfold pd.merged_columns in Hnd.
  apply NoDup_app in Hnd as (Hndl & Hdisj & Hndr).
  assert (∀ r k v, r ∈ pd.rows right →
            (filter (λ kv : string * pd.cell, kv.1 ∉ on) r : gmap string pd.cell) !! k = Some v →
            r !! k = Some v ∧ (k ∉ on) ∧ k ∈ pd.columns right
            ∧ pd.right_label left right on k ∈ pd.right_labels left right on) as Hright.
  { intros r k v Hr Hk. apply map_lookup_filter_Some in Hk as [Hk Hon]. cbn in Hon.
    rewrite Forall_forall in Hwfr. pose proof (Hwfr r Hr k v Hk) as Hc. cbn in Hc.
    split_and!; try done. unfold pd.right_labels. apply list_elem_of_fmap_2.
    by apply list_elem_of_filter. }
  assert (∀ c, c ∈ pd.columns left →
            ∀ r, r ∈ pd.rows right →
            pd.relabel (pd.right_label left right on)
              (filter (λ kv : string * pd.cell, kv.1 ∉ on) r)
              !! pd.left_label left right on c = None) as Hnone.
  { intros c Hc r Hr.
    destruct (pd.relabel _ _ !! _) as [v|] eqn:Hlook; [|done]. exfalso.
    apply relabel_lookup_inv in Hlook as (k0 & Heq & Hk0).
    apply Hright in Hk0 as (_ & _ & _ & Hlab); [|done].
    apply (Hdisj (pd.left_label left right on c)); [by apply list_elem_of_fmap_2|].
    by rewrite <- Heq. }
  assert (∀ c, c ∈ pd.columns left →
            pd.relabel (pd.left_label left right on) l !! pd.left_label left right on c
            = l !! c) as Hleft.
  { intros c Hc. by apply relabel_left_lookup. }
  unfold pd.join_row in Hm. destruct (pd.matches right on l) as [|r0 ms] eqn:Hmatch.
  - apply list_elem_of_singleton in Hm as ->. split; [done|]. split; [|by left].
    intros c v Hc. rewrite Hleft; [done|]. by apply (Hwf c v).
  - apply list_elem_of_fmap in Hm as (r & -> & Hrin).
    assert (r ∈ pd.rows right) as Hr.
    { rewrite <- Hmatch in Hrin. unfold pd.matches in Hrin.
      by apply list_elem_of_filter in Hrin as [_ ?]. }
    assert (∀ c, c ∈ pd.columns left →
              (pd.relabel (pd.left_label left right on) l
               ∪ pd.relabel (pd.right_label left right on)
                   (filter (λ kv : string * pd.cell, kv.1 ∉ on) r))
                !! pd.left_label left right on c = l !! c) as Hboth.
    { intros c Hc. destruct (l !! c) as [v|] eqn:Hl.
      - apply lookup_union_Some_l. by rewrite Hleft.
      - apply lookup_union_None. split; [by rewrite Hleft|by apply Hnone]. }
    split; [done|]. split.
    + intros c v Hc. rewrite Hboth; [done|]. by apply (Hwf c v).
    + right. exists r. split; [by rewrite Hmatch|]. intros c v Hc Hon.
      rewrite Forall_forall in Hwfr. pose proof (Hwfr r Hr c v Hc) as Hcol. cbn in Hcol.
      assert (pd.relabel (pd.left_label left right on) l
                !! pd.right_label left right on c = None) as Hl.
      { destruct (pd.relabel _ l !! _) as [v'|] eqn:Hlook; [|done]. exfalso.
        apply relabel_lookup_inv in Hlook as (k0 & Heq & Hk0).
        apply (Hdisj (pd.left_label left right on k0)).
        - apply list_elem_of_fmap_2. by apply (Hwf k0 v').
        - rewrite Heq. unfold pd.right_labels. apply list_elem_of_fmap_2.
          by apply list_elem_of_filter. }
      rewrite lookup_union_r by done.
      apply relabel_lookup.
      * intros k1 k2 [v1 H1] [v2 H2] Heq.
        apply Hright in H1 as (_ & Hon1 & Hc1 & _); [|done].
        apply Hright in H2 as (_ & Hon2 & Hc2 & _); [|done].
        assert (k1 ∈ filter (λ c, c ∉ on) (pd.columns right)) as Hf1
          by by apply list_elem_of_filter.
        assert (k2 ∈ filter (λ c, c ∉ on) (pd.columns right)) as Hf2
          by by apply list_elem_of_filter.
        apply list_elem_of_lookup in Hf1 as (i1 & Hi1).
        apply list_elem_of_lookup in Hf2 as (i2 & Hi2).
        assert (i1 = i2) as ->; [|congruence].
        eapply (NoDup_lookup _ i1 i2 _ Hndr); unfold pd.right_labels;
          rewrite list_lookup_fmap.
        -- by rewrite Hi1.
        -- rewrite Hi2. cbn. by rewrite Heq.
      * by apply map_lookup_filter_Some_2.
Qed.

Lemma merge_left_from left right on joined :
  pd.merge_left left right on = Ok joined →
  pd.wf left → pd.wf right →
  pd.rows joined = pd.rows left ≫= pd.join_row left right on
  ∧ ∀ l m, l ∈ pd.rows left → m ∈ pd.join_row left right on l →
      (∀ c, c ∈ pd.columns left → m !! pd.left_label left right on c = l !! c)
      ∧ joined_from left right on l m.
Proof.
  intros Hm [_ Hwfl] [_ Hwfr]. apply merge_left_ok in Hm as [Hnd ->]. split; [done|].
  intros l m Hl Hm. rewrite Forall_forall in Hwfl. by apply join_row_from; [|apply Hwfl|..].
Qed.

(** X11. No row of an enriched partition is invented: when the merge of a
    day succeeds on well-formed frames, each row of the enriched partition
    is a row after the two joins, each of those comes from a row after the
    first join and a row of the groups, if one has its [groupid], and each
    of those from a raw row and a row of the products, if one has its
    [groupid] and [product_id]. *)
Theorem merge_day_sound (day_prices products_df groups_df enriched : pd.DataFrame) :
  pd.wf day_prices → pd.wf products_df → pd.wf groups_df →
  merge_day day_prices products_df groups_df = Ok enriched →
  ∃ j1 j2,
    pd.merge_left day_prices products_df ["groupid"; "product_id"] = Ok j1
    ∧ pd.merge_left j1 groups_df ["groupid"] = Ok j2
    ∧ (∀ e, e ∈ pd.rows enriched → e ∈ pd.rows j2)
    ∧ (∀ m2, m2 ∈ pd.rows j2 →
         ∃ m1, m1 ∈ pd.rows j1 ∧ joined_from j1 groups_df ["groupid"] m1 m2)
    ∧ (∀ m1, m1 ∈ pd.rows j1 →
         ∃ l, l ∈ pd.rows day_prices
              ∧ joined_from day_prices products_df ["groupid"; "product_id"] l m1)
    ∧ (pd.len enriched ≤ pd.len j2)%nat.
Proof.
  intros Hwf1 Hwf2 Hwf3. unfold merge_day.
  destruct (pd.merge_left day_prices products_df _) as [j1| |] eqn:H1; [|done..].
  cbn [rbind]. destruct (pd.merge_left j1 groups_df _) as [j2| |] eqn:H2; [|done..].
  cbn [rbind]. intros Hd. exists j1, j2.
  assert (pd.wf j1) as Hwfj by (destruct Hwf1, Hwf2; by eapply merge_left_rows_wf).
  destruct (merge_left_from _ _ _ _ H1 Hwf1 Hwf2) as [Hrows1 Hfrom1].
  destruct (merge_left_from _ _ _ _ H2 Hwfj Hwf3) as [Hrows2 Hfrom2].
  apply drop_duplicates_subset_ok in Hd as [_ Hrows].
  split_and!; try done.
  - intros e He. rewrite Hrows in He.
    by apply keep_first_from_elem in He as [He _].
  - intros m2 Hm2. rewrite Hrows2 in Hm2. apply list_elem_of_bind in Hm2 as (m1 & Hm2 & Hm1).
    exists m1. split; [done|]. by apply Hfrom2.
  - intros m1 Hm1. rewrite Hrows1 in Hm1. apply list_elem_of_bind in Hm1 as (l & Hm1 & Hl).
    exists l. split; [done|]. by apply Hfrom1.
  - unfold pd.len. rewrite Hrows. apply keep_first_from_length.
Qed.

Lemma key_of_ext subset (m l : gmap string pd.cell) :
  (∀ c, c ∈ subset → m !! c = l !! c) → pd.key_of subset m = pd.key_of subset l.
Proof. intros H. unfold pd.key_of. apply Forall_fmap_ext_1, Forall_forall. exact H. Qed.

Lemma merge_left_keeps_key left right on joined (subset : list string) :
  pd.merge_left left right on = Ok joined →
  pd.wf left → pd.wf right →
  (∀ c, c ∈ subset → c ∈ pd.columns left) →
  (∀ c, c ∈ subset → c ∈ on ∨ c ∉ pd.columns right) →
  (∀ c, c ∈ subset → c ∈ pd.columns joined)
  ∧ keep_first id (pd.key_of subset <$> pd.rows joined)
    = keep_first id (pd.key_of subset <$> pd.rows left).
Proof.
  intros Hm Hwfl Hwfr Hcols Hfree.
  destruct (merge_left_from _ _ _ _ Hm Hwfl Hwfr) as [Hrows Hfrom].
  split.
  - intros c Hc. apply merge_left_ok in Hm as [_ ->]. cbn [pd.columns].
    unfold pd.merged_columns. apply elem_of_app. left.
    rewrite <- (left_label_id left right on c) by by apply Hfree.
    apply list_elem_of_fmap_2. by apply Hcols.
  - rewrite Hrows. unfold keep_first. apply keep_first_blocks.
    intros l Hl. split; [apply join_row_nonempty|].
    intros m Hin. destruct (Hfrom l m Hl Hin) as [Hleft _].
    apply key_of_ext. intros c Hc.
    rewrite <- (left_label_id left right on c) at 1 by by apply Hfree.
    apply Hleft. by apply Hcols.
Qed.

(** X12. When the raw partition has the three key columns, neither
    dimension table has a [date] or [sub_type_name] column and the groups
    table has no [product_id] column, a merge that succeeds keeps the keys:
    the keys of the enriched partition are the distinct keys of the raw
    partition, in the order of their first rows.  A raw partition without
    two rows of the same key gives an enriched partition with as many rows,
    however many rows of the dimension tables match. *)
Theorem merge_day_keys (day_prices products_df groups_df enriched : pd.DataFrame) :
  pd.wf day_prices → pd.wf products_df → pd.wf groups_df →
  (∀ c, c ∈ KEY → c ∈ pd.columns day_prices) →
  "date" ∉ pd.columns products_df → "sub_type_name" ∉ pd.columns products_df →
  (∀ c, c ∈ KEY → c ∉ pd.columns groups_df) →
  merge_day day_prices products_df groups_df = Ok enriched →
  pd.key_of KEY <$> pd.rows enriched
  = keep_first id (pd.key_of KEY <$> pd.rows day_prices)
  ∧ (unique_keys day_prices → pd.len enriched = pd.len day_prices).
Proof.
  intros Hwf1 Hwf2 Hwf3 Hcols Hdate Hsub Hgroups. unfold merge_day.
  destruct (pd.merge_left day_prices products_df _) as [j1| |] eqn:H1; [|done..].
  cbn [rbind]. destruct (pd.merge_left j1 groups_df _) as [j2| |] eqn:H2; [|done..].
  cbn [rbind]. intros Hd.
  assert (pd.wf j1) as Hwfj by (destruct Hwf1, Hwf2; by eapply merge_left_rows_wf).
  destruct (merge_left_keeps_key _ _ _ _ KEY H1 Hwf1 Hwf2 Hcols) as [Hcols1 Hkeys1].
  { intros c Hc. unfold KEY in Hc. rewrite !elem_of_cons, elem_of_nil in Hc.
    destruct Hc as [->|[->|[->|[]]]]; [left; set_solver|by right|by right]. }
  destruct (merge_left_keeps_key _ _ _ _ KEY H2 Hwfj Hwf3 Hcols1) as [_ Hkeys2].
  { intros c Hc. right. by apply Hgroups. }
  apply drop_duplicates_subset_ok in Hd as [_ Hrows].
  assert (pd.key_of KEY <$> pd.rows enriched
          = keep_first id (pd.key_of KEY <$> pd.rows day_prices)) as Hkeys.
  { rewrite Hrows. unfold keep_first at 1. rewrite keep_first_from_fmap.
    fold (keep_first id (pd.key_of KEY <$> pd.rows j2)). by rewrite Hkeys2, Hkeys1. }
  split; [done|]. intros Hu. unfold pd.len.
  rewrite <- (length_fmap (pd.key_of KEY) (pd.rows enriched)), Hkeys.
  rewrite keep_first_id; [by rewrite length_fmap|]. by rewrite list_fmap_id.
Qed.

Lemma merge_day_keys_witness :
  ∃ enriched,
    merge_day Sample.raw_day (pd.drop PRUNE_COLS Sample.products_dim)
      (pd.drop PRUNE_COLS Sample.groups_dim) = Ok enriched
    ∧ pd.len enriched = 3%nat.
Proof.
  set (products := pd.drop PRUNE_COLS Sample.products_dim).
  set (groups := pd.drop PRUNE_COLS Sample.groups_dim).
  remember (merge_day Sample.raw_day products groups) as run eqn:Hm.
  assert (match run with Ok _ => True | _ => False end) as Hok.
  { rewrite Hm. vm_compute. exact I. }
  destruct run as [enriched| |]; [|destruct Hok..]. symmetry in Hm.
  exists enriched. split; [reflexivity|].
  assert (∀ P : string → Prop,
            P "product_id" → P "date" → P "sub_type_name" → ∀ c, c ∈ KEY → P c) as Hkey.
  { intros P ? ? ? c Hc. unfold KEY in Hc. rewrite !elem_of_cons, elem_of_nil in Hc.
    destruct Hc as [->|[->|[->|[]]]]; done. }
  destruct (merge_day_keys Sample.raw_day products groups enriched) as [_ Hlen].
  - apply (bool_decide_unpack _). vm_compute. exact I.
  - apply (bool_decide_unpack _). vm_compute. exact I.
  - apply (bool_decide_unpack _). vm_compute. exact I.
  - apply Hkey; apply (bool_decide_unpack _); vm_compute; exact I.
  - apply (bool_decide_unpack _). vm_compute. exact I.
  - apply (bool_decide_unpack _). vm_compute. exact I.
  - apply Hkey; apply (bool_decide_unpack _); vm_compute; exact I.
  - exact Hm.
  - apply Hlen. apply (bool_decide_unpack _). vm_compute. exact I.
Defined.

Lemma merge_day_sound_witness :
  ∃ enriched j2,
    merge_day Sample.raw_day Sample.products_dim Sample.groups_dim = Ok enriched
    ∧ (pd.len enriched ≤ pd.len j2)%nat.
Proof.
  remember (merge_day Sample.raw_day Sample.products_dim Sample.groups_dim) as run eqn:Hm.
  assert (match run with Ok _ => True | _ => False end) as Hok.
  { rewrite Hm. vm_compute. exact I. }
  destruct run as [enriched| |]; [|destruct Hok..]. symmetry in Hm.
  destruct (merge_day_sound Sample.raw_day Sample.products_dim Sample.groups_dim enriched)
    as (j1 & j2 & _ & _ & _ & _ & _ & Hlen);
    try exact Hm; try (apply (bool_decide_unpack _); vm_compute; exact I).
  exists enriched, j2. split; [reflexivity|exact Hlen].
Defined.

(** ** More on the retention pruner *)

Lemma pruned_partitions_slice (keep_days : Z) (st : BaseDir) :
  raw_partitions (prune_old_daily_prices keep_days st).1
  ≡ₚ slice_to keep_days (sorted_desc partition_key (raw_partitions st)).
Proof.
  unfold prune_old_daily_prices, bind, gets. simpl.
  fold (raw_partitions st).
  destruct (raw_partitions st) as [|p0 ps] eqn:Hparts.
  { simpl. fold (raw_partitions st). rewrite Hparts. unfold slice_to. simpl.
    destruct (0 <=? keep_days); by rewrite take_nil. }
  rewrite <- Hparts. clear p0 ps Hparts. simpl.
  set (sorted := sorted_desc (λ p : string * RawEntry, Str.after_last_eq p.1) (raw_partitions st)).
  assert (∃ n, slice_to keep_days sorted = take n sorted) as (n & Hn).
  { unfold slice_to. destruct (0 <=? keep_days); by eexists. }
  fold (partition_key). change (sorted_desc partition_key (raw_partitions st)) with sorted.
  rewrite Hn.
  set (keep := take n sorted).
  set (delete := filter (λ p : string * RawEntry, p.1 ∉ keep.*1) sorted).
  unfold raw_partitions at 1. simpl.
  rewrite map_to_list_filter_perm.
  rewrite filter_comm.
  fold (raw_partitions st).
  assert (sorted ≡ₚ raw_partitions st) as Hperm by apply sorted_desc_perm.
  transitivity (filter (λ p : string * RawEntry, p.1 ∉ delete.*1) sorted);
    [by apply filter_Permutation|].
  assert (NoDup sorted.*1) as Hnd.
  { rewrite Hperm. apply raw_partitions_NoDup. }
  rewrite (filter_iff_in _ (λ p : string * RawEntry, p.1 ∈ keep.*1)).
  - subst keep. by rewrite (filter_names_take sorted n Hnd).
  - intros p Hp. by apply (prune_names sorted n).
Qed.

(** X13. A negative [keep_days] is not refused: with [keep_days = -n] the
    pruner removes the [n] oldest raw partitions, all of them when there are
    no more than [n], and keeps the others. *)
Theorem prune_negative_keep_days (keep_days : Z) (st : BaseDir) :
  keep_days < 0 →
  let st' := (prune_old_daily_prices keep_days st).1 in
  let n := Z.to_nat (- keep_days) in
  raw_partitions st'
  ≡ₚ take (List.length (raw_partitions st) - n)
       (sorted_desc partition_key (raw_partitions st))
  ∧ List.length (raw_partitions st') = (List.length (raw_partitions st) - n)%nat.
Proof.
  intros HK st' n.
  assert (raw_partitions st'
          ≡ₚ take (List.length (raw_partitions st) - n)
               (sorted_desc partition_key (raw_partitions st))) as Hperm.
  { subst st'. rewrite pruned_partitions_slice. unfold slice_to.
    destruct (Z.leb_spec 0 keep_days); [lia|].
    rewrite (Permutation_length (sorted_desc_perm partition_key (raw_partitions st))).
    replace (Z.to_nat (Z.of_nat (List.length (raw_partitions st)) + keep_days))
      with (List.length (raw_partitions st) - n)%nat by lia.
    done. }
  split; [done|]. rewrite Hperm, length_take.
  rewrite (Permutation_length (sorted_desc_perm partition_key (raw_partitions st))). lia.
Qed.

Lemma prune_negative_keep_days_witness :
  List.length (raw_partitions (prune_old_daily_prices (-2) Sample.nine_raw).1) = 7%nat.
Proof.
  destruct (prune_negative_keep_days (-2) Sample.nine_raw) as [_ Hlen]; [lia|].
  rewrite Hlen. vm_compute. reflexivity.
Defined.

Lemma filter_none {A} (P : A → Prop) `{!∀ x, Decision (P x)} (l : list A) :
  (∀ x, x ∈ l → ¬ P x) → filter P l = [].
Proof.
  induction l as [|x l IH]; intros Hl; [done|].
  rewrite filter_cons, decide_False by (apply Hl; by left).
  apply IH. intros y Hy. apply Hl. by right.
Qed.

Lemma prune_nothing (keep_days : Z) (st : BaseDir) :
  0 ≤ keep_days →
  Z.of_nat (List.length (raw_partitions st)) ≤ keep_days →
  prune_old_daily_prices keep_days st = (st, Ok tt).
Proof.
  intros HK Hlen. unfold prune_old_daily_prices, bind, gets. cbn beta iota.
  fold (raw_partitions st).
  destruct (raw_partitions st) as [|p0 ps] eqn:Hparts; [done|].
  rewrite <- Hparts in *. clear p0 ps Hparts.
  set (sorted := sorted_desc (λ p : string * RawEntry, Str.after_last_eq p.1) (raw_partitions st)).
  assert (List.length sorted = List.length (raw_partitions st)) as Hl.
  { apply Permutation_length, sorted_desc_perm. }
  assert (slice_to keep_days sorted = sorted) as ->.
  { unfold slice_to. destruct (Z.leb_spec 0 keep_days); [|lia]. apply take_ge. lia. }
  assert (filter (λ p : string * RawEntry, p.1 ∉ sorted.*1) sorted = []) as ->.
  { apply filter_none. intros p Hp Hn. apply Hn. by apply list_elem_of_fmap_2. }
  unfold modify, with_daily_prices. cbn. f_equal.
  destruct st. cbn. f_equal. apply map_filter_id. intros i x _. cbn. apply not_elem_of_nil.
Qed.

(** X14. With [keep_days] at least 0 pruning is idempotent: a second run
    right after the first returns and leaves the base directory as the
    first left it. *)
Theorem prune_idempotent (keep_days : Z) (st : BaseDir) :
  0 ≤ keep_days →
  prune_old_daily_prices keep_days (prune_old_daily_prices keep_days st).1
  = ((prune_old_daily_prices keep_days st).1, Ok tt).
Proof.
  intros HK. apply prune_nothing; [done|].
  rewrite (pruned_partitions keep_days st HK), length_take. lia.
Qed.

Lemma prune_idempotent_witness :
  0 ≤ 7
  ∧ prune_old_daily_prices 7 (prune_old_daily_prices 7 Sample.nine_raw).1
    = ((prune_old_daily_prices 7 Sample.nine_raw).1, Ok tt).
Proof.
  split; [lia|]. apply (prune_idempotent 7 Sample.nine_raw). lia.
Defined.

(** ** More on the incremental append *)

Lemma filter_all {A} (P : A → Prop) `{!∀ x, Decision (P x)} (l : list A) :
  (∀ x, x ∈ l → P x) → filter P l = l.
Proof.
  induction l as [|x l IH]; intros Hl; [done|].
  rewrite filter_cons, decide_True by (apply Hl; by left).
  f_equal. apply IH. intros y Hy. apply Hl. by right.
Qed.

Lemma union_columns_nil a : pd.union_columns [] a = a.
Proof. unfold pd.union_columns. cbn. apply filter_all. intros x _. apply not_elem_of_nil. Qed.

Lemma union_columns_again a b :
  pd.union_columns (pd.union_columns a b) b = pd.union_columns a b.
Proof.
  unfold pd.union_columns at 1. rewrite filter_none; [by rewrite app_nil_r|].
  intros x Hx Hn. apply Hn. apply union_columns_elem. by right.
Qed.

Lemma dedup_append (old new_df : pd.DataFrame) :
  Forall (λ c, c ∈ pd.columns old) KEY →
  rbind (pd.concat [old; new_df]) (pd.drop_duplicates_subset KEY)
  = Ok (pd.mkDF (pd.union_columns (pd.columns old) (pd.columns new_df))
          (keep_first (pd.key_of KEY) (pd.rows old ++ pd.rows new_df))).
Proof.
  intros Hkey. unfold pd.concat. cbn [rbind fmap list_fmap foldl mbind list_bind].
  rewrite union_columns_nil, app_nil_r. unfold pd.drop_duplicates_subset. cbn [pd.columns].
  rewrite missing_none; [done|].
  eapply Forall_impl; [exact Hkey|]. intros c Hc. apply union_columns_elem. by left.
Qed.

(** X15. The incremental append is idempotent: when the rollup has the key
    columns, appending the same days a second time returns and leaves the
    rollup that the first append wrote. *)
Theorem append_to_full_file_idempotent (W : World) (new_days : list string) (st : BaseDir)
    (old : pd.DataFrame) :
  rollup st = Some old →
  Forall (λ c, c ∈ pd.columns old) KEY →
  let st1 := (append_to_full_file W new_days st).1 in
  (append_to_full_file W new_days st).2 = Ok tt
  ∧ (append_to_full_file W new_days st1).2 = Ok tt
  ∧ rollup (append_to_full_file W new_days st1).1 = rollup st1.
Proof.
  intros Hold Hkey st1. subst st1.
  rewrite (append_to_full_file_unfold W new_days st). cbn zeta. rewrite Hold.
  destruct (new_partitions new_days st) as [|df dfs] eqn:Hnew.
  { cbn [fst snd]. rewrite append_to_full_file_unfold. cbn zeta.
    change (rollup (journaled _ st)) with (rollup st). rewrite Hold.
    change (new_partitions new_days (journaled _ st)) with (new_partitions new_days st).
    by rewrite Hnew. }
  destruct (concat_cons_ok df dfs) as (new_df & Hc). rewrite Hc. cbn [rbind].
  pose proof (dedup_append old new_df Hkey) as Hfull. cbn [rbind] in Hfull. rewrite Hfull.
  cbn [fst snd]. split; [done|].
  set (full := pd.mkDF _ _) in *.
  rewrite append_to_full_file_unfold. cbn zeta.
  change (rollup (with_rollup (Some full) _)) with (Some full).
  change (new_partitions new_days (with_rollup (Some full) (journaled _ st)))
    with (new_partitions new_days st).
  rewrite Hnew, Hc. cbn [rbind].
  assert (Forall (λ c, c ∈ pd.columns full) KEY) as Hkey'.
  { eapply Forall_impl; [exact Hkey|]. intros c Hc'. apply union_columns_elem. by left. }
  pose proof (dedup_append full new_df Hkey') as Hfull'. cbn [rbind] in Hfull'.
  rewrite Hfull'. cbn [fst snd]. split; [done|].
  unfold with_rollup. cbn [rollup]. f_equal.
  subst full. cbn [pd.columns pd.rows]. rewrite union_columns_again. f_equal.
  apply keep_first_again. intros x Hx. apply list_elem_of_fmap_2, elem_of_app. by right.
Qed.

Lemma append_to_full_file_idempotent_witness :
  rollup (append_to_full_file Sample.world ["2025-09-20"]
            (append_to_full_file Sample.world ["2025-09-20"] Sample.two_days).1).1
  = rollup (append_to_full_file Sample.world ["2025-09-20"] Sample.two_days).1.
Proof.
  set (old := Sample.enriched [Sample.enriched_row 1 "2025-09-19" "Normal";
                               Sample.enriched_row 2 "2025-09-19" "Normal"]).
  destruct (append_to_full_file_idempotent Sample.world ["2025-09-20"] Sample.two_days old)
    as (_ & _ & H).
  - reflexivity.
  - apply (bool_decide_unpack _). vm_compute. exact I.
  - exact H.
Defined.

(** ** More on [main] *)

Lemma same_prices_refl : Reflexive same_prices.
Proof. by intros st. Qed.

Lemma same_prices_trans : Transitive same_prices.
Proof.
  intros st1 st2 st3 (?&?&?&?&?) (?&?&?&?&?). unfold same_prices. split_and!; congruence.
Qed.

Lemma keeps_daily_refl : Reflexive keeps_daily.
Proof. by intros st. Qed.

Lemma keeps_daily_trans : Transitive keeps_daily.
Proof. intros st1 st2 st3 H1 H2. unfold keeps_daily in *. congruence. Qed.

#[local] Existing Instance same_prices_refl.
#[local] Existing Instance same_prices_trans.
#[local] Existing Instance keeps_daily_refl.
#[local] Existing Instance keeps_daily_trans.

Lemma products_loop_same_prices W processed gids :
  ∀ acc, preserves same_prices (products_loop W processed gids acc).
Proof.
  induction gids as [|gid rest IH]; intros acc; cbn [products_loop].
  - apply preserves_ret; apply _.
  - apply preserves_bind; [apply _|apply preserves_gets; apply _|]. intros cached.
    destruct (_ && _); [apply IH|].
    destruct (fetch_products_for_group W gid) as [df| |]; [|apply IH..].
    destruct (negb (pd.empty df)); [|apply IH].
    apply preserves_bind; [apply _| |intros _; apply IH].
    apply preserves_modify. by intros st.
Qed.

Lemma build_products_and_groups_same_prices W :
  preserves same_prices (build_products_and_groups W).
Proof.
  unfold build_products_and_groups, to_parquet_check, load_processed_products.
  apply preserves_bind; [apply _|apply preserves_gets; apply _|]. intros cached_groups.
  apply preserves_bind; [apply _| |].
  { destruct cached_groups; [apply preserves_ret; apply _|].
    apply preserves_bind; [apply _|apply preserves_lift; apply _|]. intros df.
    apply preserves_bind; [apply _| |].
    { case_match; [apply preserves_ret|apply preserves_raise]; apply _. }
    intros _. apply preserves_bind; [apply _| |intros _; apply preserves_ret; apply _].
    apply preserves_modify. by intros st. }
  intros groups_df.
  apply preserves_bind; [apply _|apply preserves_gets; apply _|]. intros processed.
  apply preserves_bind; [apply _|apply preserves_lift; apply _|]. intros gids.
  apply preserves_bind; [apply _|apply products_loop_same_prices|]. intros all_products.
  apply preserves_bind; [apply _|apply preserves_gets; apply _|]. intros old.
  apply preserves_bind; [apply _| |intros ?; apply preserves_ret; apply _].
  destruct all_products; [apply preserves_ret; apply _|].
  apply preserves_bind; [apply _|apply preserves_lift; apply _|]. intros new_df.
  apply preserves_bind; [apply _| |].
  { destruct old; [apply preserves_lift|apply preserves_ret]; apply _. }
  intros products_df.
  apply preserves_bind; [apply _| |intros _; apply preserves_ret; apply _].
  apply preserves_modify. by intros st.
Qed.

Lemma build_full_file_keeps_daily W : preserves keeps_daily (build_full_file W).
Proof.
  intros st. rewrite build_full_file_unfold. cbn zeta. unfold keeps_daily.
  destruct (rollup_matches st); [done|]. by destruct (pd.concat _).
Qed.

Lemma prune_keeps_daily keep_days : preserves keeps_daily (prune_old_daily_prices keep_days).
Proof.
  unfold prune_old_daily_prices.
  apply preserves_bind; [apply _|apply preserves_gets; apply _|]. intros entries.
  destruct (filter _ entries); [apply preserves_ret; apply _|].
  apply preserves_modify. by intros st.
Qed.

Lemma merge_loop_spec products_df groups_df new_days : ∀ st st',
  merge_loop products_df groups_df new_days st = (st', Ok tt) →
  daily_prices st' = daily_prices st
  ∧ (∀ k, k ∈ new_days →
       ∃ raw e,
         daily_prices st !! ("date=" +:+ k) = Some (Directory (Some raw))
         ∧ merge_day raw products_df groups_df = Ok e
         ∧ daily st' !! ("date=" +:+ k) = Some e)
  ∧ (∀ name, name ∉ (λ k, "date=" +:+ k) <$> new_days → daily st' !! name = daily st !! name).
Proof.
  induction new_days as [|day rest IH]; intros st st'.
  { intros [= <-]. split_and!; [done| |done]. intros k Hk. by apply elem_of_nil in Hk. }
  cbn [merge_loop]. unfold bind at 1, gets at 1. cbn beta iota.
  destruct (daily_prices st !! ("date=" +:+ day)) as [[|[raw|]]|] eqn:Hraw; try done.
  unfold bind at 1, lift at 1.
  destruct (merge_day raw products_df groups_df) as [e| |] eqn:Hm; [|done..].
  unfold bind at 1, modify at 1. cbn beta iota. intros Hrun.
  apply IH in Hrun as (Hdp & Hnew & Hframe). cbn in Hdp. split_and!; [done| |].
  - intros k Hk. destruct (decide (k ∈ rest)) as [Hin|Hnotin].
    { destruct (Hnew k Hin) as (raw' & e' & H1 & H2 & H3). by exists raw', e'. }
    apply elem_of_cons in Hk as [->|?]; [|done].
    exists raw, e. split_and!; [done|done|]. rewrite Hframe.
    + cbn. by rewrite lookup_insert_eq.
    + intros Hin. apply list_elem_of_fmap in Hin as (k' & Heq & Hk').
      apply date_name_inj in Heq. by subst k'.
  - intros name Hname. rewrite fmap_cons, not_elem_of_cons in Hname.
    destruct Hname as [Hne Hname]. rewrite (Hframe name Hname). cbn.
    by rewrite lookup_insert_ne.
Qed.

(** X16. When a run of [main] has harvested new days and returns, each of
    them has an enriched partition: the merge of its raw partition, as the
    harvest left it, with one products table and one groups table, hence
    without two rows of the same key.  No other enriched partition is
    written or changed. *)
Theorem main_writes_new_days (strftime : Z → string) (W : World) (fuel : nat)
    (start_date end_date interval : Z) (full_file : bool) (st sta st' : BaseDir)
    (prices_df : pd.DataFrame) (new_days : list string) (code : Z) :
  build_prices strftime W fuel start_date end_date interval st
  = (sta, Ok (prices_df, new_days)) →
  main strftime W fuel start_date end_date interval full_file st = (st', Ok code) →
  (∃ products_df groups_df,
     ∀ k, k ∈ new_days →
       ∃ raw e,
         daily_prices sta !! ("date=" +:+ k) = Some (Directory (Some raw))
         ∧ merge_day raw products_df groups_df = Ok e
         ∧ daily st' !! ("date=" +:+ k) = Some e
         ∧ unique_keys e)
  ∧ (∀ name, name ∉ (λ k, "date=" +:+ k) <$> new_days →
       daily st' !! name = daily st !! name).
Proof.
  intros Hprices Hmain.
  assert (daily sta = daily st) as Hsta.
  { apply build_prices_inv in Hprices as (keys & _ & _ & _ & _ & _ & _ & Hdim).
    by destruct Hdim as (_ & _ & _ & ? & _). }
  unfold main in Hmain. unfold bind at 1 in Hmain. rewrite Hprices in Hmain.
  destruct new_days as [|day days].
  { injection Hmain as <- _. split; [|by rewrite Hsta].
    exists pd.empty_frame, pd.empty_frame. intros k Hk. by apply elem_of_nil in Hk. }
  unfold bind at 1 in Hmain.
  pose proof (build_products_and_groups_same_prices W sta) as Hb.
  destruct (build_products_and_groups W sta) as [stb [[groups_df products_df]| |]];
    [|done..].
  cbn [fst] in Hb. destruct Hb as (_ & Hdpb & Hdb & _).
  unfold bind at 1, lift at 1 in Hmain.
  destruct (pd.astype_str "groupid" products_df) as [products'| |]; [|done..].
  unfold bind at 1, lift at 1 in Hmain.
  destruct (pd.astype_str "groupid" groups_df) as [groups'| |]; [|done..].
  unfold bind at 1 in Hmain.
  destruct (merge_loop (pd.drop PRUNE_COLS products') (pd.drop PRUNE_COLS groups')
              (day :: days) stb) as [stc [[]| |]] eqn:Hloop; [|done..].
  apply merge_loop_spec in Hloop as (_ & Hnew & Hframe).
  unfold bind at 1 in Hmain.
  assert (daily st' = daily stc) as Hst'.
  { revert Hmain.
    pose proof (build_full_file_keeps_daily W stc) as Hf.
    destruct (if full_file then (build_full_file W) else ret tt) as [std r] eqn:Hfull.
    assert (daily std = daily stc) as Hd.
    { destruct full_file; [by rewrite Hfull in Hf|by injection Hfull as <- _]. }
    destruct r as [[]| |]; [|done..].
    unfold bind at 1. pose proof (prune_keeps_daily 7 std) as Hp.
    destruct (prune_old_daily_prices 7 std) as [ste [[]| |]]; [|done..].
    intros [= <- _]. unfold keeps_daily in Hp. cbn in Hp. congruence. }
  split.
  - exists (pd.drop PRUNE_COLS products'), (pd.drop PRUNE_COLS groups').
    intros k Hk. destruct (Hnew k Hk) as (raw & e & H1 & H2 & H3).
    exists raw, e. split_and!; [by rewrite <- Hdpb|done|by rewrite Hst'|].
    by eapply merge_day_unique.
  - intros name Hname. by rewrite Hst', (Hframe name Hname), Hdb, Hsta.
Qed.

Lemma main_writes_new_days_witness :
  ∃ e,
    daily (main strftime_ymd Sample.world 10 739512 739515 1 true Sample.fresh).1
      !! "date=2025-09-19" = Some e
    ∧ unique_keys e.
Proof.
  set (run := main strftime_ymd Sample.world 10 739512 739515 1 true Sample.fresh).
  set (prices := build_prices strftime_ymd Sample.world 10 739512 739515 1 Sample.fresh).
  assert (run = (run.1, Ok 0)) as H1.
  { apply (bool_decide_unpack _). vm_compute. exact I. }
  assert (prices = (prices.1, Ok (Sample.raw_19, ["2025-09-19"]))) as H2.
  { apply (bool_decide_unpack _). vm_compute. exact I. }
  destruct (main_writes_new_days strftime_ymd Sample.world 10 739512 739515 1 true
              Sample.fresh prices.1 run.1 Sample.raw_19 ["2025-09-19"] 0 H2 H1) as [Hnew _].
  destruct Hnew as (p & g & Hnew).
  destruct (Hnew "2025-09-19") as (raw & e & _ & _ & He & Hu); [by left|].
  exists e. split; [exact He|exact Hu].
Defined.

(** The loop of [build_prices] takes up no day that was in
    [processed_days.txt] when the run began. *)
Lemma build_prices_loop_fresh strftime W fuel :
  ∀ processed end_date step d frames days st st' frames' days',
  build_prices_loop strftime W fuel processed end_date step d frames days st
  = (st', Ok (frames', days')) →
  ∃ ks, days' = days ++ ks ∧ Forall (λ k, k ∉ processed) ks.
Proof.
  induction fuel as [|fuel IH];
    intros processed end_date step d frames days st st' frames' days'.
  { done. }
  rewrite build_prices_loop_step. cbn zeta.
  assert (∀ frames0 days0 st0,
    bind (lift (date_add d step)) (λ d',
      build_prices_loop strftime W fuel processed end_date step d' frames0 days0) st0
    = (st', Ok (frames', days')) →
    ∃ ks, days' = days0 ++ ks ∧ Forall (λ k, k ∉ processed) ks) as Hcont.
  { intros frames0 days0 st0. unfold bind, lift.
    destruct (date_add d step) as [d'| |]; [apply IH|done..]. }
  destruct (d <=? end_date).
  2:{ intros [= <- <- <-]. exists []. by rewrite app_nil_r. }
  destruct (decide (strftime d ∈ processed)) as [|Hnew]; [apply Hcont|].
  unfold bind at 1, lift at 1.
  destruct (harvested strftime W d) as [[df|]| |]; [|apply Hcont|done..].
  unfold bind at 1.
  destruct (write_raw_partition strftime W d df st) as [st1 [[]| |]]; [|done..].
  unfold bind at 1.
  destruct (mark_day_processed strftime d st1) as [st2 [[]| |]]; [|done..].
  intros Hrun. apply Hcont in Hrun as (ks & -> & Hks).
  exists (strftime d :: ks). rewrite <- app_assoc. split; [done|]. by constructor.
Qed.

Lemma build_prices_fresh strftime W fuel start_date end_date step st st' prices_df new_days :
  build_prices strftime W fuel start_date end_date step st = (st', Ok (prices_df, new_days)) →
  Forall (λ k, k ∉ processed_days st) new_days.
Proof.
  unfold build_prices. unfold bind at 1, load_processed_days, gets at 1.
  cbn beta iota. unfold bind at 1.
  destruct (build_prices_loop strftime W fuel (processed_days st) end_date step start_date
              [] [] st) as [st1 [[all_frames days]| |]] eqn:Hloop; [|done..].
  apply build_prices_loop_fresh in Hloop as (ks & -> & Hks). cbn [app].
  destruct all_frames as [|df dfs].
  - by intros [= _ _ <-].
  - unfold bind, lift. destruct (concat_cons_ok df dfs) as (full & ->).
    by intros [= _ _ <-].
Qed.

Lemma keeps_partition_refl name : Reflexive (keeps_partition name).
Proof. by intros st. Qed.

Lemma keeps_partition_trans name : Transitive (keeps_partition name).
Proof. intros st1 st2 st3 H1 H2. unfold keeps_partition in *. congruence. Qed.

#[local] Existing Instance keeps_partition_refl.
#[local] Existing Instance keeps_partition_trans.

(** The merge loop writes the partitions of its days only. *)
Lemma merge_loop_keeps_partition products_df groups_df new_days name :
  name ∉ (λ k, "date=" +:+ k) <$> new_days →
  preserves (keeps_partition name) (merge_loop products_df groups_df new_days).
Proof.
  induction new_days as [|day rest IH]; intros Hname; cbn [merge_loop].
  { apply preserves_ret; apply _. }
  rewrite fmap_cons, not_elem_of_cons in Hname. destruct Hname as [Hne Hname].
  apply preserves_bind; [apply _|apply preserves_gets; apply _|]. intros entry.
  destruct entry as [[|[day_prices|]]|]; try (apply preserves_raise; apply _).
  apply preserves_bind; [apply _|apply preserves_lift; apply _|]. intros merged.
  apply preserves_bind; [apply _| |intros _; by apply IH].
  apply preserves_modify. intros st. unfold keeps_partition, with_daily. cbn [daily].
  by rewrite lookup_insert_ne.
Qed.

(** A day of [processed_days.txt] stays there through a run of [main], and
    the run neither writes nor changes its enriched partition. *)
Lemma main_keeps_marked strftime W fuel start_date end_date interval full_file st k :
  k ∈ processed_days st →
  k ∈ processed_days (main strftime W fuel start_date end_date interval full_file st).1
  ∧ keeps_partition ("date=" +:+ k) st
      (main strftime W fuel start_date end_date interval full_file st).1.
Proof.
  intros Hk.
  destruct (build_prices strftime W fuel start_date end_date interval st) as [sta r] eqn:Hp.
  pose proof (build_prices_inv _ _ _ _ _ _ _ _ _ Hp)
    as (keys & _ & Hpd & _ & _ & _ & _ & Hdim).
  destruct Hdim as (_ & _ & _ & Hd & _).
  assert (k ∈ processed_days sta) as Hka by (rewrite Hpd, elem_of_app; by left).
  assert (keeps_partition ("date=" +:+ k) st sta) as Hkeep
    by (unfold keeps_partition; by rewrite Hd).
  destruct (main strftime W fuel start_date end_date interval full_file st)
    as [st2 r2] eqn:Hmain. cbn [fst].
  unfold main in Hmain. unfold bind at 1 in Hmain. rewrite Hp in Hmain.
  destruct r as [[prices_df new_days]| |]; [|by injection Hmain as <- _..].
  apply build_prices_fresh in Hp as Hfresh.
  destruct new_days as [|day days]; [by injection Hmain as <- _|].
  assert ("date=" +:+ k ∉ (λ k, "date=" +:+ k) <$> day :: days) as Hname.
  { intros Hin. apply list_elem_of_fmap in Hin as (k' & Heq & Hk').
    apply date_name_inj in Heq. subst k'.
    rewrite Forall_forall in Hfresh. by apply (Hfresh k Hk'). }
  match type of Hmain with
  | ?m sta = _ =>
      assert (preserves keeps_processed_days m ∧ preserves (keeps_partition ("date=" +:+ k)) m)
        as [Hpres1 Hpres2]
  end.
  { split.
    - apply preserves_bind; [apply _| |].
      { eapply preserves_weaken; [apply quiet_keeps_processed_days|].
        apply build_products_and_groups_quiet. }
      intros [groups_df products_df].
      apply preserves_bind; [apply _|apply preserves_lift; apply _|]. intros products'.
      apply preserves_bind; [apply _|apply preserves_lift; apply _|]. intros groups'.
      apply preserves_bind; [apply _| |].
      { eapply preserves_weaken; [apply quiet_keeps_processed_days|].
        apply merge_loop_quiet. }
      intros _. apply preserves_bind; [apply _| |].
      { destruct full_file; [|apply preserves_ret; apply _].
        intros s. apply build_full_file_processed_days. }
      intros _. apply preserves_bind; [apply _| |intros _; apply preserves_ret; apply _].
      eapply preserves_weaken; [apply quiet_keeps_processed_days|]. apply prune_quiet.
    - apply preserves_bind; [apply _| |].
      { eapply preserves_weaken; [|apply build_products_and_groups_same_prices].
        intros s s' (_ & _ & Hds & _). unfold keeps_partition. by rewrite Hds. }
      intros [groups_df products_df].
      apply preserves_bind; [apply _|apply preserves_lift; apply _|]. intros products'.
      apply preserves_bind; [apply _|apply preserves_lift; apply _|]. intros groups'.
      apply preserves_bind; [apply _|by apply merge_loop_keeps_partition|].
      intros _. apply preserves_bind; [apply _| |].
      { destruct full_file; [|apply preserves_ret; apply _].
        eapply preserves_weaken; [|apply build_full_file_keeps_daily].
        intros s s' Hds. unfold keeps_partition. by rewrite Hds. }
      intros _. apply preserves_bind; [apply _| |intros _; apply preserves_ret; apply _].
      eapply preserves_weaken; [|apply prune_keeps_daily].
      intros s s' Hds. unfold keeps_partition. by rewrite Hds. }
  specialize (Hpres1 sta). specialize (Hpres2 sta).
  rewrite Hmain in Hpres1, Hpres2. cbn [fst] in Hpres1, Hpres2. split.
  - unfold keeps_processed_days in Hpres1. by rewrite Hpres1.
  - by etrans.
Qed.

(** X17. Once the harvesting stage of a run of [main] has returned, the days
    it harvested are in [processed_days.txt] whatever the later stages do,
    also when one of them raises.  No later run, whatever its arguments and
    whatever the site and the scratch directories then hold, takes a marked
    day up again: the day stays marked and its enriched partition is neither
    written nor changed, so that a day whose merge did not take place gets
    no enriched partition from a later run. *)
Theorem main_does_not_retry (strftime : Z → string) (W : World) (fuel : nat)
    (start_date end_date interval : Z) (full_file : bool) (st sta st1 : BaseDir)
    (prices_df : pd.DataFrame) (new_days : list string) (r : result Z) :
  build_prices strftime W fuel start_date end_date interval st
  = (sta, Ok (prices_df, new_days)) →
  main strftime W fuel start_date end_date interval full_file st = (st1, r) →
  processed_days st1 = processed_days st ++ new_days
  ∧ ∀ (W' : World) (fuel' : nat) (start_date' end_date' interval' : Z)
      (full_file' : bool) (k : string),
      k ∈ processed_days st1 →
      let st2 :=
        (main strftime W' fuel' start_date' end_date' interval' full_file' st1).1 in
      k ∈ processed_days st2
      ∧ daily st2 !! ("date=" +:+ k) = daily st1 !! ("date=" +:+ k).
Proof.
  intros Hp Hmain.
  pose proof (main_processed_days _ _ _ _ _ _ _ _ _ _ _ _ Hp Hmain) as Hpd.
  split.
  - rewrite Hpd. apply build_prices_inv in Hp as (keys & _ & -> & Hres & _).
    specialize (Hres _ eq_refl). cbn in Hres. by subst keys.
  - intros W' fuel' start_date' end_date' interval' full_file' k Hk.
    apply (main_keeps_marked strftime W' fuel' start_date' end_date' interval' full_file'
             st1 k Hk).
Qed.

(** The first run harvests 2025-09-19 while the groups endpoint is down; a
    second run, with the endpoint up again, does not merge that day. *)
Lemma main_does_not_retry_witness :
  ∃ st1,
    main strftime_ymd Sample.offline 10 739512 739515 1 true Sample.fresh
    = (st1, Raise (RequestError "groups"))
    ∧ processed_days st1 = ["2025-09-19"]
    ∧ daily st1 !! "date=2025-09-19" = None
    ∧ daily (main strftime_ymd Sample.world 10 739512 739515 1 true st1).1
        !! "date=2025-09-19" = None.
Proof.
  set (run := main strftime_ymd Sample.offline 10 739512 739515 1 true Sample.fresh).
  set (prices := build_prices strftime_ymd Sample.offline 10 739512 739515 1 Sample.fresh).
  assert (run = (run.1, Raise (RequestError "groups"))) as H1.
  { apply (bool_decide_unpack _). vm_compute. exact I. }
  assert (prices = (prices.1, Ok (Sample.raw_19, ["2025-09-19"]))) as H2.
  { apply (bool_decide_unpack _). vm_compute. exact I. }
  assert (daily run.1 !! "date=2025-09-19" = None) as H3.
  { apply (bool_decide_unpack _). vm_compute. exact I. }
  destruct (main_does_not_retry strftime_ymd Sample.offline 10 739512 739515 1 true
              Sample.fresh prices.1 run.1 Sample.raw_19 ["2025-09-19"] _ H2 H1) as [Hpd Hlater].
  exists run.1. split_and!; [exact H1|exact Hpd|exact H3|].
  destruct (Hlater Sample.world 10%nat 739512 739515 1 true "2025-09-19") as [_ Hsame].
  - rewrite Hpd. by left.
  - cbn zeta in Hsame. rewrite <- H3. exact Hsame.
Defined.

Lemma omap_none {A B} (f : A → option B) (l : list A) :
  (∀ x, f x = None) → omap f l = [].
Proof. intros Hf. induction l as [|x l IH]; [done|]. cbn. by rewrite Hf. Qed.

(** X18. A run of [main] that has harvested a new day while no product can
    be had (no products cache, and no group whose request gives a product)
    ends in [KeyError: 'groupid'] on the empty products table; the raw
    partitions are written and the days marked, no enriched partition is
    written. *)
Theorem main_without_products (strftime : Z → string) (W : World) (fuel : nat)
    (start_date end_date interval : Z) (full_file : bool) (st sta : BaseDir)
    (prices_df : pd.DataFrame) (day : string) (days : list string) (G : pd.DataFrame) :
  build_prices strftime W fuel start_date end_date interval st
  = (sta, Ok (prices_df, day :: days)) →
  groups_file st = Some G
  ∨ (groups_file st = None ∧ groups_response W = Ok G ∧ NoDup (pd.columns G)) →
  "group_id" ∈ pd.columns G →
  products_file st = None →
  (∀ gid, fetched_frame W gid = None) →
  ∃ st1,
    main strftime W fuel start_date end_date interval full_file st
    = (st1, Raise (KeyError "groupid"))
    ∧ daily st1 = daily st
    ∧ processed_days st1 = processed_days st ++ day :: days.
Proof.
  intros Hprices HG Hcol Hnop Hnone.
  pose proof (build_prices_inv _ _ _ _ _ _ _ _ _ Hprices)
    as (keys & _ & Hpd & Hres & _ & _ & _ & Hdim).
  specialize (Hres _ eq_refl). cbn in Hres. subst keys.
  destruct Hdim as (_ & Hgf & Hpf & Hd & _).
  destruct (build_products_and_groups_run W sta G) as
    (gids & stb & p & _ & Hrun & _ & _ & Hsame & Hempty); [by rewrite Hgf|done|].
  destruct Hempty as [Hp|(old & Hold & _)].
  { unfold newly_fetched. by apply omap_none. }
  2:{ by rewrite Hpf, Hnop in Hold. }
  exists stb. unfold main. unfold bind at 1. rewrite Hprices.
  unfold bind at 1. rewrite Hrun. unfold bind at 1, lift at 1.
  unfold pd.astype_str. rewrite decide_False by (rewrite Hp; apply not_elem_of_nil).
  destruct Hsame as (Hpdb & _ & Hdb & _). split_and!; [done|congruence|congruence].
Qed.

Lemma main_without_products_witness :
  ∃ st1,
    main strftime_ymd Sample.no_products 10 739512 739515 1 true Sample.fresh
    = (st1, Raise (KeyError "groupid"))
    ∧ daily st1 = daily Sample.fresh.
Proof.
  set (prices := build_prices strftime_ymd Sample.no_products 10 739512 739515 1 Sample.fresh).
  assert (prices = (prices.1, Ok (Sample.raw_19, ["2025-09-19"]))) as H2.
  { apply (bool_decide_unpack _). vm_compute. exact I. }
  destruct (main_without_products strftime_ymd Sample.no_products 10 739512 739515 1 true
              Sample.fresh prices.1 Sample.raw_19 "2025-09-19" [] Sample.groups H2)
    as (st1 & Hrun & Hd & _).
  - right. split; [reflexivity|]. split; [reflexivity|].
    apply (bool_decide_unpack _). vm_compute. exact I.
  - apply (bool_decide_unpack _). vm_compute. exact I.
  - reflexivity.
  - intros gid. reflexivity.
  - exists st1. split; [exact Hrun|exact Hd].
Defined.

Lemma build_prices_nothing_new strftime W fuel start_date end_date step st st' prices_df :
  build_prices strftime W fuel start_date end_date step st = (st', Ok (prices_df, [])) →
  st' = st ∧ prices_df = pd.empty_frame.
Proof.
  unfold build_prices. unfold bind at 1, load_processed_days, gets at 1.
  cbn beta iota. unfold bind at 1.
  destruct (build_prices_loop strftime W fuel (processed_days st) end_date step start_date
              [] [] st) as [st1 [[all_frames days]| |]] eqn:Hloop; [|done..].
  apply build_prices_loop_result in Hloop as (fs & ks & -> & -> & Hfs & Hsame).
  cbn [app]. destruct fs as [|df fs].
  - intros [= <- <- ->]. by rewrite (Hsame eq_refl).
  - unfold bind, lift. destruct (concat_cons_ok df fs) as (full & Hfull). rewrite Hfull.
    intros [= <- <- ->]. by apply Forall2_nil_inv_l in Hfs.
Qed.

(** X19. A run of [main] whose harvest finds no new day returns 0 and leaves
    every file that the base directory keeps between runs as it was: the
    two tracking files, the two caches, the raw and the enriched partitions
    and the rollup.  No table is fetched, nothing is merged or pruned, and
    with the full-file flag the rollup is neither rebuilt nor created.
    (The scratch directories [archives/] and [extracted/], which are not in
    [BaseDir], are not cleaned on this path.) *)
Theorem main_nothing_new (strftime : Z → string) (W : World) (fuel : nat)
    (start_date end_date interval : Z) (full_file : bool) (st sta : BaseDir)
    (prices_df : pd.DataFrame) :
  build_prices strftime W fuel start_date end_date interval st = (sta, Ok (prices_df, [])) →
  main strftime W fuel start_date end_date interval full_file st = (st, Ok 0).
Proof.
  intros Hprices. destruct (build_prices_nothing_new _ _ _ _ _ _ _ _ _ Hprices) as [-> ->].
  unfold main. unfold bind at 1. by rewrite Hprices.
Qed.

Lemma main_nothing_new_witness :
  main strftime_ymd Sample.world 10 739514 739515 1 true Sample.stale
  = (Sample.stale, Ok 0).
Proof.
  apply (main_nothing_new strftime_ymd Sample.world 10 739514 739515 1 true Sample.stale
           Sample.stale pd.empty_frame).
  apply (bool_decide_unpack _). vm_compute. exact I.
Defined.

(** X20. When a run of [main] that harvested new days returns, at most
    seven raw partitions are left in [daily_prices/], the latest by their
    date keys among those that were there when the pruner started. *)
Theorem main_keeps_seven_raw (strftime : Z → string) (W : World) (fuel : nat)
    (start_date end_date interval : Z) (full_file : bool) (st sta st' : BaseDir)
    (prices_df : pd.DataFrame) (day : string) (days : list string) (code : Z) :
  build_prices strftime W fuel start_date end_date interval st
  = (sta, Ok (prices_df, day :: days)) →
  main strftime W fuel start_date end_date interval full_file st = (st', Ok code) →
  (List.length (raw_partitions st') ≤ 7)%nat
  ∧ raw_partitions st' ≡ₚ take 7 (sorted_desc partition_key (raw_partitions sta)).
Proof.
  intros Hprices Hmain.
  unfold main in Hmain. unfold bind at 1 in Hmain. rewrite Hprices in Hmain.
  unfold bind at 1 in Hmain.
  pose proof (build_products_and_groups_same_prices W sta) as Hb.
  destruct (build_products_and_groups W sta) as [stb [[groups_df products_df]| |]];
    [|done..].
  cbn [fst] in Hb. destruct Hb as (_ & Hdpb & _).
  unfold bind at 1, lift at 1 in Hmain.
  destruct (pd.astype_str "groupid" products_df) as [products'| |]; [|done..].
  unfold bind at 1, lift at 1 in Hmain.
  destruct (pd.astype_str "groupid" groups_df) as [groups'| |]; [|done..].
  unfold bind at 1 in Hmain.
  destruct (merge_loop (pd.drop PRUNE_COLS products') (pd.drop PRUNE_COLS groups')
              (day :: days) stb) as [stc [[]| |]] eqn:Hloop; [|done..].
  apply merge_loop_spec in Hloop as (Hdpc & _).
  unfold bind at 1 in Hmain.
  destruct (if full_file then (build_full_file W) else ret tt) as [std r] eqn:Hfull.
  assert (daily_prices std = daily_prices stc) as Hdpd.
  { destruct full_file; [|by injection Hfull as <- _].
    rewrite build_full_file_unfold in Hfull. cbn zeta in Hfull.
    destruct (rollup_matches stc); [by injection Hfull as <- _|].
    destruct (pd.concat _); by injection Hfull as <- _. }
  destruct r as [[]| |]; [|done..].
  unfold bind at 1 in Hmain.
  pose proof (pruned_partitions 7 std) as Hprune.
  destruct (prune_old_daily_prices 7 std) as [ste [[]| |]]; [|done..].
  injection Hmain as <- _. cbn [fst] in Hprune.
  assert (raw_partitions std = raw_partitions sta) as Hraw.
  { unfold raw_partitions. congruence. }
  rewrite Hraw in Hprune. specialize (Hprune ltac:(lia)).
  split; [|done]. rewrite Hprune, length_take. lia.
Qed.

Lemma main_keeps_seven_raw_witness :
  (List.length
     (raw_partitions
        (main strftime_ymd Sample.world 10 739512 739515 1 true Sample.nine_raw).1) ≤ 7)%nat.
Proof.
  set (run := main strftime_ymd Sample.world 10 739512 739515 1 true Sample.nine_raw).
  set (prices := build_prices strftime_ymd Sample.world 10 739512 739515 1 Sample.nine_raw).
  assert (run = (run.1, Ok 0)) as H1.
  { apply (bool_decide_unpack _). vm_compute. exact I. }
  assert (prices = (prices.1, Ok (Sample.raw_19, ["2025-09-19"]))) as H2.
  { apply (bool_decide_unpack _). vm_compute. exact I. }
  destruct (main_keeps_seven_raw strftime_ymd Sample.world 10 739512 739515 1 true
              Sample.nine_raw prices.1 run.1 Sample.raw_19 "2025-09-19" [] 0 H2 H1)
    as [Hlen _].
  exact Hlen.
Defined.

(** ** Calendar dates and day strings *)

Lemma zrange_forallb (P : Z → bool) lo n :
  forallb P (zrange lo n) = true → ∀ k, lo ≤ k < lo + Z.of_nat n → P k = true.
Proof.
  intros Hall k Hk. rewrite forallb_forall in Hall. apply Hall.
  apply list_elem_of_In. unfold zrange. apply list_elem_of_fmap.
  exists (Z.to_nat (k - lo)). split; [lia|]. apply elem_of_seq. lia.
Qed.

Lemma month_day_ok (leapyear : bool) (n : Z) :
  0 ≤ n < 365 + (if leapyear then 1 else 0) →
  let '(m, d) := month_day leapyear n in
  1 ≤ m ≤ 12 ∧ 1 ≤ d ≤ 31
  ∧ nth (Z.to_nat m) DAYS_BEFORE_MONTH 0 + (if (2 <? m) && leapyear then 1 else 0) + d
    = n + 1.
Proof.
  intros Hn.
  pose (check := λ leap k,
          let '(m, d) := month_day leap k in
          (1 <=? m) && (m <=? 12) && (1 <=? d) && (d <=? 31)
          && (nth (Z.to_nat m) DAYS_BEFORE_MONTH 0
              + (if (2 <? m) && leap then 1 else 0) + d =? k + 1)).
  assert (check leapyear n = true) as Hc.
  { destruct leapyear.
    - apply (zrange_forallb (check true) 0 366); [vm_compute; reflexivity|lia].
    - apply (zrange_forallb (check false) 0 365); [vm_compute; reflexivity|lia]. }
  unfold check in Hc. destruct (month_day leapyear n) as [m d]. lia.
Qed.

Lemma ord2ymd_unfold n :
  ord2ymd n =
    let n0 := n - 1 in
    let n400 := n0 / 146097 in
    let r := n0 mod 146097 in
    let n100 := r / 36524 in
    let r2 := r mod 36524 in
    let n4 := r2 / 1461 in
    let r3 := r2 mod 1461 in
    let n1 := r3 / 365 in
    let r4 := r3 mod 365 in
    let year := n400 * 400 + 1 + n100 * 100 + n4 * 4 + n1 in
    if (n1 =? 4) || (n100 =? 4) then (year - 1, 12, 31)
    else
      let leapyear := (n1 =? 3) && (negb (n4 =? 24) || (n100 =? 3)) in
      let '(m, d) := month_day leapyear r4 in (year, m, d).
Proof.
  unfold ord2ymd, month_day. cbv zeta.
  destruct (_ || _); [done|]. by destruct (_ <? _).
Qed.

Lemma ordinal_split n0 a r b r2 c r3 e r4 :
  0 ≤ n0 →
  a = n0 / 146097 → r = n0 mod 146097 → b = r / 36524 → r2 = r mod 36524 →
  c = r2 / 1461 → r3 = r2 mod 1461 → e = r3 / 365 → r4 = r3 mod 365 →
  0 ≤ a ∧ 0 ≤ b ≤ 4 ∧ 0 ≤ c ≤ 24 ∧ 0 ≤ e ≤ 4 ∧ 0 ≤ r4 ≤ 364
  ∧ n0 = 146097 * a + 36524 * b + 1461 * c + 365 * e + r4
  ∧ (b = 4 → c = 0 ∧ e = 0 ∧ r4 = 0)
  ∧ (e = 4 → r4 = 0 ∧ c ≤ 23).
Proof.
  intros H0 Ha Hr Hb Hr2 Hc Hr3 He Hr4.
  pose proof (Z.div_mod n0 146097 ltac:(lia)).
  pose proof (Z.mod_pos_bound n0 146097 ltac:(lia)).
  pose proof (Z.div_mod r 36524 ltac:(lia)).
  pose proof (Z.mod_pos_bound r 36524 ltac:(lia)).
  pose proof (Z.div_mod r2 1461 ltac:(lia)).
  pose proof (Z.mod_pos_bound r2 1461 ltac:(lia)).
  pose proof (Z.div_mod r3 365 ltac:(lia)).
  pose proof (Z.mod_pos_bound r3 365 ltac:(lia)).
  rewrite <- ?Ha, <- ?Hr, <- ?Hb, <- ?Hr2, <- ?Hc, <- ?Hr3, <- ?He, <- ?Hr4 in *.
  clear Ha Hr Hb Hr2 Hc Hr3 He Hr4.
  repeat split; lia.
Qed.

Lemma ord2ymd_spec n :
  1 ≤ n →
  ∃ y m d,
    ord2ymd n = (y, m, d) ∧ 1 ≤ y ∧ 1 ≤ m ≤ 12 ∧ 1 ≤ d ≤ 31 ∧ ymd2ord (y, m, d) = n.
Proof.
  intros Hn. rewrite ord2ymd_unfold. cbv zeta.
  remember (n - 1) as n0 eqn:Hn0.
  remember (n0 / 146097) as a eqn:Ha.
  remember (n0 mod 146097) as r eqn:Hr.
  remember (r / 36524) as b eqn:Hb.
  remember (r mod 36524) as r2 eqn:Hr2.
  remember (r2 / 1461) as c eqn:Hc.
  remember (r2 mod 1461) as r3 eqn:Hr3.
  remember (r3 / 365) as e eqn:He.
  remember (r3 mod 365) as r4 eqn:Hr4.
  assert (0 ≤ a ∧ 0 ≤ b ≤ 4 ∧ 0 ≤ c ≤ 24 ∧ 0 ≤ e ≤ 4 ∧ 0 ≤ r4 ≤ 364
          ∧ n0 = 146097 * a + 36524 * b + 1461 * c + 365 * e + r4
          ∧ (b = 4 → c = 0 ∧ e = 0 ∧ r4 = 0)
          ∧ (e = 4 → r4 = 0 ∧ c ≤ 23)) as (Ha0 & Hb0 & Hc0 & He0 & Hr0 & Hsum & Hb4 & He4).
  { apply (ordinal_split n0 a r b r2 c r3 e r4); [lia|done..]. }
  clear Ha Hr Hb Hr2 Hc Hr3 He Hr4.
  destruct (Z.eqb_spec e 4) as [->|Hne]; cbn [orb].
  { destruct He4 as [-> Hc23]; [done|]. eexists _, _, _. split; [done|].
    split; [lia|]. split; [lia|]. split; [lia|].
    unfold ymd2ord, days_before_year, days_before_month.
    assert (is_leap (a * 400 + 1 + b * 100 + c * 4 + 4 - 1) = true) as ->.
    { unfold is_leap. apply andb_true_intro. split; [apply Z.eqb_eq; zdiv_lia|].
      apply orb_true_intro. left. apply negb_true_iff, Z.eqb_neq. zdiv_lia. }
    change (nth (Z.to_nat 12) DAYS_BEFORE_MONTH 0) with 334. cbn [andb Z.ltb Z.compare Pos.compare Pos.compare_cont].
    zdiv_lia. }
  destruct (Z.eqb_spec b 4) as [->|Hnb].
  { destruct Hb4 as (-> & -> & ->); [done|]. eexists _, _, _. split; [done|].
    split; [lia|]. split; [lia|]. split; [lia|].
    unfold ymd2ord, days_before_year, days_before_month.
    assert (is_leap (a * 400 + 1 + 4 * 100 + 0 * 4 + 0 - 1) = true) as ->.
    { unfold is_leap. apply andb_true_intro. split; [apply Z.eqb_eq; zdiv_lia|].
      apply orb_true_intro. right. apply Z.eqb_eq. zdiv_lia. }
    change (nth (Z.to_nat 12) DAYS_BEFORE_MONTH 0) with 334. cbn [andb Z.ltb Z.compare Pos.compare Pos.compare_cont].
    zdiv_lia. }
  set (leapyear := (e =? 3) && (negb (c =? 24) || (b =? 3))).
  pose proof (month_day_ok leapyear r4) as Hmd.
  destruct (month_day leapyear r4) as [m d].
  destruct Hmd as (Hm & Hd & Hpre); [destruct leapyear; lia|].
  eexists _, _, _. split; [done|]. split; [lia|]. split; [lia|]. split; [lia|].
  unfold ymd2ord, days_before_year, days_before_month.
  assert (is_leap (a * 400 + 1 + b * 100 + c * 4 + e) = leapyear) as ->.
  { unfold is_leap, leapyear.
    destruct (Z.eqb_spec e 3) as [->|?]; cbn [andb].
    - destruct (Z.eqb_spec c 24) as [->|?]; cbn [negb orb].
      + destruct (Z.eqb_spec b 3) as [->|?].
        * apply andb_true_intro. split; [apply Z.eqb_eq; zdiv_lia|].
          apply orb_true_intro. right. apply Z.eqb_eq. zdiv_lia.
        * apply andb_false_intro2.
          apply orb_false_intro; [apply negb_false_iff, Z.eqb_eq|apply Z.eqb_neq]; zdiv_lia.
      + apply andb_true_intro. split; [apply Z.eqb_eq; zdiv_lia|]. apply orb_true_intro. left.
        apply negb_true_iff, Z.eqb_neq. zdiv_lia.
    - apply andb_false_intro1, Z.eqb_neq. zdiv_lia. }
  remember (nth (Z.to_nat m) DAYS_BEFORE_MONTH 0) as dbm.
  destruct ((2 <? m) && leapyear); zdiv_lia.
Qed.

Lemma str_length_app s t :
  String.length (s +:+ t) = (String.length s + String.length t)%nat.
Proof.
  induction s as [|a s IH]; [done|].
  change (String a s +:+ t) with (String a (s +:+ t)).
  cbn [String.length]. by rewrite IH.
Qed.

Lemma str_app_inj_r s1 : ∀ s2 t1 t2,
  String.length t1 = String.length t2 → s1 +:+ t1 = s2 +:+ t2 → s1 = s2 ∧ t1 = t2.
Proof.
  induction s1 as [|a s1 IH]; intros [|b s2] t1 t2 Hlen Heq.
  - done.
  - change ("" +:+ t1) with t1 in Heq. subst t1.
    change (String b s2 +:+ t2) with (String b (s2 +:+ t2)) in Hlen.
    cbn [String.length] in Hlen. rewrite str_length_app in Hlen. lia.
  - change ("" +:+ t2) with t2 in Heq. subst t2.
    change (String a s1 +:+ t1) with (String a (s1 +:+ t1)) in Hlen.
    cbn [String.length] in Hlen. rewrite str_length_app in Hlen. lia.
  - change (String a s1 +:+ t1) with (String a (s1 +:+ t1)) in Heq.
    change (String b s2 +:+ t2) with (String b (s2 +:+ t2)) in Heq.
    injection Heq as -> Heq. by destruct (IH s2 t1 t2 Hlen Heq) as [-> ->].
Qed.

Lemma str_of_int_inj n m : str_of_int n = str_of_int m → n = m.
Proof.
  unfold str_of_int. intros Heq. apply DecimalZ.to_int_inj.
  assert (∀ z, DecimalString.NilZero.int_of_string
                 (DecimalString.NilZero.string_of_int (Z.to_int z)) = Some (Z.to_int z))
    as Hisi.
  { intros z. apply DecimalString.NilZero.isi; destruct z as [|p|p]; cbn; try done.
    - intros [= Hp]. by apply DecimalPos.Unsigned.to_uint_nonnil in Hp.
    - intros [= Hp]. by apply DecimalPos.Unsigned.to_uint_nonnil in Hp. }
  pose proof (Hisi n) as Hn. rewrite Heq, Hisi in Hn. by injection Hn.
Qed.

Lemma pad2_length k : 1 ≤ k ≤ 31 → String.length (pad2 k) = 2%nat.
Proof.
  intros Hk. apply Nat.eqb_eq.
  apply (zrange_forallb (λ k, Nat.eqb (String.length (pad2 k)) 2) 1 31);
    [vm_compute; reflexivity|lia].
Qed.

Lemma pad2_inj k k' : 1 ≤ k ≤ 31 → 1 ≤ k' ≤ 31 → pad2 k = pad2 k' → k = k'.
Proof.
  intros Hk Hk' Heq.
  pose proof (zrange_forallb
                (λ k, forallb (λ k', implb (String.eqb (pad2 k) (pad2 k')) (k =? k'))
                        (zrange 1 31)) 1 31) as Hall.
  specialize (Hall ltac:(vm_compute; reflexivity) k ltac:(lia)). cbn beta in Hall.
  pose proof (zrange_forallb _ 1 31 Hall k' ltac:(lia)) as Hkk. cbn beta in Hkk.
  rewrite Heq, String.eqb_refl in Hkk. cbn in Hkk. lia.
Qed.

Lemma day_tail_length k d :
  1 ≤ k ≤ 31 → 1 ≤ d ≤ 31 →
  String.length ("-" +:+ pad2 k +:+ "-" +:+ pad2 d) = 6%nat
  ∧ String.length ("-" +:+ pad2 d) = 3%nat.
Proof.
  intros Hk Hd. rewrite !str_length_app, !pad2_length by done. done.
Qed.

Lemma strftime_ymd_injective (n m : Z) :
  1 ≤ n → 1 ≤ m → strftime_ymd n = strftime_ymd m → n = m.
Proof.
  intros Hn Hm.
  destruct (ord2ymd_spec n Hn) as (y & mo & d & Hon & Hy & Hmo & Hd & Hback).
  destruct (ord2ymd_spec m Hm) as (y' & mo' & d' & Hom & Hy' & Hmo' & Hd' & Hback').
  unfold strftime_ymd. rewrite Hon, Hom. intros Heq.
  destruct (day_tail_length mo d) as [Hl1 Hl2]; [lia..|].
  destruct (day_tail_length mo' d') as [Hl1' Hl2']; [lia..|].
  apply str_app_inj_r in Heq as [Hyy Heq]; [|by rewrite Hl1, Hl1'].
  change ("-" +:+ ?s) with (String "-" s) in Heq. injection Heq as Heq.
  apply str_app_inj_r in Heq as [Hmm Heq]; [|by rewrite Hl2, Hl2'].
  change ("-" +:+ ?s) with (String "-" s) in Heq. injection Heq as Heq.
  apply str_of_int_inj in Hyy. apply pad2_inj in Hmm; [|lia..].
  apply pad2_inj in Heq; [|lia..]. subst. congruence.
Qed.

(** X21. Two dates have the same ["%Y-%m-%d"] string only if they are the
    same date: distinct days get distinct lines in [processed_days.txt] and
    distinct partition directories. *)
Theorem strftime_ymd_inj (n m : Z) :
  1 ≤ n → 1 ≤ m → strftime_ymd n = strftime_ymd m → n = m.
Proof. apply strftime_ymd_injective. Qed.

Lemma strftime_ymd_inj_witness :
  strftime_ymd Sample.d19 = "2025-09-19" ∧ strftime_ymd Sample.d20 ≠ strftime_ymd Sample.d19.
Proof.
  split; [reflexivity|]. intros Heq.
  pose proof (strftime_ymd_inj Sample.d20 Sample.d19) as Hinj.
  assert (Sample.d20 = Sample.d19) as Hd by (apply Hinj; [by vm_compute..|exact Heq]).
  discriminate Hd.
Defined.

(** X22. With the day strings of the script, a date of the range for which
    no partition can be written (no archive, nothing extracted, an empty
    harvest, or a failing write) is not in [processed_days.txt] after a run
    of [build_prices] unless it was there before, whatever the run returns
    and whatever other dates it processes. *)
Theorem build_prices_skips_failed_day (W : World) (fuel : nat)
    (start_date end_date step : Z) (st : BaseDir) (d : Z) :
  1 ≤ start_date → 0 ≤ step →
  visited start_date end_date step d →
  no_write strftime_ymd W d →
  strftime_ymd d ∉ processed_days st →
  strftime_ymd d
  ∉ processed_days (build_prices strftime_ymd W fuel start_date end_date step st).1.
Proof.
  intros Hstart Hstep Hd Hno Hnotin.
  destruct (build_prices strftime_ymd W fuel start_date end_date step st) as [st' r] eqn:Hrun.
  apply build_prices_inv in Hrun as (keys & _ & Hp & _ & Hdw & _).
  cbn [fst]. rewrite Hp, elem_of_app. intros [Hin|Hin]; [done|].
  rewrite Forall_forall in Hdw.
  destruct (Hdw _ Hin) as (d' & df & Hv & Heq & Hharv & Hok).
  assert (d' = d) as ->.
  { destruct Hv as (n' & -> & _), Hd as (n & -> & _).
    apply strftime_ymd_injective; [nia|nia|done]. }
  apply no_write_harvested in Hno as [Hno|Hno]; congruence.
Qed.

Lemma build_prices_skips_failed_day_witness :
  strftime_ymd Sample.d20 = "2025-09-20"
  ∧ strftime_ymd Sample.d20
    ∉ processed_days
        (build_prices strftime_ymd Sample.world 10 739512 739515 1 Sample.fresh).1.
Proof.
  split; [reflexivity|].
  apply (build_prices_skips_failed_day Sample.world 10 739512 739515 1 Sample.fresh
           Sample.d20).
  - lia.
  - lia.
  - exists 2%nat. split; [reflexivity|]. by vm_compute.
  - right. left. reflexivity.
  - apply not_elem_of_nil.
Defined.

(** ** Reading the raw prices back *)

(** X23. [load_all_prices] never raises and changes nothing.  Its rows are
    the rows of the raw partitions of the processed days that are still on
    disk, each partition once whatever the number of lines of its day; a
    processed day whose partition is gone (pruned, say) is passed over, and
    the frame is the empty frame when no partition is left. *)
Theorem load_all_prices_rows (set_order : list string → list string) (st : BaseDir) :
  (∀ l, NoDup (set_order l) ∧ ∀ x, x ∈ set_order l ↔ x ∈ l) →
  ∃ df,
    load_all_prices set_order st = (st, Ok df)
    ∧ pd.rows df
      = omap (raw_part (daily_prices st)) (set_order (processed_days st)) ≫= pd.rows
    ∧ (∀ r, r ∈ pd.rows df ↔
         ∃ d part, d ∈ processed_days st
                   ∧ daily_prices st !! ("date=" +:+ d) = Some (Directory (Some part))
                   ∧ r ∈ pd.rows part)
    ∧ ((∀ d, d ∈ processed_days st → raw_part (daily_prices st) d = None) →
       df = pd.empty_frame).
Proof.
  intros Horder. unfold load_all_prices, load_processed_days, bind, gets. cbn beta iota.
  set (existing := omap (raw_part (daily_prices st)) (set_order (processed_days st))).
  assert (∀ r, r ∈ existing ≫= pd.rows ↔
            ∃ d part, d ∈ processed_days st
                      ∧ daily_prices st !! ("date=" +:+ d) = Some (Directory (Some part))
                      ∧ r ∈ pd.rows part) as Hrows.
  { intros r. rewrite list_elem_of_bind. split.
    - intros (part & Hr & Hpart). apply list_elem_of_omap in Hpart as (d & Hd & Hraw).
      exists d, part. split_and!; [by apply Horder| |done].
      unfold raw_part in Hraw. by destruct (daily_prices st !! _) as [[|[?|]]|]; simplify_eq.
    - intros (d & part & Hd & Hdisk & Hr). exists part. split; [done|].
      apply list_elem_of_omap. exists d. split; [by apply Horder|].
      unfold raw_part. by rewrite Hdisk. }
  assert ((∀ d, d ∈ processed_days st → raw_part (daily_prices st) d = None) →
          existing = []) as Hnone.
  { intros Hall. subst existing.
    assert (∀ l, (∀ d, d ∈ l → d ∈ processed_days st) →
              omap (raw_part (daily_prices st)) l = []) as Hl.
    { induction l as [|d l IH]; intros Hsub; [done|]. cbn.
      rewrite Hall by (apply Hsub; by left). apply IH. intros d' Hd'. apply Hsub. by right. }
    apply Hl. intros d Hd. by apply Horder. }
  destruct existing as [|part parts] eqn:Hex.
  - exists pd.empty_frame. split_and!; [done|done|exact Hrows|done].
  - destruct (concat_cons_ok part parts) as (full & Hfull). exists full.
    unfold lift. rewrite Hfull. split_and!; [done|by apply concat_rows| |].
    + intros r. rewrite (concat_rows _ _ Hfull). apply Hrows.
    + intros Hall. by specialize (Hnone Hall).
Qed.

Lemma load_all_prices_rows_witness :
  ∃ df,
    load_all_prices remove_dups
      (build_prices strftime_ymd Sample.world 10 739512 739515 1 Sample.fresh).1
    = ((build_prices strftime_ymd Sample.world 10 739512 739515 1 Sample.fresh).1, Ok df)
    ∧ pd.len df = 3%nat.
Proof.
  destruct (load_all_prices_rows remove_dups
              (build_prices strftime_ymd Sample.world 10 739512 739515 1 Sample.fresh).1)
    as (df & Hrun & Hrows & _).
  - intros l. split; [apply NoDup_remove_dups|]. intros x. apply elem_of_remove_dups.
  - exists df. split; [exact Hrun|]. unfold pd.len. rewrite Hrows. vm_compute. reflexivity.
Defined.
